(** * Ratings controller: rating store, histogram counters, read-through caches

    A shallow embedding of the ratings controller
    (apps/backend/src/modules/rating/controller.ts).  MongoDB collections are
    lists of documents in natural (insertion) order, the three module-level
    [Map]s are finite maps keyed by strings, and every [async] function is a
    computation in a state-and-exception monad over the [World] below. *)

From Stdlib Require Import ZArith Ascii String List Bool Lia.
From stdpp Require Import base option list gmap strings fin_maps pretty.

Local Open Scope string_scope.
Local Open Scope Z_scope.

(** ** Documents *)

(** GraphQL enums are strings at run time. *)
Definition MetricName := string.
Definition Semester := string.
(** ObjectIds; only equality and freshness matter. *)
Definition ObjectId := Z.

(** [RatingType]: one document of the ratings collection. *)
Record RatingType := mkRating {
  r_id : ObjectId;
  r_createdBy : string;
  r_classId : ObjectId;
  r_courseId : string;
  r_year : Z;
  r_semester : Semester;
  r_subject : string;
  r_courseNumber : string;
  r_classNumber : string;
  r_metricName : MetricName;
  r_value : Z
}.

(** [interface RatingData]. *)
Record RatingData := mkRatingData {
  rd_classId : ObjectId;
  rd_courseId : string;
  rd_year : Z;
  rd_semester : Semester;
  rd_subject : string;
  rd_courseNumber : string;
  rd_classNumber : string;
  rd_metricName : MetricName;
  rd_value : Z
}.

(** One document of the aggregated-metrics collection, with the fields
    [handleCategoryCountChange] writes. *)
Record AggregatedMetric := mkAggregatedMetric {
  am_classId : ObjectId;
  am_courseId : string;
  am_subject : string;
  am_courseNumber : string;
  am_semester : Semester;
  am_year : Z;
  am_classNumber : string;
  am_metricName : MetricName;
  am_categoryValue : Z;
  am_categoryCount : Z
}.

(** The fields of a class document that the controller reads. *)
Record ClassDoc := mkClassDoc {
  cl_id : ObjectId;
  cl_courseId : string;
  cl_year : Z;
  cl_semester : Semester;
  cl_subject : string;
  cl_courseNumber : string;
  cl_number : string
}.

(** The fields of a course document that the controller reads. *)
Record CourseDoc := mkCourseDoc {
  co_subject : string;
  co_number : string;
  co_courseId : string
}.

Record DB := mkDB {
  ratings : list RatingType;
  aggregatedMetrics : list AggregatedMetric;
  classes : list ClassDoc;
  courses : list CourseDoc;
  nextId : ObjectId
}.

#[global] Instance RatingType_eq_dec : EqDecision RatingType.
Proof. solve_decision. Defined.
#[global] Instance AggregatedMetric_eq_dec : EqDecision AggregatedMetric.
Proof. solve_decision. Defined.

(** ** Query filters *)

(** [{ year, semester, subject, courseNumber, number: classNumber }]. *)
Definition classOf (year : Z) (semester : Semester)
    (subject courseNumber classNumber : string) (c : ClassDoc) : Prop :=
  cl_year c = year /\ cl_semester c = semester /\ cl_subject c = subject
  /\ cl_courseNumber c = courseNumber /\ cl_number c = classNumber.

(** [{ subject, number: courseNumber }]. *)
Definition courseOf (subject courseNumber : string) (c : CourseDoc) : Prop :=
  co_subject c = subject /\ co_number c = courseNumber.

(** [{ createdBy, subject, courseNumber, metricName }]. *)
Definition ratedBy (createdBy subject courseNumber : string)
    (metricName : MetricName) (r : RatingType) : Prop :=
  r_createdBy r = createdBy /\ r_subject r = subject
  /\ r_courseNumber r = courseNumber /\ r_metricName r = metricName.

(** [{ createdBy, subject, courseNumber, semester, year, classNumber,
    metricName }]. *)
Definition ratedIn (createdBy subject courseNumber : string) (semester : Semester)
    (year : Z) (classNumber : string) (metricName : MetricName)
    (r : RatingType) : Prop :=
  r_createdBy r = createdBy /\ r_subject r = subject
  /\ r_courseNumber r = courseNumber /\ r_semester r = semester
  /\ r_year r = year /\ r_classNumber r = classNumber
  /\ r_metricName r = metricName.

(** [{ createdBy, courseId }]. *)
Definition ratedCourse (createdBy courseId : string) (r : RatingType) : Prop :=
  r_createdBy r = createdBy /\ r_courseId r = courseId.

(** [{ createdBy, subject, courseNumber }]. *)
Definition ratedSubject (createdBy subject courseNumber : string)
    (r : RatingType) : Prop :=
  r_createdBy r = createdBy /\ r_subject r = subject
  /\ r_courseNumber r = courseNumber.

(** [{ _id }]. *)
Definition hasId (id : ObjectId) (r : RatingType) : Prop := r_id r = id.

(** [{ classId, metricName, categoryValue }]. *)
Definition counterKey (classId : ObjectId) (metricName : MetricName)
    (categoryValue : Z) (m : AggregatedMetric) : Prop :=
  am_classId m = classId /\ am_metricName m = metricName
  /\ am_categoryValue m = categoryValue.

#[global] Instance classOf_dec y s sub num cls c : Decision (classOf y s sub num cls c).
Proof. unfold classOf. apply _. Defined.
#[global] Instance courseOf_dec sub num c : Decision (courseOf sub num c).
Proof. unfold courseOf. apply _. Defined.
#[global] Instance ratedBy_dec u sub num m r : Decision (ratedBy u sub num m r).
Proof. unfold ratedBy. apply _. Defined.
#[global] Instance ratedIn_dec u sub num s y cls m r :
  Decision (ratedIn u sub num s y cls m r).
Proof. unfold ratedIn. apply _. Defined.
#[global] Instance ratedCourse_dec u c r : Decision (ratedCourse u c r).
Proof. unfold ratedCourse. apply _. Defined.
#[global] Instance ratedSubject_dec u sub num r : Decision (ratedSubject u sub num r).
Proof. unfold ratedSubject. apply _. Defined.
#[global] Instance hasId_dec id r : Decision (hasId id r).
Proof. unfold hasId. apply _. Defined.
#[global] Instance counterKey_dec c n v m : Decision (counterKey c n v m).
Proof. unfold counterKey. apply _. Defined.

(** ** Errors *)

(** [new GraphQLError(message, { extensions: { code } })], or a rejection
    raised by the storage layer itself. *)
Inductive Error :=
| GraphQLError (message code : string)
| StorageError.

Definition errorCode (e : Error) : option string :=
  match e with
  | GraphQLError _ c => Some c
  | StorageError => None
  end.

Inductive Result (A : Type) :=
| Ok (a : A)
| Err (e : Error).
Arguments Ok {A} a.
Arguments Err {A} e.

(** The error kinds of the specification's taxonomy, and the kind that each
    extension code of the controller stands for.  ConstraintViolation is
    raised by a helper outside the controller; no code of the controller
    stands for InvariantViolation. *)
Inductive ErrorKind :=
| Unauthenticated | BadInput | InvalidArgument
| ConstraintViolation | NotFound | InvariantViolation.

Definition errorKind (e : Error) : option ErrorKind :=
  match e with
  | GraphQLError _ c =>
      if String.eqb c "UNAUTHENTICATED" then Some Unauthenticated
      else if String.eqb c "BAD_USER_INPUT" then Some BadInput
      else if String.eqb c "INVALID_ARGUMENT" then Some InvalidArgument
      else if String.eqb c "NOT_FOUND" then Some NotFound
      else None
  | StorageError => None
  end.

(** ** Cache entries *)

Record CacheEntry (T : Type) := mkCacheEntry {
  value : T;
  expiresAt : Z
}.
Arguments mkCacheEntry {T} _ _.
Arguments value {T} _.
Arguments expiresAt {T} _.

Definition COURSE_AGGREGATED_RATINGS_TTL_MS : Z := 2 * 60 * 1000.
Definition SEMESTER_RATINGS_TTL_MS : Z := 5 * 60 * 1000.
Definition INSTRUCTOR_RATINGS_TTL_MS : Z := 5 * 60 * 1000.

(** [context.user._id]; the only falsy string is the empty one. *)
Record RequestContext := mkContext { user_id : string }.

Definition truthy (s : string) : bool := negb (String.eqb s "").

(** ** Read-side result shapes *)

(** What the formatter and the aggregation pipelines produce is opaque to
    the controller, apart from the fields it reads: [MetricDetails] stands
    for the weighted average and the categories of a formatted metric. *)
Class Shapes := {
  MetricDetails : Type;
  RawAggregate : Type;
  FormattedSemesterRatings : Type;
  InstructorAggregatedRatingsResult : Type;
  UserClass : Type;
  RawUserRatings : Type
}.

(** [METRIC_MAPPINGS] of the shared package holds, for each metric, whether
    it is rated on the number scale. *)
Record MetricConfig := mkMetricConfig { isRating : bool }.

Section Controller.

Context `{Shapes}.

Record FormattedMetric := mkFormattedMetric {
  fm_metricName : MetricName;
  fm_count : Z;
  fm_details : MetricDetails
}.

Record FormattedAggregatedRatings := mkFormatted {
  f_subject : string;
  f_courseNumber : string;
  f_semester : option Semester;
  f_year : option Z;
  f_classNumber : option string;
  f_metrics : list FormattedMetric
}.

Record UserRatings := mkUserRatings {
  ur_createdBy : string;
  ur_count : Z;
  ur_classes : list UserClass
}.

(** ** Collaborators outside the controller *)

(** The modules the controller imports and that are taken as given: the
    shared metric tables, the constraint helpers, the aggregation pipelines
    (as functions of the committed database) and the formatter, and the
    host's [String.prototype.localeCompare]. *)
Class Collaborators := {
  METRIC_MAPPINGS : gmap string MetricConfig;
  REQUIRED_METRICS : list MetricName;
  checkValueConstraint : MetricName -> Z -> Result unit;
  checkUserMaxRatingsConstraint :
    UserRatings -> Z -> Semester -> string -> string -> Result unit;
  userRatingsAggregator : DB -> RequestContext -> list RawUserRatings;
  formatUserRatings : RawUserRatings -> UserRatings;
  courseRatingAggregator : DB -> string -> list RawAggregate;
  formatAggregatedRatings : RawAggregate -> FormattedAggregatedRatings;
  localeCompare : string -> string -> Z
}.

Context `{!Collaborators}.

(** ** The world *)

(** [db] is the committed database, what an operation issued without a
    session reads.  [txn] is the view of the open transaction, if any:
    operations issued with the session read and write it.  [clock] is what
    [Date.now()] returns.  [faultIn] is the storage layer's schedule:
    [Some n] means that the write after the next [n] ones is rejected. *)
Record World := mkWorld {
  db : DB;
  txn : option DB;
  courseAggregatedRatingsCache : gmap string (CacheEntry FormattedAggregatedRatings);
  semestersWithRatingsCache : gmap string (CacheEntry FormattedSemesterRatings);
  instructorAggregatedRatingsCache : gmap string (CacheEntry InstructorAggregatedRatingsResult);
  clock : Z;
  sessionsStarted : nat;
  sessionsEnded : nat;
  faultIn : option nat
}.

Definition set_db (d : DB) (w : World) : World :=
  mkWorld d (txn w) (courseAggregatedRatingsCache w) (semestersWithRatingsCache w)
    (instructorAggregatedRatingsCache w) (clock w) (sessionsStarted w)
    (sessionsEnded w) (faultIn w).
Definition set_txn (t : option DB) (w : World) : World :=
  mkWorld (db w) t (courseAggregatedRatingsCache w) (semestersWithRatingsCache w)
    (instructorAggregatedRatingsCache w) (clock w) (sessionsStarted w)
    (sessionsEnded w) (faultIn w).
Definition set_courseCache (c : gmap string (CacheEntry FormattedAggregatedRatings))
    (w : World) : World :=
  mkWorld (db w) (txn w) c (semestersWithRatingsCache w)
    (instructorAggregatedRatingsCache w) (clock w) (sessionsStarted w)
    (sessionsEnded w) (faultIn w).
Definition set_semestersCache (c : gmap string (CacheEntry FormattedSemesterRatings))
    (w : World) : World :=
  mkWorld (db w) (txn w) (courseAggregatedRatingsCache w) c
    (instructorAggregatedRatingsCache w) (clock w) (sessionsStarted w)
    (sessionsEnded w) (faultIn w).
Definition set_instructorCache
    (c : gmap string (CacheEntry InstructorAggregatedRatingsResult))
    (w : World) : World :=
  mkWorld (db w) (txn w) (courseAggregatedRatingsCache w)
    (semestersWithRatingsCache w) c (clock w) (sessionsStarted w)
    (sessionsEnded w) (faultIn w).
Definition set_sessionsStarted (n : nat) (w : World) : World :=
  mkWorld (db w) (txn w) (courseAggregatedRatingsCache w)
    (semestersWithRatingsCache w) (instructorAggregatedRatingsCache w) (clock w)
    n (sessionsEnded w) (faultIn w).
Definition set_sessionsEnded (n : nat) (w : World) : World :=
  mkWorld (db w) (txn w) (courseAggregatedRatingsCache w)
    (semestersWithRatingsCache w) (instructorAggregatedRatingsCache w) (clock w)
    (sessionsStarted w) n (faultIn w).
Definition set_faultIn (f : option nat) (w : World) : World :=
  mkWorld (db w) (txn w) (courseAggregatedRatingsCache w)
    (semestersWithRatingsCache w) (instructorAggregatedRatingsCache w) (clock w)
    (sessionsStarted w) (sessionsEnded w) f.

(** ** The monad of [async] functions *)

Definition M (A : Type) : Type := World -> Result A * World.

Definition ret {A} (a : A) : M A := fun w => (Ok a, w).
Definition throw {A} (e : Error) : M A := fun w => (Err e, w).
Definition bind {A B} (m : M A) (k : A -> M B) : M B :=
  fun w =>
    match m w with
    | (Ok a, w') => k a w'
    | (Err e, w') => (Err e, w')
    end.

Notation "x <~ m ;; k" := (bind m (fun x => k))
  (at level 100, m at next level, right associativity).
Notation "m ;;; k" := (bind m (fun _ => k))
  (at level 100, right associativity).

(** [try { body } finally { fin }]. *)
Definition tryFinally {A} (body : M A) (fin : M unit) : M A :=
  fun w =>
    match body w with
    | (r, w') =>
        match fin w' with
        | (Ok _, w'') => (r, w'')
        | (Err e, w'') => (Err e, w'')
        end
    end.

(** [for (const x of xs) await f(x)]. *)
Fixpoint forEach {A} (xs : list A) (f : A -> M unit) : M unit :=
  match xs with
  | [] => ret tt
  | x :: rest => f x ;;; forEach rest f
  end.

(** [await Promise.all([p1, p2])] for promises whose effects are confined to
    the session: the branches run in array order.  A rejection of either
    aborts the enclosing transaction, which discards whatever the other
    branch wrote. *)
Definition Promise_all2 (p1 p2 : M unit) : M unit := p1 ;;; p2.

(** ** The storage layer *)

(** A session handle, as returned by [connection.startSession()]. *)
Definition ClientSession := nat.

Definition set_ratings (l : list RatingType) (d : DB) : DB :=
  mkDB l (aggregatedMetrics d) (classes d) (courses d) (nextId d).
Definition set_aggregatedMetrics (l : list AggregatedMetric) (d : DB) : DB :=
  mkDB (ratings d) l (classes d) (courses d) (nextId d).
Definition set_nextId (n : ObjectId) (d : DB) : DB :=
  mkDB (ratings d) (aggregatedMetrics d) (classes d) (courses d) n.

(** The database an operation sees: the transaction's view when it carries
    a session and a transaction is open, the committed one otherwise. *)
Definition sessionView (session : option ClientSession) (w : World) : DB :=
  match session, txn w with
  | Some _, Some d => d
  | _, _ => db w
  end.

Definition sessionStore (session : option ClientSession) (d : DB) (w : World) : World :=
  match session, txn w with
  | Some _, Some _ => set_txn (Some d) w
  | _, _ => set_db d w
  end.

Definition storageRead {A} (session : option ClientSession) (f : DB -> A) : M A :=
  fun w => (Ok (f (sessionView session w)), w).

Definition storageWrite (session : option ClientSession) (f : DB -> DB) : M unit :=
  fun w =>
    match faultIn w with
    | Some O => (Err StorageError, set_faultIn None w)
    | Some (S n) =>
        let w1 := set_faultIn (Some n) w in
        (Ok tt, sessionStore session (f (sessionView session w1)) w1)
    | None => (Ok tt, sessionStore session (f (sessionView session w)) w)
    end.

(** [connection.startSession()] and [session.endSession()]. *)
Definition startSession : M ClientSession :=
  fun w => (Ok (sessionsStarted w), set_sessionsStarted (S (sessionsStarted w)) w).
Definition endSession (session : ClientSession) : M unit :=
  fun w => (Ok tt, set_sessionsEnded (S (sessionsEnded w)) w).

(** [session.withTransaction(body)]: the body works on a private view that
    starts as the committed database; the view is committed when the body
    returns and dropped when it throws.  Only the database is rolled back:
    whatever else the body did to the world stays. *)
Definition withTransaction {A} (session : ClientSession) (body : M A) : M A :=
  fun w =>
    match body (set_txn (Some (db w)) w) with
    | (Ok a, w') =>
        (Ok a, set_txn None (set_db (sessionView (Some session) w') w'))
    | (Err e, w') => (Err e, set_txn None w')
    end.

(** *** RatingModel *)

Definition RatingModel_findOne (P : RatingType -> Prop) `{!forall r, Decision (P r)}
    (session : option ClientSession) : M (option RatingType) :=
  storageRead session (fun d => snd <$> list_find P (ratings d)).

Definition RatingModel_find (P : RatingType -> Prop) `{!forall r, Decision (P r)}
    (session : option ClientSession) : M (list RatingType) :=
  storageRead session (fun d => filter P (ratings d)).

(** [deleteOne({ _id })]: the first document with that [_id] goes. *)
Definition deleteById (id : ObjectId) (l : list RatingType) : list RatingType :=
  match list_find (hasId id) l with
  | Some (i, _) => delete i l
  | None => l
  end.

Definition RatingModel_deleteOne (id : ObjectId) (session : option ClientSession) : M unit :=
  storageWrite session (fun d => set_ratings (deleteById id (ratings d)) d).

Definition withValue (v : Z) (r : RatingType) : RatingType :=
  mkRating (r_id r) (r_createdBy r) (r_classId r) (r_courseId r) (r_year r)
    (r_semester r) (r_subject r) (r_courseNumber r) (r_classNumber r)
    (r_metricName r) v.

(** [updateOne({ _id }, { value })]. *)
Definition updateById (id : ObjectId) (v : Z) (l : list RatingType) : list RatingType :=
  match list_find (hasId id) l with
  | Some (i, r) => <[i := withValue v r]> l
  | None => l
  end.

Definition RatingModel_updateOne (id : ObjectId) (v : Z) (session : option ClientSession) : M unit :=
  storageWrite session (fun d => set_ratings (updateById id v (ratings d)) d).

Definition newRating (id : ObjectId) (createdBy : string) (rd : RatingData) : RatingType :=
  mkRating id createdBy (rd_classId rd) (rd_courseId rd) (rd_year rd)
    (rd_semester rd) (rd_subject rd) (rd_courseNumber rd) (rd_classNumber rd)
    (rd_metricName rd) (rd_value rd).

(** [create([{ createdBy, ...ratingData }])]: appended under a fresh [_id]. *)
Definition RatingModel_create (createdBy : string) (rd : RatingData)
    (session : option ClientSession) : M unit :=
  storageWrite session (fun d =>
    set_nextId (nextId d + 1)
      (set_ratings (ratings d ++ [newRating (nextId d) createdBy rd]) d)).

(** *** AggregatedMetricsModel *)

(** [findOne({ classId, metricName, categoryValue })]: the first matching
    document, together with its position, which stands for the document
    when it is saved back. *)
Definition AggregatedMetricsModel_findOne (classId : ObjectId) (metricName : MetricName)
    (categoryValue : Z) (session : option ClientSession)
  : M (option (nat * AggregatedMetric)) :=
  storageRead session (fun d =>
    list_find (counterKey classId metricName categoryValue) (aggregatedMetrics d)).

Definition withCount (c : Z) (m : AggregatedMetric) : AggregatedMetric :=
  mkAggregatedMetric (am_classId m) (am_courseId m) (am_subject m)
    (am_courseNumber m) (am_semester m) (am_year m) (am_classNumber m)
    (am_metricName m) (am_categoryValue m) c.

(** [metric.save({ session })]. *)
Definition AggregatedMetric_save (i : nat) (m : AggregatedMetric)
    (session : option ClientSession) : M unit :=
  storageWrite session (fun d =>
    set_aggregatedMetrics (<[i := m]> (aggregatedMetrics d)) d).

Definition AggregatedMetricsModel_create (m : AggregatedMetric)
    (session : option ClientSession) : M unit :=
  storageWrite session (fun d =>
    set_aggregatedMetrics (aggregatedMetrics d ++ [m]) d).

(** ** The caches *)

(** A reference to one of the module-level [Map]s: functions that take the
    map as an argument mutate the map itself. *)
Record CacheRef (T : Type) := mkCacheRef {
  cacheOf : World -> gmap string (CacheEntry T);
  setCache : gmap string (CacheEntry T) -> World -> World
}.
Arguments cacheOf {T} _ _.
Arguments setCache {T} _ _ _.

Definition courseAggregatedRatingsCacheRef : CacheRef FormattedAggregatedRatings :=
  mkCacheRef _ courseAggregatedRatingsCache set_courseCache.
Definition semestersWithRatingsCacheRef : CacheRef FormattedSemesterRatings :=
  mkCacheRef _ semestersWithRatingsCache set_semestersCache.
Definition instructorAggregatedRatingsCacheRef
  : CacheRef InstructorAggregatedRatingsResult :=
  mkCacheRef _ instructorAggregatedRatingsCache set_instructorCache.

Definition Date_now : M Z := fun w => (Ok (clock w), w).

Definition Map_get {T} (cache : CacheRef T) (key : string) : M (option (CacheEntry T)) :=
  fun w => (Ok (cacheOf cache w !! key), w).
Definition Map_delete {T} (cache : CacheRef T) (key : string) : M unit :=
  fun w => (Ok tt, setCache cache (delete key (cacheOf cache w)) w).
Definition Map_set {T} (cache : CacheRef T) (key : string) (e : CacheEntry T) : M unit :=
  fun w => (Ok tt, setCache cache (<[key := e]> (cacheOf cache w)) w).

Definition getCachedValue {T} (cache : CacheRef T) (key : string) : M (option T) :=
  entry <~ Map_get cache key ;;
  match entry with
  | None => ret None
  | Some entry =>
      now <~ Date_now ;;
      if now >? expiresAt entry then
        Map_delete cache key ;;;
        ret None
      else ret (Some (value entry))
  end.

Definition setCachedValue {T} (cache : CacheRef T) (key : string) (v : T)
    (ttlMs : Z) : M unit :=
  now <~ Date_now ;;
  Map_set cache key (mkCacheEntry v (now + ttlMs)).

(** [for (const [key, entry] of cache) if (now > entry.expiresAt)
    cache.delete(key)]. *)
Definition sweepExpiredEntries {T} (cache : CacheRef T) : M unit :=
  now <~ Date_now ;;
  fun w =>
    (Ok tt,
     setCache cache
       (foldr (fun '(key, entry) c => if now >? expiresAt entry then delete key c else c)
          (cacheOf cache w) (map_to_list (cacheOf cache w))) w).

Fixpoint insertSorted (x : string) (l : list string) : list string :=
  match l with
  | [] => [x]
  | y :: rest =>
      if localeCompare x y <=? 0 then x :: y :: rest
      else y :: insertSorted x rest
  end.

(** [.sort((a, b) => a.localeCompare(b))]; the sort is stable: an element
    stays in front of the later ones it compares equal to. *)
Definition sortByLocale (l : list string) : list string :=
  foldr insertSorted [] l.

Definition getMetricNamesKey (metricNames : option (list MetricName)) : string :=
  match metricNames with
  | None | Some [] => "all"
  | Some names => String.concat "," (sortByLocale names)
  end.

Definition invalidateRatingsCaches (courseId : string) : M unit :=
  let courseKeyPrefix := courseId +:+ ":" in
  (fun w =>
     (Ok tt,
      set_courseCache
        (foldr (fun cacheKey c =>
                  if String.prefix courseKeyPrefix cacheKey then delete cacheKey c
                  else c)
               (courseAggregatedRatingsCache w)
               (map_to_list (courseAggregatedRatingsCache w)).*1) w)) ;;;
  Map_delete semestersWithRatingsCacheRef courseId ;;;
  Map_delete instructorAggregatedRatingsCacheRef courseId.

(** ** Lookups *)

Definition classNotFound (year : Z) (semester : Semester)
    (subject courseNumber classNumber : string) : Error :=
  GraphQLError
    ("Class not found: " +:+ subject +:+ " " +:+ courseNumber +:+ " "
       +:+ semester +:+ " " +:+ pretty year +:+ " #" +:+ classNumber)
    "NOT_FOUND".

Definition getClassDocument (year : Z) (semester : Semester)
    (subject courseNumber classNumber : string) : M ClassDoc :=
  classDoc <~ storageRead None (fun d =>
    snd <$> list_find (classOf year semester subject courseNumber classNumber)
              (classes d)) ;;
  match classDoc with
  | None => throw (classNotFound year semester subject courseNumber classNumber)
  | Some classDoc => ret classDoc
  end.

Definition getCourseId (subject courseNumber : string) : M (option string) :=
  course <~ storageRead None (fun d =>
    snd <$> list_find (courseOf subject courseNumber) (courses d)) ;;
  ret (co_courseId <$> course).

Definition numberScaleMetrics : list MetricName :=
  (filter (fun e => isRating e.2 = true) (map_to_list METRIC_MAPPINGS)).*1.

Definition booleanScaleMetrics : list MetricName :=
  (filter (fun e => negb (isRating e.2) = true) (map_to_list METRIC_MAPPINGS)).*1.

Definition includes (l : list MetricName) (m : MetricName) : bool :=
  bool_decide (m ∈ l).

Definition unauthorized : Error := GraphQLError "Unauthorized" "UNAUTHENTICATED".

(** A pure check that returns or throws. *)
Definition liftResult {A} (r : Result A) : M A := fun w => (r, w).

(** Modelled from the spec: [checkRatingExists] of helper/checkConstraints is
    not part of the sources at hand.  It "returns the live Rating for that
    tuple [(user, subject, courseNumber, metricName)] or none"; it is called
    without a session, so it reads the committed collection. *)
Definition checkRatingExists (context : RequestContext)
    (subject courseNumber : string) (metricName : MetricName)
  : M (option RatingType) :=
  RatingModel_findOne
    (ratedBy (user_id context) subject courseNumber metricName) None.

(** ** The counter store *)

Definition handleCategoryCountChange (classId : ObjectId) (courseId : string)
    (year : Z) (semester : Semester) (subject courseNumber classNumber : string)
    (metricName : MetricName) (categoryValue : Z) (isIncrement : bool)
    (session : option ClientSession) : M unit :=
  let delta := if isIncrement then 1 else -1 in
  metric <~ AggregatedMetricsModel_findOne classId metricName categoryValue session ;;
  match metric with
  | Some (i, metric) =>
      AggregatedMetric_save i
        (withCount (am_categoryCount metric + delta) metric) session
  | None =>
      if isIncrement then
        valueRange <~
          (if includes numberScaleMetrics metricName then ret [1; 2; 3; 4; 5]
           else if includes booleanScaleMetrics metricName then ret [0; 1]
           else throw (GraphQLError "Invalid metric name" "INVALID_ARGUMENT")) ;;
        forEach valueRange (fun v =>
          AggregatedMetricsModel_create
            (mkAggregatedMetric classId courseId subject courseNumber semester
               year classNumber metricName v
               (if v =? categoryValue then 1 else 0))
            session)
      else
        throw (GraphQLError "Aggregated Rating does not exist, cannot decrement"
                 "NOT_FOUND")
  end.

(** ** The rating store *)

Definition createNewRating (context : RequestContext) (ratingData : RatingData)
    (session : ClientSession) : M unit :=
  Promise_all2
    (RatingModel_create (user_id context) ratingData (Some session))
    (handleCategoryCountChange (rd_classId ratingData) (rd_courseId ratingData)
       (rd_year ratingData) (rd_semester ratingData) (rd_subject ratingData)
       (rd_courseNumber ratingData) (rd_classNumber ratingData)
       (rd_metricName ratingData) (rd_value ratingData) true (Some session)).

Definition handleExistingRating (existingRating : RatingType) (newValue : Z)
    (session : ClientSession) : M unit :=
  let oldValue := r_value existingRating in
  if oldValue =? newValue then ret tt
  else
    RatingModel_updateOne (r_id existingRating) newValue (Some session) ;;;
    Promise_all2
      (handleCategoryCountChange (r_classId existingRating)
         (r_courseId existingRating) (r_year existingRating)
         (r_semester existingRating) (r_subject existingRating)
         (r_courseNumber existingRating) (r_classNumber existingRating)
         (r_metricName existingRating) oldValue false (Some session))
      (handleCategoryCountChange (r_classId existingRating)
         (r_courseId existingRating) (r_year existingRating)
         (r_semester existingRating) (r_subject existingRating)
         (r_courseNumber existingRating) (r_classNumber existingRating)
         (r_metricName existingRating) newValue true (Some session)).

Definition ratingNotFound : Error := GraphQLError "Rating not found" "NOT_FOUND".

Definition deleteRatingOperations (context : RequestContext) (year : Z)
    (semester : Semester) (subject courseNumber classNumber : string)
    (metricName : MetricName) (session : ClientSession) : M RatingType :=
  rating <~ RatingModel_findOne
    (ratedIn (user_id context) subject courseNumber semester year classNumber
       metricName) None ;;
  match rating with
  | None => throw ratingNotFound
  | Some rating =>
      Promise_all2
        (RatingModel_deleteOne (r_id rating) (Some session))
        (handleCategoryCountChange (r_classId rating) (r_courseId rating) year
           semester subject courseNumber classNumber metricName (r_value rating)
           false (Some session)) ;;;
      ret rating
  end.

Definition deleteRating (context : RequestContext) (year : Z)
    (semester : Semester) (subject courseNumber classNumber : string)
    (metricName : MetricName) (existingSession : option ClientSession) : M bool :=
  if negb (truthy (user_id context)) then throw unauthorized
  else
    deletedCourseId <~
      match existingSession with
      | Some existingSession =>
          deletedRating <~ deleteRatingOperations context year semester subject
            courseNumber classNumber metricName existingSession ;;
          ret (r_courseId deletedRating)
      | None =>
          session <~ startSession ;;
          tryFinally
            (withTransaction session
               (deletedRating <~ deleteRatingOperations context year semester
                  subject courseNumber classNumber metricName session ;;
                ret (r_courseId deletedRating)))
            (endSession session)
      end ;;
    (if truthy deletedCourseId then invalidateRatingsCaches deletedCourseId
     else ret tt) ;;;
    ret true.

Definition getUserRatings (context : RequestContext) : M UserRatings :=
  if negb (truthy (user_id context)) then throw unauthorized
  else
    userRatings <~ storageRead None (fun d => userRatingsAggregator d context) ;;
    match userRatings with
    | [] => ret (mkUserRatings (user_id context) 0 [])
    | first :: _ => ret (formatUserRatings first)
    end.

(** The callback that [createRating] passes to [session.withTransaction]. *)
Definition createRating_transaction (context : RequestContext)
    (classId : ObjectId) (courseId : string) (year : Z)
    (semester : Semester) (subject courseNumber classNumber : string)
    (metricName : MetricName) (value : Z) (session : ClientSession) : M unit :=
  existingRating <~ checkRatingExists context subject courseNumber metricName ;;
  match existingRating with
  | None =>
      createNewRating context
        (mkRatingData classId courseId year semester subject courseNumber
           classNumber metricName value) session
  | Some existingRating =>
      if negb (String.eqb (r_semester existingRating) semester)
         || negb (r_year existingRating =? year)
         || negb (String.eqb (r_classNumber existingRating) classNumber)
      then
        deleteRating context (r_year existingRating)
          (r_semester existingRating) (r_subject existingRating)
          (r_courseNumber existingRating) (r_classNumber existingRating)
          (r_metricName existingRating) (Some session) ;;;
        createNewRating context
          (mkRatingData classId courseId year semester subject
             courseNumber classNumber metricName value) session
      else handleExistingRating existingRating value session
  end.

Definition createRating (context : RequestContext) (year : Z)
    (semester : Semester) (subject courseNumber classNumber : string)
    (metricName : MetricName) (value : Z) : M bool :=
  if negb (truthy (user_id context)) then throw unauthorized
  else
    liftResult (checkValueConstraint metricName value) ;;;
    classDoc <~ getClassDocument year semester subject courseNumber classNumber ;;
    let classId := cl_id classDoc in
    let courseId := cl_courseId classDoc in
    userRatings <~ getUserRatings context ;;
    liftResult (checkUserMaxRatingsConstraint userRatings year semester subject
                  courseNumber) ;;;
    session <~ startSession ;;
    tryFinally
      (withTransaction session
         (createRating_transaction context classId courseId year semester
            subject courseNumber classNumber metricName value session))
      (endSession session) ;;;
    invalidateRatingsCaches courseId ;;;
    ret true.

Record MetricInput := mkMetricInput {
  mi_metricName : MetricName;
  mi_value : Z
}.

Definition deleteExisting (existingRating : RatingType) (session : ClientSession)
  : M unit :=
  Promise_all2
    (RatingModel_deleteOne (r_id existingRating) (Some session))
    (handleCategoryCountChange (r_classId existingRating)
       (r_courseId existingRating) (r_year existingRating)
       (r_semester existingRating) (r_subject existingRating)
       (r_courseNumber existingRating) (r_classNumber existingRating)
       (r_metricName existingRating) (r_value existingRating) false
       (Some session)).

Definition createRatings (context : RequestContext) (year : Z)
    (semester : Semester) (subject courseNumber classNumber : string)
    (metrics : list MetricInput) : M bool :=
  if negb (truthy (user_id context)) then throw unauthorized
  else
    let providedMetrics := mi_metricName <$> metrics in
    let missingRequired :=
      filter (fun m => m ∉ providedMetrics) REQUIRED_METRICS in
    (if (0 <? Z.of_nat (length missingRequired)) then
       throw (GraphQLError
                ("Missing required metrics: " +:+ String.concat ", " missingRequired)
                "BAD_USER_INPUT")
     else ret tt) ;;;
    forEach metrics (fun metric =>
      liftResult (checkValueConstraint (mi_metricName metric) (mi_value metric))) ;;;
    classDoc <~ getClassDocument year semester subject courseNumber classNumber ;;
    let classId := cl_id classDoc in
    let courseId := cl_courseId classDoc in
    userRatings <~ getUserRatings context ;;
    liftResult (checkUserMaxRatingsConstraint userRatings year semester subject
                  courseNumber) ;;;
    existingRatings <~ RatingModel_find
      (ratedCourse (user_id context) courseId) None ;;
    session <~ startSession ;;
    tryFinally
      (withTransaction session
         (forEach existingRatings (fun existingRating =>
            deleteExisting existingRating session) ;;;
          forEach metrics (fun metric =>
            Promise_all2
              (RatingModel_create (user_id context)
                 (mkRatingData classId courseId year semester subject courseNumber
                    classNumber (mi_metricName metric) (mi_value metric))
                 (Some session))
              (handleCategoryCountChange classId courseId year semester subject
                 courseNumber classNumber (mi_metricName metric)
                 (mi_value metric) true (Some session)))))
      (endSession session) ;;;
    invalidateRatingsCaches courseId ;;;
    ret true.

(** [new Set(xs)]: the distinct elements in order of first insertion. *)
Fixpoint Set_of (xs : list string) : list string :=
  match xs with
  | [] => []
  | x :: rest => x :: filter (fun y => y <> x) (Set_of rest)
  end.

Definition deleteRatings (context : RequestContext)
    (subject courseNumber : string) : M bool :=
  if negb (truthy (user_id context)) then throw unauthorized
  else
    existingRatings <~ RatingModel_find
      (ratedSubject (user_id context) subject courseNumber) None ;;
    let affectedCourseIds :=
      Set_of (filter (fun c => truthy c = true) (r_courseId <$> existingRatings)) in
    if (length existingRatings =? 0)%nat then ret true
    else
      session <~ startSession ;;
      tryFinally
        (withTransaction session
           (forEach existingRatings (fun existingRating =>
              deleteExisting existingRating session)))
        (endSession session) ;;;
      forEach affectedCourseIds invalidateRatingsCaches ;;;
      ret true.

(** *** Calls in flight at once

    [deleteRatings] awaits the ratings to delete before it starts its
    session, so another call can run between that query and the
    transaction.  [deleteRatings_find] is the call up to that [await],
    [deleteRatings_afterFind] the call from there on, given what the query
    returned. *)
Definition deleteRatings_find (context : RequestContext)
    (subject courseNumber : string) : M (list RatingType) :=
  if negb (truthy (user_id context)) then throw unauthorized
  else
    RatingModel_find (ratedSubject (user_id context) subject courseNumber) None.

Definition deleteRatings_afterFind (existingRatings : list RatingType) : M bool :=
  let affectedCourseIds :=
    Set_of (filter (fun c => truthy c = true) (r_courseId <$> existingRatings)) in
  if (length existingRatings =? 0)%nat then ret true
  else
    session <~ startSession ;;
    tryFinally
      (withTransaction session
         (forEach existingRatings (fun existingRating =>
            deleteExisting existingRating session)))
      (endSession session) ;;;
    forEach affectedCourseIds invalidateRatingsCaches ;;;
    ret true.

(** The outcome of one call among several in flight: its rejection is its
    own and stops no other call. *)
Definition settled {A} (m : M A) : M (Result A) :=
  fun w => let '(r, w') := m w in (Ok r, w').

Definition deleteRatings_resume (found : Result (list RatingType)) : M bool :=
  match found with
  | Ok existingRatings => deleteRatings_afterFind existingRatings
  | Err e => throw e
  end.

(** Two calls of [deleteRatings] that overlap: the query of each has
    returned before the other starts its session.  The transactions
    themselves run one after the other. *)
Definition deleteRatings_overlapping
    (first : RequestContext) (firstSubject firstCourseNumber : string)
    (second : RequestContext) (secondSubject secondCourseNumber : string)
  : M (Result bool * Result bool) :=
  foundByFirst <~ settled (deleteRatings_find first firstSubject firstCourseNumber) ;;
  foundBySecond <~
    settled (deleteRatings_find second secondSubject secondCourseNumber) ;;
  firstResult <~ settled (deleteRatings_resume foundByFirst) ;;
  secondResult <~ settled (deleteRatings_resume foundBySecond) ;;
  ret (firstResult, secondResult).

(** ** The read path *)

Definition filterAggregatedMetrics (aggregated : FormattedAggregatedRatings)
    (metricNames : option (list MetricName)) : FormattedAggregatedRatings :=
  match metricNames with
  | None | Some [] => aggregated
  | Some allowedMetrics =>
      mkFormatted (f_subject aggregated) (f_courseNumber aggregated)
        (f_semester aggregated) (f_year aggregated) (f_classNumber aggregated)
        (filter (fun metric => fm_metricName metric ∈ allowedMetrics)
           (f_metrics aggregated))
  end.

Definition noRatings (subject courseNumber : string) : FormattedAggregatedRatings :=
  mkFormatted subject courseNumber None None None [].

(** What [getCourseAggregatedRatings] computes on a miss. *)
Definition courseAggregate (subject courseNumber courseId : string)
    (metricNames : option (list MetricName)) : M FormattedAggregatedRatings :=
  aggregated <~ storageRead None (fun d => courseRatingAggregator d courseId) ;;
  ret match aggregated with
      | [] => noRatings subject courseNumber
      | first :: _ => filterAggregatedMetrics (formatAggregatedRatings first) metricNames
      end.

Definition getCourseAggregatedRatings (subject courseNumber : string)
    (metricNames : option (list MetricName)) : M FormattedAggregatedRatings :=
  courseId <~ getCourseId subject courseNumber ;;
  match courseId with
  | None => ret (noRatings subject courseNumber)
  | Some courseId =>
      if negb (truthy courseId) then ret (noRatings subject courseNumber)
      else
        let cacheKey := courseId +:+ ":" +:+ getMetricNamesKey metricNames in
        cached <~ getCachedValue courseAggregatedRatingsCacheRef cacheKey ;;
        match cached with
        | Some cached => ret cached
        | None =>
            result <~ courseAggregate subject courseNumber courseId metricNames ;;
            setCachedValue courseAggregatedRatingsCacheRef cacheKey result
              COURSE_AGGREGATED_RATINGS_TTL_MS ;;;
            ret result
        end
  end.

(** [Math.max(0, ...formatted.metrics.map((metric) => metric.count))] of the
    unfiltered aggregate. *)
Definition getCourseRatingsCount (subject courseNumber : string) : M Z :=
  formatted <~ getCourseAggregatedRatings subject courseNumber None ;;
  ret (foldr Z.max 0 (fm_count <$> f_metrics formatted)).

(** ** Instructors and semesters *)

(** The section documents, as far as the controller selects and reads
    them: [semester year number classNumber meetings]. *)
Record InstructorDoc := mkInstructorDoc {
  in_givenName : option string;
  in_familyName : option string;
  in_role : option string
}.

Record MeetingDoc := mkMeetingDoc {
  me_instructors : option (list InstructorDoc)
}.

Record SectionDoc := mkSectionDoc {
  se_semester : Semester;
  se_year : Z;
  se_number : string;
  se_classNumber : option string;
  se_meetings : option (list MeetingDoc)
}.

Record ClassInfo := mkClassInfo {
  ci_semester : Semester;
  ci_year : Z;
  ci_classNumber : string
}.

#[global] Instance ClassInfo_eq_dec : EqDecision ClassInfo.
Proof. solve_decision. Defined.

(** A value of [instructorMap]. *)
Record InstructorData := mkInstructorData {
  id_givenName : string;
  id_familyName : string;
  id_classes : list ClassInfo
}.

Record InstructorName := mkInstructorName {
  givenName : string;
  familyName : string
}.

(** An element of [InstructorAggregatedRatingsResult]. *)
Record InstructorRatings := mkInstructorRatings {
  ir_instructor : InstructorName;
  ir_aggregatedRatings : FormattedAggregatedRatings;
  ir_classesTaught : list ClassInfo
}.

(** What the two reads take as given: the section query and the two
    aggregation pipelines, as functions of the committed database, the
    formatter of the semesters, and the arrays as the values that the caches
    hold: [instructorArray l] is the array [l], and [semesterArray_empty]
    is [[]]. *)
Class InstructorSide := {
  RawSemesters : Type;
  SectionModel_find : DB -> string -> list SectionDoc;
  instructorRatingsAggregator : DB -> string -> list ClassInfo -> RawAggregate;
  semestersWithRatingsAggregator : DB -> string -> RawSemesters;
  formatSemesterRatings : RawSemesters -> FormattedSemesterRatings;
  instructorArray : list InstructorRatings -> InstructorAggregatedRatingsResult;
  semesterArray_empty : FormattedSemesterRatings
}.

Context `{!InstructorSide}.

Definition getSemestersWithRatings (subject courseNumber : string)
  : M FormattedSemesterRatings :=
  courseId <~ getCourseId subject courseNumber ;;
  match courseId with
  | None => ret semesterArray_empty
  | Some courseId =>
      if negb (truthy courseId) then ret semesterArray_empty
      else
        cached <~ getCachedValue semestersWithRatingsCacheRef courseId ;;
        match cached with
        | Some cached => ret cached
        | None =>
            semesters <~ storageRead None (fun d =>
              semestersWithRatingsAggregator d courseId) ;;
            let result := formatSemesterRatings semesters in
            setCachedValue semestersWithRatingsCacheRef courseId result
              SEMESTER_RATINGS_TTL_MS ;;;
            ret result
        end
  end.

(** [value && ...] on an optional string. *)
Definition truthyOpt (s : option string) : bool :=
  match s with
  | Some s => truthy s
  | None => false
  end.

(** [instructor.givenName && instructor.familyName && instructor.role ===
    "PI"]. *)
Definition isPrimary (instructor : InstructorDoc) : bool :=
  truthyOpt (in_givenName instructor) && truthyOpt (in_familyName instructor)
  && bool_decide (in_role instructor = Some "PI").

Definition instructorKey (instructor : InstructorDoc) : string :=
  default "" (in_givenName instructor) +:+ "_"
    +:+ default "" (in_familyName instructor).

(** [{ semester, year, classNumber: section.classNumber ?? section.number }]. *)
Definition classInfoOf (section : SectionDoc) : ClassInfo :=
  mkClassInfo (se_semester section) (se_year section)
    (default (se_number section) (se_classNumber section)).

Definition sameClass (classInfo c : ClassInfo) : bool :=
  String.eqb (ci_semester c) (ci_semester classInfo)
  && (ci_year c =? ci_year classInfo)
  && String.eqb (ci_classNumber c) (ci_classNumber classInfo).

(** [if (!exists) instructorData.classes.push(classInfo)]. *)
Definition recordClass (classInfo : ClassInfo) (instructorData : InstructorData)
  : InstructorData :=
  if existsb (sameClass classInfo) (id_classes instructorData) then instructorData
  else mkInstructorData (id_givenName instructorData) (id_familyName instructorData)
         (id_classes instructorData ++ [classInfo])%list.

(** The body of the innermost loop.  [instructorMap] is a [Map]: its
    entries in order of insertion, one per key; the value found under the key
    is updated where it stands. *)
Definition visitInstructor (section : SectionDoc) (instructor : InstructorDoc)
    (instructorMap : list (string * InstructorData))
  : list (string * InstructorData) :=
  if isPrimary instructor then
    let key := instructorKey instructor in
    let instructorMap :=
      if bool_decide (key ∈ instructorMap.*1) then instructorMap
      else (instructorMap
              ++ [(key, mkInstructorData (default "" (in_givenName instructor))
                          (default "" (in_familyName instructor)) [])])%list in
    (fun entry =>
       if decide (entry.1 = key) then (entry.1, recordClass (classInfoOf section) entry.2)
       else entry) <$> instructorMap
  else instructorMap.

(** [sections.forEach((section) => section.meetings?.forEach((meeting) =>
    meeting.instructors?.forEach(...)))]. *)
Definition collectInstructors (sections : list SectionDoc)
  : list (string * InstructorData) :=
  foldl (fun instructorMap section =>
           foldl (fun instructorMap meeting =>
                    foldl (fun instructorMap instructor =>
                             visitInstructor section instructor instructorMap)
                      instructorMap (default [] (me_instructors meeting)))
             instructorMap (default [] (se_meetings section)))
    [] sections.

(** [metrics.some((metric) => metric && metric.count > 0)]. *)
Definition hasRatings (rating : InstructorRatings) : bool :=
  existsb (fun metric => 0 <? fm_count metric)
    (f_metrics (ir_aggregatedRatings rating)).

(** What [getInstructorAggregatedRatings] computes on a miss. *)
Definition instructorsWithRatings (d : DB) (courseId : string)
  : list InstructorRatings :=
  let instructorMap := collectInstructors (SectionModel_find d courseId) in
  let instructorRatings :=
    (fun instructorData =>
       mkInstructorRatings
         (mkInstructorName (id_givenName instructorData)
            (id_familyName instructorData))
         (formatAggregatedRatings
            (instructorRatingsAggregator d courseId (id_classes instructorData)))
         (id_classes instructorData)) <$> instructorMap.*2 in
  filter (fun rating => hasRatings rating = true) instructorRatings.

Definition getInstructorAggregatedRatings (subject courseNumber : string)
  : M InstructorAggregatedRatingsResult :=
  courseId <~ getCourseId subject courseNumber ;;
  match courseId with
  | None => ret (instructorArray [])
  | Some courseId =>
      if negb (truthy courseId) then ret (instructorArray [])
      else
        cached <~ getCachedValue instructorAggregatedRatingsCacheRef courseId ;;
        match cached with
        | Some cached => ret cached
        | None =>
            instructorsWithRatings <~ storageRead None (fun d =>
              instructorsWithRatings d courseId) ;;
            setCachedValue instructorAggregatedRatingsCacheRef courseId
              (instructorArray instructorsWithRatings)
              INSTRUCTOR_RATINGS_TTL_MS ;;;
            ret (instructorArray instructorsWithRatings)
        end
  end.

End Controller.

Notation "x <~ m ;; k" := (bind m (fun x => k))
  (at level 100, m at next level, right associativity).
Notation "m ;;; k" := (bind m (fun _ => k))
  (at level 100, right associativity).

Arguments mkCacheRef {_ T} _ _.
Arguments cacheOf {_ T} _ _.
Arguments setCache {_ T} _ _ _.

(** ** Vocabulary of the statements *)

(** No [":"] occurs in the string. *)
Fixpoint colonFree (s : string) : bool :=
  match s with
  | EmptyString => true
  | String ch rest => negb (Ascii.eqb ch ":"%char) && colonFree rest
  end.

(** The caches hold nothing for the course: no course-aggregate key with
    the prefix [courseId:], no semesters or instructor entry under
    [courseId]. *)
Definition purged `{Shapes} (courseId : string) (w : World) : Prop :=
  (forall k, String.prefix (courseId +:+ ":") k = true ->
             courseAggregatedRatingsCache w !! k = None)
  /\ semestersWithRatingsCache w !! courseId = None
  /\ instructorAggregatedRatingsCache w !! courseId = None.

(** The caches of [w'] are those of [w] without the entries of the courses
    [cs]: a course-aggregate key holds nothing when it starts with [c:] for
    one [c] of [cs], a semesters or instructor key when it is one of [cs];
    every other key holds what it held in [w]. *)
Definition cachesWithout `{Shapes} (cs : list string) (w w' : World) : Prop :=
  (forall k,
      courseAggregatedRatingsCache w' !! k
      = if existsb (fun c => String.prefix (c +:+ ":") k) cs then None
        else courseAggregatedRatingsCache w !! k)
  /\ (forall k,
        semestersWithRatingsCache w' !! k
        = if existsb (String.eqb k) cs then None
          else semestersWithRatingsCache w !! k)
  /\ (forall k,
        instructorAggregatedRatingsCache w' !! k
        = if existsb (String.eqb k) cs then None
          else instructorAggregatedRatingsCache w !! k).

(** The count of the row that [findOne] returns for the key, if there is
    one. *)
Definition countAt (classId : ObjectId) (metricName : MetricName)
    (categoryValue : Z) (l : list AggregatedMetric) : option Z :=
  (fun im => am_categoryCount im.2)
    <$> list_find (counterKey classId metricName categoryValue) l.

(** The computation stays inside the open transaction: it leaves the
    committed database alone and the transaction open. *)
Definition txnLocal `{Shapes} {A} (m : M A) : Prop :=
  forall w, is_Some (txn w) ->
            db (m w).2 = db w /\ is_Some (txn (m w).2).

(** The computation leaves the observation [f] of the world as it was. *)
Definition preserves `{Shapes} {X A} (f : World -> X) (m : M A) : Prop :=
  forall w, f (m w).2 = f w.

(** When the computation throws, the observation [f] is what it was. *)
Definition unchangedOnError `{Shapes} {X A} (f : World -> X) (m : M A) : Prop :=
  forall w e w', m w = (Err e, w') -> f w' = f w.

(** The three caches. *)
Definition caches `{Shapes} (w : World) :=
  (courseAggregatedRatingsCache w, semestersWithRatingsCache w,
   instructorAggregatedRatingsCache w).

(** The computation never throws. *)
Definition neverFails `{Shapes} {A} (m : M A) : Prop :=
  forall w, exists a w', m w = (Ok a, w').

(** What [getUserRatings] returns for an authenticated user. *)
Definition userRatingsOf `{Shapes} `{!Collaborators} (context : RequestContext)
    (d : DB) : UserRatings :=
  match userRatingsAggregator d context with
  | [] => mkUserRatings (user_id context) 0 []
  | first :: _ => formatUserRatings first
  end.

(** The world is inside a transaction over the committed database [c],
    the transaction sees [d], the storage is healthy and [n] sessions have
    been started. *)
Definition inTx `{Shapes} (c d : DB) (n : nat) (w : World) : Prop :=
  db w = c /\ txn w = Some d /\ faultIn w = None /\ sessionsStarted w = n.

(** The rows a first increment for the key materializes. *)
Definition seededRows (rd : RatingData) (domain : list Z) : list AggregatedMetric :=
  (fun v => mkAggregatedMetric (rd_classId rd) (rd_courseId rd) (rd_subject rd)
              (rd_courseNumber rd) (rd_semester rd) (rd_year rd)
              (rd_classNumber rd) (rd_metricName rd) v
              (if v =? rd_value rd then 1 else 0)) <$> domain.

(** The counters after an increment for the rating's key. *)
Definition incremented (rd : RatingData) (domain : list Z)
    (l : list AggregatedMetric) : list AggregatedMetric :=
  match list_find (counterKey (rd_classId rd) (rd_metricName rd) (rd_value rd)) l with
  | Some (j, m') => <[j := withCount (am_categoryCount m' + 1) m']> l
  | None => l ++ seededRows rd domain
  end.

(** A rating is counted under the key of its class, metric and value. *)
Definition ratedAt (classId : ObjectId) (metricName : MetricName)
    (categoryValue : Z) (r : RatingType) : Prop :=
  r_classId r = classId /\ r_metricName r = metricName
  /\ r_value r = categoryValue.

#[global] Instance ratedAt_dec c n v r : Decision (ratedAt c n v r).
Proof. unfold ratedAt. apply _. Defined.

(** The number of live ratings under a key. *)
Definition liveRatings (classId : ObjectId) (metricName : MetricName)
    (categoryValue : Z) (l : list RatingType) : Z :=
  Z.of_nat (length (filter (ratedAt classId metricName categoryValue) l)).

(** The value range that the switch of [handleCategoryCountChange] picks. *)
Definition valueRangeOf `{Shapes} `{!Collaborators} (metricName : MetricName)
  : option (list Z) :=
  if includes numberScaleMetrics metricName then Some [1; 2; 3; 4; 5]
  else if includes booleanScaleMetrics metricName then Some [0; 1]
  else None.

(** The counter rows agree with the counts [cnt]: the row found for a key
    carries the key's count, a key of a metric's range that has no row counts
    nothing, and no row is negative. *)
Definition counted `{Shapes} `{!Collaborators}
    (cnt : ObjectId -> MetricName -> Z -> Z) (l : list AggregatedMetric) : Prop :=
  (forall c n v i m,
      list_find (counterKey c n v) l = Some (i, m) -> am_categoryCount m = cnt c n v)
  /\ (forall c n v domain,
        list_find (counterKey c n v) l = None ->
        valueRangeOf n = Some domain -> v ∈ domain -> cnt c n v = 0)
  /\ Forall (fun m => 0 <= am_categoryCount m) l.

(** The database is consistent: [_id]s are unique and below the next one,
    and the counters agree with the live ratings. *)
Definition consistent `{Shapes} `{!Collaborators} (d : DB) : Prop :=
  NoDup (r_id <$> ratings d)
  /\ Forall (fun r => r_id r < nextId d) (ratings d)
  /\ counted (fun c n v => liveRatings c n v (ratings d)) (aggregatedMetrics d).

(** The worlds that the mutating operations reach from a store without
    ratings and counters when they run in turn: every call has returned
    before the next one begins.  The callers, the arguments, the clock, the
    caches and the faults of the storage are arbitrary.  Calls that overlap
    at an [await] are not covered: see [deleteRatings_overlapping]. *)
Inductive reachedInTurn `{Shapes} `{!Collaborators} : World -> Prop :=
| turn_empty w :
    ratings (db w) = [] -> aggregatedMetrics (db w) = [] -> reachedInTurn w
| turn_environment w w' :
    reachedInTurn w -> db w' = db w -> reachedInTurn w'
| turn_createRating w context year semester subject courseNumber classNumber
    metricName value :
    reachedInTurn w ->
    reachedInTurn (createRating context year semester subject courseNumber
                     classNumber metricName value w).2
| turn_createRatings w context year semester subject courseNumber classNumber
    metrics :
    reachedInTurn w ->
    reachedInTurn (createRatings context year semester subject courseNumber
                     classNumber metrics w).2
| turn_deleteRating w context year semester subject courseNumber classNumber
    metricName :
    reachedInTurn w ->
    reachedInTurn (deleteRating context year semester subject courseNumber
                     classNumber metricName None w).2
| turn_deleteRatings w context subject courseNumber :
    reachedInTurn w ->
    reachedInTurn (deleteRatings context subject courseNumber w).2.

(** What an adjustment for the key makes of the counter rows: the row
    found is saved with its count moved by one, or, for an increment without
    a row, the rows [seed <$> domain] of the metric's range are appended. *)
Definition adjustedTo `{Shapes} `{!Collaborators} (c : ObjectId) (n : MetricName)
    (v : Z) (isIncrement : bool) (seed : Z -> AggregatedMetric)
    (l l' : list AggregatedMetric) : Prop :=
  match list_find (counterKey c n v) l with
  | Some (i, m) =>
      l' = <[i := withCount (am_categoryCount m + (if isIncrement then 1 else -1)) m]> l
  | None =>
      isIncrement = true
      /\ exists domain, valueRangeOf n = Some domain /\ l' = (l ++ (seed <$> domain))%list
  end.

(** The rows seeded for the key: one per value, 1 on the target, 0
    elsewhere. *)
Definition seedsFor (c : ObjectId) (n : MetricName) (v : Z)
    (seed : Z -> AggregatedMetric) : Prop :=
  forall x, am_classId (seed x) = c /\ am_metricName (seed x) = n
            /\ am_categoryValue (seed x) = x
            /\ am_categoryCount (seed x) = if x =? v then 1 else 0.

(** The reference reads back the map that was last stored through it, and
    storing through it leaves the clock alone: what holds of a module-level
    [Map]. *)
Definition lawful `{Shapes} {T} (cache : CacheRef T) : Prop :=
  (forall c w, cacheOf cache (setCache cache c w) = c)
  /\ (forall c w, clock (setCache cache c w) = clock w).

(** [localeCompare] orders the names: among them it is total, antisymmetric
    and transitive. *)
Definition ordersNames `{Shapes} `{!Collaborators} (names : list MetricName) : Prop :=
  (forall a b, a ∈ names -> b ∈ names ->
     localeCompare a b <= 0 \/ localeCompare b a <= 0)
  /\ (forall a b, a ∈ names -> b ∈ names ->
        localeCompare a b <= 0 -> localeCompare b a <= 0 -> a = b)
  /\ (forall a b c, a ∈ names -> b ∈ names -> c ∈ names ->
        localeCompare a b <= 0 -> localeCompare b c <= 0 -> localeCompare a c <= 0).

(** The sessions that have been started and not ended. *)
Definition openSessions `{Shapes} (w : World) : Z :=
  Z.of_nat (sessionsStarted w) - Z.of_nat (sessionsEnded w).

(** The rows of a metric's range for the key of a rating, all at count 0. *)
Definition emptyRows (rd : RatingData) (domain : list Z) : list AggregatedMetric :=
  (fun v => mkAggregatedMetric (rd_classId rd) (rd_courseId rd) (rd_subject rd)
              (rd_courseNumber rd) (rd_semester rd) (rd_year rd)
              (rd_classNumber rd) (rd_metricName rd) v 0) <$> domain.

(** The instructors that the loops of [getInstructorAggregatedRatings]
    visit, each with its section, in the order of the visits. *)
Definition visits (sections : list SectionDoc)
  : list (SectionDoc * InstructorDoc) :=
  sections ≫= (fun section =>
    default [] (se_meetings section) ≫= (fun meeting =>
      (fun instructor => (section, instructor))
        <$> default [] (me_instructors meeting))).

(** The visit is that of a primary instructor with the key, in a section of
    the class. *)
Definition visitOf (key : string) (visit : SectionDoc * InstructorDoc) : Prop :=
  isPrimary visit.2 = true /\ instructorKey visit.2 = key.

(** What holds of [instructorMap] after the visits [seen]. *)
Definition collected (seen : list (SectionDoc * InstructorDoc))
    (instructorMap : list (string * InstructorData)) : Prop :=
  NoDup instructorMap.*1
  /\ (forall key data,
        (key, data) ∈ instructorMap ->
        NoDup (id_classes data)
        /\ (exists visit,
              visit ∈ seen /\ visitOf key visit
              /\ in_givenName visit.2 = Some (id_givenName data)
              /\ in_familyName visit.2 = Some (id_familyName data))
        /\ (forall c,
              c ∈ id_classes data
              <-> exists visit,
                    visit ∈ seen /\ visitOf key visit /\ classInfoOf visit.1 = c))
  /\ (forall visit,
        visit ∈ seen -> isPrimary visit.2 = true ->
        instructorKey visit.2 ∈ instructorMap.*1).


(** What a vote is cast on: by whom, the course by subject and number, and
    the metric. *)
Definition voteKey (r : RatingType) : string * string * string * MetricName :=
  (r_createdBy r, r_subject r, r_courseNumber r, r_metricName r).

(** The rating is for a course that one of the classes belongs to. *)
Definition offered (classes : list ClassDoc) (r : RatingType) : Prop :=
  exists c, c ∈ classes /\ cl_subject c = r_subject r
            /\ cl_courseNumber c = r_courseNumber r
            /\ cl_courseId c = r_courseId r.

(** The ratings are in order: [_id]s are unique and below the next one,
    no two ratings share user, course and metric, and each is for a course
    on offer. *)
Definition orderlyRatings (classes : list ClassDoc) (next : ObjectId)
    (l : list RatingType) : Prop :=
  NoDup (r_id <$> l)
  /\ Forall (fun r => r_id r < next) l
  /\ NoDup (voteKey <$> l)
  /\ Forall (offered classes) l.

(** The classes of one subject and course number belong to one course. *)
Definition coursesAgree (classes : list ClassDoc) : Prop :=
  forall c1 c2, c1 ∈ classes -> c2 ∈ classes ->
                cl_subject c1 = cl_subject c2 ->
                cl_courseNumber c1 = cl_courseNumber c2 ->
                cl_courseId c1 = cl_courseId c2.

Definition orderly (d : DB) : Prop :=
  orderlyRatings (classes d) (nextId d) (ratings d) /\ coursesAgree (classes d).
(** ** A concrete deployment, for running the controller *)

Definition demoShapes : Shapes :=
  {| MetricDetails := unit; RawAggregate := unit; FormattedSemesterRatings := unit;
     InstructorAggregatedRatingsResult := unit; UserClass := unit;
     RawUserRatings := unit |}.

Definition demoMappings : gmap string MetricConfig :=
  list_to_map
    [("Usefulness", mkMetricConfig true); ("Difficulty", mkMetricConfig true);
     ("Workload", mkMetricConfig true); ("Attendance", mkMetricConfig false);
     ("Recording", mkMetricConfig false)].

(** A value check in the spirit of the constraint helper: 1 to 5 on the
    number scale, 0 or 1 otherwise. *)
Definition demoCheckValue (metricName : MetricName) (v : Z) : Result unit :=
  match demoMappings !! metricName with
  | Some c =>
      if (if isRating c then (1 <=? v) && (v <=? 5) else (0 <=? v) && (v <=? 1))
      then Ok tt
      else Err (GraphQLError "Value out of range" "INVALID_ARGUMENT")
  | None => Err (GraphQLError "Invalid metric name" "INVALID_ARGUMENT")
  end.

Definition demoCollaborators : @Collaborators demoShapes :=
  {| METRIC_MAPPINGS := demoMappings;
     REQUIRED_METRICS := ["Usefulness"; "Difficulty"; "Workload"];
     checkValueConstraint := demoCheckValue;
     checkUserMaxRatingsConstraint := fun _ _ _ _ _ => Ok tt;
     userRatingsAggregator := fun _ _ => [];
     formatUserRatings := fun _ => mkUserRatings "" 0 [];
     courseRatingAggregator := fun _ _ => [tt : @RawAggregate demoShapes];
     formatAggregatedRatings := fun _ => mkFormatted "" "" None None None [];
     localeCompare := fun a b => if String.ltb a b then -1 else if String.eqb a b then 0 else 1 |}.

Definition demoWorldOf (d : DB) : @World demoShapes :=
  mkWorld d None ∅ ∅ ∅ 0 0%nat 0%nat None.

(** Two offerings of one course, in two terms. *)
Definition classFall : ClassDoc := mkClassDoc 1 "c61a" 2024 "Fall" "COMPSCI" "61A" "001".
Definition classSpring : ClassDoc := mkClassDoc 2 "c61a" 2025 "Spring" "COMPSCI" "61A" "001".

Definition demoDB : DB :=
  mkDB [] [] [classFall; classSpring] [mkCourseDoc "COMPSCI" "61A" "c61a"] 100.

Definition alice : RequestContext := mkContext "alice".
Definition anonymous : RequestContext := mkContext "".

(** Alice's rating of the Fall offering, and the counter rows that her
    submission materialized. *)
Definition ratingFall : RatingType :=
  mkRating 100 "alice" 1 "c61a" 2024 "Fall" "COMPSCI" "61A" "001" "Usefulness" 3.

Definition rowFall (v c : Z) : AggregatedMetric :=
  mkAggregatedMetric 1 "c61a" "COMPSCI" "61A" "Fall" 2024 "001" "Usefulness" v c.

Definition ratedDB : DB :=
  mkDB [ratingFall]
    [rowFall 1 0; rowFall 2 0; rowFall 3 1; rowFall 4 0; rowFall 5 0]
    [classFall; classSpring] [mkCourseDoc "COMPSCI" "61A" "c61a"] 101.

Definition demoAggregate : @FormattedAggregatedRatings demoShapes :=
  mkFormatted "COMPSCI" "61A" None None None [].

(** A world whose three caches hold an entry for the course, each expiring
    at time 100. *)
Definition cachedWorld (d : DB) (now : Z) (faults : option nat)
  : @World demoShapes :=
  mkWorld d None
    {[ "c61a:all" := mkCacheEntry demoAggregate 100 ]}
    {[ "c61a" := mkCacheEntry (tt : @FormattedSemesterRatings demoShapes) 100 ]}
    {[ "c61a" := mkCacheEntry (tt : @InstructorAggregatedRatingsResult demoShapes) 100 ]}
    now 0%nat 0%nat faults.

(** A cache that holds the aggregate of a course whose identifier is
    ["a:b"]. *)
Definition colonWorld : @World demoShapes :=
  mkWorld demoDB None {[ "a:b:all" := mkCacheEntry demoAggregate 100 ]} ∅ ∅
    0 0%nat 0%nat None.

(** A world whose three caches hold the entries of two courses. *)
Definition twoCoursesWorld (d : DB) : @World demoShapes :=
  mkWorld d None
    {[ "c61a:all" := mkCacheEntry demoAggregate 100;
       "c61b:all" := mkCacheEntry demoAggregate 100 ]}
    {[ "c61a" := mkCacheEntry (tt : @FormattedSemesterRatings demoShapes) 100;
       "c61b" := mkCacheEntry (tt : @FormattedSemesterRatings demoShapes) 100 ]}
    {[ "c61a" := mkCacheEntry (tt : @InstructorAggregatedRatingsResult demoShapes) 100;
       "c61b" := mkCacheEntry (tt : @InstructorAggregatedRatingsResult demoShapes) 100 ]}
    0 0%nat 0%nat None.

(** A batch for the Spring offering that carries the required metrics. *)
Definition springBatch : list MetricInput :=
  [mkMetricInput "Usefulness" 5; mkMetricInput "Difficulty" 2;
   mkMetricInput "Workload" 3].

(** A deployment whose aggregates count ratings: a raw aggregate is the
    number of ratings it covers, formatted as the count of one metric; the
    arrays that the caches hold are lists. *)
Definition countShapes : Shapes :=
  {| MetricDetails := unit; RawAggregate := Z;
     FormattedSemesterRatings := list (Semester * Z);
     InstructorAggregatedRatingsResult := list (string * string * list ClassInfo);
     UserClass := unit; RawUserRatings := unit |}.

Definition countCollaborators : @Collaborators countShapes :=
  {| METRIC_MAPPINGS := demoMappings;
     REQUIRED_METRICS := ["Usefulness"; "Difficulty"; "Workload"];
     checkValueConstraint := demoCheckValue;
     checkUserMaxRatingsConstraint := fun _ _ _ _ _ => Ok tt;
     userRatingsAggregator := fun _ _ => [];
     formatUserRatings := fun _ => mkUserRatings "" 0 [];
     courseRatingAggregator := fun d courseId =>
       [Z.of_nat (length (filter (fun r => r_courseId r = courseId) (ratings d)))
        : @RawAggregate countShapes];
     formatAggregatedRatings := fun n =>
       mkFormatted "" "" None None None
         [mkFormattedMetric "Usefulness" n (tt : @MetricDetails countShapes)];
     localeCompare := fun a b =>
       if String.ltb a b then -1 else if String.eqb a b then 0 else 1 |}.

Definition classInfoOfRating (r : RatingType) : ClassInfo :=
  mkClassInfo (r_semester r) (r_year r) (r_classNumber r).

Definition ada : InstructorDoc := mkInstructorDoc (Some "Ada") (Some "Lovelace") (Some "PI").
Definition grace : InstructorDoc := mkInstructorDoc (Some "Grace") (Some "Hopper") (Some "PI").
Definition tim : InstructorDoc := mkInstructorDoc (Some "Tim") (Some "Berners") (Some "TA").

(** Ada teaches the Fall offering, in two meetings, with an assistant; Grace
    teaches the Spring offering; a third section has no meetings. *)
Definition demoSections : list SectionDoc :=
  [mkSectionDoc "Fall" 2024 "001" None
     (Some [mkMeetingDoc (Some [ada; tim]); mkMeetingDoc (Some [ada])]);
   mkSectionDoc "Spring" 2025 "001" (Some "001") (Some [mkMeetingDoc (Some [grace])]);
   mkSectionDoc "Spring" 2025 "101" None None].

Definition countInstructorSide : @InstructorSide countShapes :=
  {| RawSemesters := list (Semester * Z);
     SectionModel_find := fun _ courseId =>
       if String.eqb courseId "c61a" then demoSections else [];
     instructorRatingsAggregator := fun d courseId classes =>
       (Z.of_nat (length (filter (fun r => r_courseId r = courseId
                                           /\ classInfoOfRating r ∈ classes)
                            (ratings d)))
        : @RawAggregate countShapes);
     semestersWithRatingsAggregator := fun d courseId =>
       (fun r => (r_semester r, r_year r))
         <$> filter (fun r => r_courseId r = courseId) (ratings d);
     formatSemesterRatings := fun semesters =>
       (semesters : @FormattedSemesterRatings countShapes);
     instructorArray := fun l =>
       ((fun rating => (givenName (ir_instructor rating),
                        familyName (ir_instructor rating),
                        ir_classesTaught rating)) <$> l
        : @InstructorAggregatedRatingsResult countShapes);
     semesterArray_empty := ([] : @FormattedSemesterRatings countShapes) |}.

Definition countWorldOf (d : DB) : @World countShapes :=
  mkWorld d None ∅ ∅ ∅ 0 0%nat 0%nat None.
(** * Properties *)

Section Properties.

Context `{Shapes} `{!Collaborators}.

(** ** Running computations *)

Lemma bind_Ok {A B} (m : M A) (k : A -> M B) w a w' :
  m w = (Ok a, w') -> bind m k w = k a w'.
Proof. intros Hm. unfold bind. by rewrite Hm. Qed.

Lemma bind_Err {A B} (m : M A) (k : A -> M B) w e w' :
  m w = (Err e, w') -> bind m k w = (Err e, w').
Proof. intros Hm. unfold bind. by rewrite Hm. Qed.

Lemma bind_inv_Ok {A B} (m : M A) (k : A -> M B) w b w' :
  bind m k w = (Ok b, w') ->
  exists a w1, m w = (Ok a, w1) /\ k a w1 = (Ok b, w').
Proof.
  unfold bind. destruct (m w) as [[a|e] w1]; [eauto | discriminate].
Qed.

Lemma truthy_false s : truthy s = false <-> s = "".
Proof.
  unfold truthy. destruct (String.eqb_spec s ""); simpl; split; congruence.
Qed.

(** ** C9: mutations need an identity *)

(** C9. Each of the four mutating operations, called with an empty
    [context.user._id], throws the UNAUTHENTICATED error, the
    Unauthenticated kind, and leaves the whole world, ratings, counters
    and caches, as it was. *)
Theorem mutations_require_identity (context : RequestContext) (w : World) :
  user_id context = "" ->
  errorKind unauthorized = Some Unauthenticated
  /\ (forall year semester subject courseNumber classNumber metricName value,
        createRating context year semester subject courseNumber classNumber
          metricName value w = (Err unauthorized, w))
  /\ (forall year semester subject courseNumber classNumber metrics,
        createRatings context year semester subject courseNumber classNumber
          metrics w = (Err unauthorized, w))
  /\ (forall year semester subject courseNumber classNumber metricName
             existingSession,
        deleteRating context year semester subject courseNumber classNumber
          metricName existingSession w = (Err unauthorized, w))
  /\ (forall subject courseNumber,
        deleteRatings context subject courseNumber w = (Err unauthorized, w)).
Proof.
  intros Hanon. apply truthy_false in Hanon.
  split; [reflexivity|].
  unfold createRating, createRatings, deleteRating, deleteRatings.
  rewrite Hanon. simpl. repeat split.
Qed.

(** ** C10: nothing to delete *)

(** C10. For an authenticated user who holds no rating for
    [(subject, courseNumber)], [deleteRatings] returns [true] and the world
    is exactly what it was: no session was started, no document and no
    cache entry was touched, and no error, NOT_FOUND or other, is raised. *)
Theorem deleteRatings_nothing_to_delete (context : RequestContext)
    (subject courseNumber : string) (w : World) :
  truthy (user_id context) = true ->
  filter (ratedSubject (user_id context) subject courseNumber) (ratings (db w))
  = [] ->
  deleteRatings context subject courseNumber w = (Ok true, w).
Proof.
  intros Hauth Hnone. unfold deleteRatings. rewrite Hauth. simpl.
  unfold RatingModel_find, storageRead, bind. simpl.
  rewrite Hnone. reflexivity.
Qed.

(** ** The counter store *)

Lemma sessionView_sessionStore session d w :
  sessionView session (sessionStore session d w) = d.
Proof.
  unfold sessionView, sessionStore.
  destruct session, (txn w) eqn:Ht; simpl; try rewrite Ht; reflexivity.
Qed.

Lemma sessionStore_sessionStore session d1 d2 w :
  sessionStore session d2 (sessionStore session d1 w) = sessionStore session d2 w.
Proof.
  unfold sessionStore.
  destruct session, (txn w) eqn:Ht; simpl; try rewrite Ht; reflexivity.
Qed.

Lemma faultIn_sessionStore session d w :
  faultIn (sessionStore session d w) = faultIn w.
Proof. unfold sessionStore. by destruct session, (txn w). Qed.

Lemma storageWrite_healthy session f w :
  faultIn w = None ->
  storageWrite session f w = (Ok tt, sessionStore session (f (sessionView session w)) w).
Proof. intros Hf. unfold storageWrite. by rewrite Hf. Qed.

(** C4, as the code has it. A decrement for a key that has no row throws
    the error coded NOT_FOUND, the code of a missing class or rating, and
    writes nothing: the world, and so the collection, is what it was. *)
Theorem decrement_without_row (classId : ObjectId) (courseId : string)
    (year : Z) (semester : Semester) (subject courseNumber classNumber : string)
    (metricName : MetricName) (categoryValue : Z)
    (session : option ClientSession) (w : World) :
  Forall (fun m => ~ counterKey classId metricName categoryValue m)
    (aggregatedMetrics (sessionView session w)) ->
  exists e,
    handleCategoryCountChange classId courseId year semester subject
      courseNumber classNumber metricName categoryValue false session w
    = (Err e, w)
    /\ errorCode e = Some "NOT_FOUND"
    /\ errorKind e = Some NotFound.
Proof.
  intros Hnone. apply (list_find_None (counterKey classId metricName categoryValue)) in Hnone.
  exists (GraphQLError "Aggregated Rating does not exist, cannot decrement"
            "NOT_FOUND").
  split; [|split; reflexivity].
  unfold handleCategoryCountChange, AggregatedMetricsModel_findOne, storageRead, bind.
  simpl. rewrite Hnone. reflexivity.
Qed.

Lemma set_aggregatedMetrics_same d :
  set_aggregatedMetrics (aggregatedMetrics d) d = d.
Proof. by destruct d. Qed.

Lemma set_aggregatedMetrics_twice l1 l2 d :
  set_aggregatedMetrics l2 (set_aggregatedMetrics l1 d) = set_aggregatedMetrics l2 d.
Proof. reflexivity. Qed.

Lemma sessionStore_same session w :
  sessionStore session (sessionView session w) w = w.
Proof.
  unfold sessionStore, sessionView.
  destruct w as [d t c1 c2 c3 k s1 s2 f]; destruct session, t; reflexivity.
Qed.

(** A run of creations appends the documents in order. *)
Lemma forEach_create (g : Z -> AggregatedMetric) (vs : list Z)
    (session : option ClientSession) (w : World) :
  faultIn w = None ->
  forEach vs (fun v => AggregatedMetricsModel_create (g v) session) w
  = (Ok tt,
     sessionStore session
       (set_aggregatedMetrics
          (aggregatedMetrics (sessionView session w) ++ (g <$> vs))
          (sessionView session w)) w).
Proof.
  revert w. induction vs as [|v vs IH]; intros w Hf; simpl.
  - rewrite app_nil_r, set_aggregatedMetrics_same, sessionStore_same. reflexivity.
  - unfold AggregatedMetricsModel_create at 1.
    erewrite bind_Ok; [|by apply storageWrite_healthy].
    rewrite IH by (by rewrite faultIn_sessionStore).
    rewrite sessionView_sessionStore, sessionStore_sessionStore. simpl.
    rewrite set_aggregatedMetrics_twice, <- app_assoc. reflexivity.
Qed.

(** A metric is on one scale only: [METRIC_MAPPINGS] has one entry for it. *)
Lemma scales_disjoint (metricName : MetricName) :
  metricName ∈ booleanScaleMetrics -> metricName ∉ numberScaleMetrics.
Proof.
  unfold booleanScaleMetrics, numberScaleMetrics.
  intros Hb Hn.
  apply list_elem_of_fmap in Hb as [[k1 c1] [-> Hb]].
  apply list_elem_of_fmap in Hn as [[k2 c2] [Hk Hn]].
  apply list_elem_of_filter in Hb as [Hb1 Hb2].
  apply list_elem_of_filter in Hn as [Hn1 Hn2].
  apply elem_of_map_to_list in Hb2, Hn2. simpl in *. subst k2.
  rewrite Hb2 in Hn2. injection Hn2 as ->.
  rewrite Hn1 in Hb1. discriminate.
Qed.

(** The three branches of [handleCategoryCountChange] on a healthy store. *)
Lemma handleCategoryCountChange_existing classId courseId year semester subject
    courseNumber classNumber metricName categoryValue isIncrement session w i m :
  list_find (counterKey classId metricName categoryValue)
    (aggregatedMetrics (sessionView session w)) = Some (i, m) ->
  faultIn w = None ->
  handleCategoryCountChange classId courseId year semester subject
    courseNumber classNumber metricName categoryValue isIncrement session w
  = (Ok tt,
     sessionStore session
       (set_aggregatedMetrics
          (<[i := withCount (am_categoryCount m + (if isIncrement then 1 else -1)) m]>
             (aggregatedMetrics (sessionView session w)))
          (sessionView session w)) w).
Proof.
  intros Hfind Hf.
  unfold handleCategoryCountChange, AggregatedMetricsModel_findOne.
  erewrite bind_Ok; [|reflexivity]. rewrite Hfind.
  unfold AggregatedMetric_save. by rewrite storageWrite_healthy.
Qed.

Lemma valueRange_on_scale (metricName : MetricName) (domain : list Z) (w : World) :
  (metricName ∈ numberScaleMetrics /\ domain = [1; 2; 3; 4; 5])
  \/ (metricName ∈ booleanScaleMetrics /\ domain = [0; 1]) ->
  (if includes numberScaleMetrics metricName then ret [1; 2; 3; 4; 5]
   else if includes booleanScaleMetrics metricName then ret [0; 1]
        else throw (GraphQLError "Invalid metric name" "INVALID_ARGUMENT")) w
  = (Ok domain, w).
Proof.
  unfold includes. intros [[Hn ->]|[Hb ->]].
  - by rewrite bool_decide_eq_true_2.
  - rewrite bool_decide_eq_false_2 by (by apply scales_disjoint).
    by rewrite bool_decide_eq_true_2.
Qed.

Lemma handleCategoryCountChange_seeds classId courseId year semester subject
    courseNumber classNumber metricName categoryValue session w domain :
  list_find (counterKey classId metricName categoryValue)
    (aggregatedMetrics (sessionView session w)) = None ->
  faultIn w = None ->
  (metricName ∈ numberScaleMetrics /\ domain = [1; 2; 3; 4; 5])
  \/ (metricName ∈ booleanScaleMetrics /\ domain = [0; 1]) ->
  handleCategoryCountChange classId courseId year semester subject
    courseNumber classNumber metricName categoryValue true session w
  = (Ok tt,
     sessionStore session
       (set_aggregatedMetrics
          (aggregatedMetrics (sessionView session w)
             ++ ((fun v => mkAggregatedMetric classId courseId subject
                             courseNumber semester year classNumber metricName v
                             (if v =? categoryValue then 1 else 0)) <$> domain))
          (sessionView session w)) w).
Proof.
  intros Hfind Hf Hscale.
  unfold handleCategoryCountChange, AggregatedMetricsModel_findOne.
  erewrite bind_Ok; [|reflexivity]. rewrite Hfind.
  erewrite bind_Ok; [|by apply valueRange_on_scale].
  by rewrite forEach_create.
Qed.

(** The row found for the target value among freshly seeded rows. *)
Lemma list_find_seeded classId courseId year semester subject courseNumber
    classNumber metricName categoryValue (old : list AggregatedMetric)
    (domain : list Z) :
  list_find (counterKey classId metricName categoryValue) old = None ->
  categoryValue ∈ domain ->
  exists i m,
    list_find (counterKey classId metricName categoryValue)
      (old ++ ((fun v => mkAggregatedMetric classId courseId subject
                           courseNumber semester year classNumber metricName v
                           (if v =? categoryValue then 1 else 0)) <$> domain))
    = Some (i, m)
    /\ m ∈ ((fun v => mkAggregatedMetric classId courseId subject
                        courseNumber semester year classNumber metricName v
                        (if v =? categoryValue then 1 else 0)) <$> domain)
    /\ am_categoryCount m = 1.
Proof.
  intros Hnone Hin.
  set (seeded := fmap _ domain).
  destruct (list_find (counterKey classId metricName categoryValue)
              (old ++ seeded)) as [[i m]|] eqn:Hfound.
  - exists i, m. split; [reflexivity|].
    apply list_find_app_Some in Hfound as [Hl|(_ & _ & Hr)].
    + rewrite Hnone in Hl. discriminate.
    + apply list_find_Some in Hr as (Hr & Hkey & _).
      apply list_elem_of_lookup_2 in Hr. split; [exact Hr|].
      unfold seeded in Hr. apply list_elem_of_fmap in Hr as [v [-> _]].
      destruct Hkey as (_ & _ & Hv). simpl in *. subst v.
      by rewrite Z.eqb_refl.
  - apply list_find_None in Hfound. rewrite Forall_app in Hfound.
    destruct Hfound as [_ Hseed]. rewrite Forall_forall in Hseed.
    exfalso. eapply (Hseed (mkAggregatedMetric classId courseId subject
      courseNumber semester year classNumber metricName categoryValue
      (if categoryValue =? categoryValue then 1 else 0))).
    + unfold seeded. apply list_elem_of_fmap. by exists categoryValue.
    + by repeat split.
Qed.

(** C2. When no row exists for the key, a healthy increment appends, in one
    call, one row per value of the metric's domain, 1 to 5 for a metric on
    the number scale and 0, 1 for a boolean one, and nothing else; the row
    of the target value carries count 1 and is the one found for the key
    afterwards, every other new row carries count 0. *)
Theorem increment_materializes_domain (classId : ObjectId) (courseId : string)
    (year : Z) (semester : Semester) (subject courseNumber classNumber : string)
    (metricName : MetricName) (categoryValue : Z)
    (session : option ClientSession) (w : World) (domain : list Z) :
  Forall (fun m => ~ counterKey classId metricName categoryValue m)
    (aggregatedMetrics (sessionView session w)) ->
  faultIn w = None ->
  (metricName ∈ numberScaleMetrics /\ domain = [1; 2; 3; 4; 5])
  \/ (metricName ∈ booleanScaleMetrics /\ domain = [0; 1]) ->
  let seeded :=
    (fun v => mkAggregatedMetric classId courseId subject courseNumber semester
                year classNumber metricName v
                (if v =? categoryValue then 1 else 0)) <$> domain in
  let view := sessionView session w in
  handleCategoryCountChange classId courseId year semester subject
    courseNumber classNumber metricName categoryValue true session w
  = (Ok tt,
     sessionStore session
       (set_aggregatedMetrics (aggregatedMetrics view ++ seeded) view) w)
  /\ am_categoryValue <$> seeded = domain
  /\ (categoryValue ∈ domain ->
      exists i m,
        list_find (counterKey classId metricName categoryValue)
          (aggregatedMetrics view ++ seeded) = Some (i, m)
        /\ m ∈ seeded /\ am_categoryCount m = 1)
  /\ (forall m, m ∈ seeded -> am_categoryValue m <> categoryValue ->
        am_categoryCount m = 0).
Proof.
  intros Hnone Hf Hscale seeded view.
  apply (list_find_None (counterKey classId metricName categoryValue)) in Hnone.
  repeat split.
  - by apply handleCategoryCountChange_seeds.
  - unfold seeded. rewrite <- list_fmap_compose. simpl. apply list_fmap_id.
  - intros Hin. by apply list_find_seeded.
  - intros m Hm Hne. unfold seeded in Hm.
    apply list_elem_of_fmap in Hm as [v [-> _]]. simpl in *.
    destruct (Z.eqb_spec v categoryValue); [contradiction|reflexivity].
Qed.


(** ** The caches *)

Lemma getCachedValue_hit {T} (cache : CacheRef T) (key : string)
    (entry : CacheEntry T) (w : World) :
  cacheOf cache w !! key = Some entry -> clock w <= expiresAt entry ->
  getCachedValue cache key w = (Ok (Some (value entry)), w).
Proof.
  intros Hk Hle. unfold getCachedValue, Map_get, Date_now, bind. rewrite Hk.
  destruct (Z.gtb_spec (clock w) (expiresAt entry)); [lia|reflexivity].
Qed.

Lemma getCachedValue_stale {T} (cache : CacheRef T) (key : string)
    (entry : CacheEntry T) (w : World) :
  cacheOf cache w !! key = Some entry -> expiresAt entry < clock w ->
  getCachedValue cache key w
  = (Ok None, setCache cache (delete key (cacheOf cache w)) w).
Proof.
  intros Hk Hlt. unfold getCachedValue, Map_get, Date_now, bind. rewrite Hk.
  destruct (Z.gtb_spec (clock w) (expiresAt entry)); [reflexivity|lia].
Qed.

(** C6, as the code has it. A read on a key that holds an entry returns the
    cached value exactly when [now <= expiresAt], the instant of expiry
    included, and changes nothing; when [now > expiresAt] it is a miss that
    deletes the entry.  [getCourseAggregatedRatings] then answers a fresh
    entry from the cache and, on a stale one, recomputes through the
    aggregator and stores the result under the key with
    [expiresAt = now + TTL]. *)
Theorem cached_value_until_expiry :
  (forall T (cache : CacheRef T) (key : string) (entry : CacheEntry T) (w : World),
      cacheOf cache w !! key = Some entry ->
      ((getCachedValue cache key w).1 = Ok (Some (value entry))
       <-> clock w <= expiresAt entry)
      /\ (clock w <= expiresAt entry ->
          getCachedValue cache key w = (Ok (Some (value entry)), w))
      /\ (expiresAt entry < clock w ->
          getCachedValue cache key w
          = (Ok None, setCache cache (delete key (cacheOf cache w)) w)))
  /\ (forall (subject courseNumber : string)
             (metricNames : option (list MetricName)) (w : World)
             (j : nat) (course : CourseDoc)
             (entry : CacheEntry FormattedAggregatedRatings),
        list_find (courseOf subject courseNumber) (courses (db w))
        = Some (j, course) ->
        truthy (co_courseId course) = true ->
        let cacheKey :=
          co_courseId course +:+ ":" +:+ getMetricNamesKey metricNames in
        courseAggregatedRatingsCache w !! cacheKey = Some entry ->
        (clock w <= expiresAt entry ->
         getCourseAggregatedRatings subject courseNumber metricNames w
         = (Ok (value entry), w))
        /\ (expiresAt entry < clock w ->
            exists fresh,
              courseAggregate subject courseNumber (co_courseId course)
                metricNames w = (Ok fresh, w)
              /\ getCourseAggregatedRatings subject courseNumber metricNames w
                 = (Ok fresh,
                    set_courseCache
                      (<[cacheKey := mkCacheEntry fresh
                                       (clock w + COURSE_AGGREGATED_RATINGS_TTL_MS)]>
                         (courseAggregatedRatingsCache w)) w))).
Proof.
  split.
  - intros T cache key entry w Hentry. split; [|split].
    + split.
      * intros Hres.
        destruct (Z.le_gt_cases (clock w) (expiresAt entry)) as [|Hlt];
          [assumption|].
        rewrite (getCachedValue_stale _ _ _ _ Hentry Hlt) in Hres. discriminate.
      * intros Hle. by rewrite (getCachedValue_hit _ _ _ _ Hentry Hle).
    + by apply getCachedValue_hit.
    + by apply getCachedValue_stale.
  - intros subject courseNumber metricNames w j course entry Hcourse Htruthy
      cacheKey Hcached.
    assert (getCourseId subject courseNumber w
            = (Ok (Some (co_courseId course)), w)) as Hid.
    { unfold getCourseId, storageRead, bind. simpl. by rewrite Hcourse. }
    split.
    + intros Hle. unfold getCourseAggregatedRatings.
      erewrite bind_Ok; [|exact Hid]. cbv beta iota. rewrite Htruthy. simpl.
      erewrite bind_Ok;
        [|by apply (getCachedValue_hit courseAggregatedRatingsCacheRef cacheKey entry)].
      reflexivity.
    + intros Hlt. eexists. split; [reflexivity|].
      unfold getCourseAggregatedRatings.
      erewrite bind_Ok; [|exact Hid]. cbv beta iota. rewrite Htruthy. simpl.
      erewrite bind_Ok;
        [|by apply (getCachedValue_stale courseAggregatedRatingsCacheRef cacheKey entry)].
      simpl. unfold courseAggregate, storageRead, setCachedValue, Date_now, Map_set,
        bind, ret. simpl.
      fold cacheKey. rewrite insert_delete_eq. reflexivity.
Qed.

(** Deleting the keys of [ks] that start with [p]. *)
Lemma purge_lookup {V} (p : string) (ks : list string) (c : gmap string V)
    (k : string) :
  foldr (fun cacheKey c => if String.prefix p cacheKey then delete cacheKey c else c)
    c ks !! k
  = if bool_decide (k ∈ ks) && String.prefix p k then None else c !! k.
Proof.
  induction ks as [|x ks IH]; simpl; [reflexivity|].
  destruct (String.prefix p x) eqn:Hpx.
  - destruct (decide (k = x)) as [->|Hne].
    + rewrite lookup_delete_eq, bool_decide_eq_true_2 by left. simpl.
      by rewrite Hpx.
    + rewrite lookup_delete_ne by congruence. rewrite IH.
      destruct (decide (k ∈ ks)).
      * by rewrite !bool_decide_eq_true_2 by (try right; done).
      * rewrite !bool_decide_eq_false_2; [done| |done].
        intros [->|?]%elem_of_cons; done.
  - rewrite IH. destruct (decide (k = x)) as [->|Hne].
    + rewrite Hpx, !andb_false_r. reflexivity.
    + destruct (decide (k ∈ ks)).
      * by rewrite !bool_decide_eq_true_2 by (try right; done).
      * rewrite !bool_decide_eq_false_2; [done| |done].
        intros [->|?]%elem_of_cons; done.
Qed.

Lemma purge_all_lookup {V} (p : string) (c : gmap string V) (k : string) :
  foldr (fun cacheKey c => if String.prefix p cacheKey then delete cacheKey c else c)
    c (map_to_list c).*1 !! k
  = if String.prefix p k then None else c !! k.
Proof.
  rewrite purge_lookup.
  destruct (decide (k ∈ (map_to_list c).*1)) as [Hin|Hout].
  - by rewrite bool_decide_eq_true_2.
  - rewrite bool_decide_eq_false_2 by done. simpl.
    assert (c !! k = None) as ->; [|by destruct (String.prefix p k)].
    destruct (c !! k) as [v|] eqn:Hk; [|reflexivity].
    exfalso. apply Hout. apply list_elem_of_fmap. exists (k, v).
    split; [reflexivity|]. by apply elem_of_map_to_list.
Qed.

Lemma prefix_cons (a b : ascii) (s t : string) :
  String.prefix (String a s) (String b t)
  = if Ascii.ascii_dec a b then String.prefix s t else false.
Proof. reflexivity. Qed.

Lemma prefix_colonFree (c o sfx : string) :
  colonFree c = true -> colonFree o = true ->
  String.prefix (c +:+ ":") (o +:+ ":" +:+ sfx) = true -> c = o.
Proof.
  revert o. induction c as [|x c IH]; intros [|y o] Hc Ho Hp.
  - reflexivity.
  - change (String.prefix (String ":" "") (String y (o +:+ ":" +:+ sfx)) = true) in Hp.
    rewrite prefix_cons in Hp.
    destruct (Ascii.ascii_dec ":"%char y) as [<-|]; [|discriminate].
    simpl in Ho. discriminate.
  - change (String.prefix (String x (c +:+ ":")) (String ":" sfx) = true) in Hp.
    rewrite prefix_cons in Hp.
    destruct (Ascii.ascii_dec x ":"%char) as [->|]; [|discriminate].
    simpl in Hc. discriminate.
  - change (String.prefix (String x (c +:+ ":")) (String y (o +:+ ":" +:+ sfx)) = true)
      in Hp.
    rewrite prefix_cons in Hp.
    destruct (Ascii.ascii_dec x y) as [->|]; [|discriminate].
    simpl in Hc, Ho.
    apply andb_true_iff in Hc as [_ Hc]. apply andb_true_iff in Ho as [_ Ho].
    f_equal. by apply IH.
Qed.


(** ** Transactions *)

Lemma txnLocal_ret {A} (a : A) : txnLocal (ret a).
Proof. intros w Hw. by split. Qed.

Lemma txnLocal_throw {A} (e : Error) : txnLocal (throw e : M A).
Proof. intros w Hw. by split. Qed.

Lemma txnLocal_liftResult {A} (r : Result A) : txnLocal (liftResult r).
Proof. intros w Hw. by split. Qed.

Lemma txnLocal_bind {A B} (m : M A) (k : A -> M B) :
  txnLocal m -> (forall a, txnLocal (k a)) -> txnLocal (bind m k).
Proof.
  intros Hm Hk w Hw. unfold bind.
  destruct (Hm w Hw) as [Hdb Htx]. destruct (m w) as [[a|e] w1]; simpl in *.
  - destruct (Hk a w1 Htx) as [Hdb' Htx']. split; [congruence|done].
  - by split.
Qed.

Lemma txnLocal_storageRead {A} session (f : DB -> A) :
  txnLocal (storageRead session f).
Proof. intros w Hw. by split. Qed.

Lemma txnLocal_storageWrite (s : ClientSession) (f : DB -> DB) :
  txnLocal (storageWrite (Some s) f).
Proof.
  intros w [d Hd]. unfold storageWrite, sessionStore, sessionView.
  destruct (faultIn w) as [[|n]|]; simpl; rewrite ?Hd; simpl; eauto.
Qed.

Lemma txnLocal_forEach {A} (xs : list A) (f : A -> M unit) :
  (forall x, txnLocal (f x)) -> txnLocal (forEach xs f).
Proof.
  intros Hf. induction xs as [|x xs IH]; simpl.
  - apply txnLocal_ret.
  - apply txnLocal_bind; [apply Hf|intros _; apply IH].
Qed.

Lemma txnLocal_invalidateRatingsCaches (courseId : string) :
  txnLocal (invalidateRatingsCaches courseId).
Proof. intros w Hw. by split. Qed.

Lemma txnLocal_if {A} (b : bool) (m1 m2 : M A) :
  txnLocal m1 -> txnLocal m2 -> txnLocal (if b then m1 else m2).
Proof. by destruct b. Qed.

Lemma txnLocal_AggregatedMetricsModel_findOne classId metricName categoryValue
    session :
  txnLocal (AggregatedMetricsModel_findOne classId metricName categoryValue session).
Proof. apply txnLocal_storageRead. Qed.

Lemma txnLocal_AggregatedMetric_save i m (s : ClientSession) :
  txnLocal (AggregatedMetric_save i m (Some s)).
Proof. apply txnLocal_storageWrite. Qed.

Lemma txnLocal_AggregatedMetricsModel_create m (s : ClientSession) :
  txnLocal (AggregatedMetricsModel_create m (Some s)).
Proof. apply txnLocal_storageWrite. Qed.

Lemma txnLocal_RatingModel_findOne (P : RatingType -> Prop)
    `{!forall r, Decision (P r)} session :
  txnLocal (RatingModel_findOne P session).
Proof. apply txnLocal_storageRead. Qed.

Lemma txnLocal_RatingModel_create createdBy rd (s : ClientSession) :
  txnLocal (RatingModel_create createdBy rd (Some s)).
Proof. apply txnLocal_storageWrite. Qed.

Lemma txnLocal_RatingModel_deleteOne id (s : ClientSession) :
  txnLocal (RatingModel_deleteOne id (Some s)).
Proof. apply txnLocal_storageWrite. Qed.

Lemma txnLocal_RatingModel_updateOne id v (s : ClientSession) :
  txnLocal (RatingModel_updateOne id v (Some s)).
Proof. apply txnLocal_storageWrite. Qed.

Create HintDb txn.

#[local] Hint Resolve txnLocal_ret txnLocal_throw txnLocal_liftResult
  txnLocal_storageRead txnLocal_storageWrite txnLocal_invalidateRatingsCaches
  txnLocal_AggregatedMetricsModel_findOne txnLocal_AggregatedMetric_save
  txnLocal_AggregatedMetricsModel_create txnLocal_RatingModel_findOne
  txnLocal_RatingModel_create txnLocal_RatingModel_deleteOne
  txnLocal_RatingModel_updateOne : txn.

(** Peels a computation down to its storage operations. *)
Ltac txn_local :=
  repeat first
    [ progress intros
    | solve [auto with txn]
    | apply txnLocal_forEach
    | apply txnLocal_if
    | match goal with
      | |- txnLocal (match ?x with _ => _ end) => destruct x
      | |- txnLocal (bind _ _) => apply txnLocal_bind
      end ].

Lemma txnLocal_handleCategoryCountChange classId courseId year semester subject
    courseNumber classNumber metricName categoryValue isIncrement
    (s : ClientSession) :
  txnLocal (handleCategoryCountChange classId courseId year semester subject
              courseNumber classNumber metricName categoryValue isIncrement
              (Some s)).
Proof.
  unfold handleCategoryCountChange. txn_local.
Qed.

#[local] Hint Resolve txnLocal_handleCategoryCountChange : txn.

Lemma txnLocal_createNewRating context ratingData (s : ClientSession) :
  txnLocal (createNewRating context ratingData s).
Proof.
  unfold createNewRating, Promise_all2. txn_local.
Qed.

Lemma txnLocal_handleExistingRating existingRating newValue (s : ClientSession) :
  txnLocal (handleExistingRating existingRating newValue s).
Proof.
  unfold handleExistingRating, Promise_all2. txn_local.
Qed.

Lemma txnLocal_deleteRatingOperations context year semester subject courseNumber
    classNumber metricName (s : ClientSession) :
  txnLocal (deleteRatingOperations context year semester subject courseNumber
              classNumber metricName s).
Proof.
  unfold deleteRatingOperations, Promise_all2. txn_local.
Qed.

Lemma txnLocal_deleteExisting existingRating (s : ClientSession) :
  txnLocal (deleteExisting existingRating s).
Proof. unfold deleteExisting, Promise_all2. txn_local. Qed.

#[local] Hint Resolve txnLocal_createNewRating txnLocal_handleExistingRating
  txnLocal_deleteRatingOperations txnLocal_deleteExisting : txn.

Lemma txnLocal_deleteRating_nested context year semester subject courseNumber
    classNumber metricName (s : ClientSession) :
  txnLocal (deleteRating context year semester subject courseNumber classNumber
              metricName (Some s)).
Proof. unfold deleteRating. txn_local. Qed.

#[local] Hint Resolve txnLocal_deleteRating_nested : txn.

(** A transaction whose body stays inside it commits nothing when the body
    throws. *)
Lemma withTransaction_rollback {A} (s : ClientSession) (body : M A) w e w' :
  txnLocal body ->
  withTransaction s body w = (Err e, w') -> db w' = db w.
Proof.
  intros Hbody. unfold withTransaction.
  destruct (Hbody (set_txn (Some (db w)) w)) as [Hdb _]; [by eexists|].
  destruct (body (set_txn (Some (db w)) w)) as [[a|e1] w1]; [discriminate|].
  intros [= _ <-]. exact Hdb.
Qed.

Lemma preserves_ret {X A} (f : World -> X) (a : A) : preserves f (ret a).
Proof. by intros w. Qed.

Lemma preserves_throw {X A} (f : World -> X) (e : Error) :
  preserves f (throw e : M A).
Proof. by intros w. Qed.

Lemma preserves_liftResult {X A} (f : World -> X) (r : Result A) :
  preserves f (liftResult r).
Proof. by intros w. Qed.

Lemma preserves_storageRead {X A} (f : World -> X) session (g : DB -> A) :
  preserves f (storageRead session g).
Proof. by intros w. Qed.

Lemma preserves_bind {X A B} (f : World -> X) (m : M A) (k : A -> M B) :
  preserves f m -> (forall a, preserves f (k a)) -> preserves f (bind m k).
Proof.
  intros Hm Hk w. unfold bind. specialize (Hm w).
  destruct (m w) as [[a|e] w1]; simpl in *; [|done].
  rewrite <- Hm. apply Hk.
Qed.

Lemma preserves_forEach {X A} (f : World -> X) (xs : list A) (g : A -> M unit) :
  (forall x, preserves f (g x)) -> preserves f (forEach xs g).
Proof.
  intros Hg. induction xs as [|x xs IH]; simpl.
  - apply preserves_ret.
  - apply preserves_bind; [apply Hg|intros _; apply IH].
Qed.

Lemma preserves_if {X A} (f : World -> X) (b : bool) (m1 m2 : M A) :
  preserves f m1 -> preserves f m2 -> preserves f (if b then m1 else m2).
Proof. by destruct b. Qed.

Lemma preserves_RatingModel_find {X} (f : World -> X) (P : RatingType -> Prop)
    `{!forall r, Decision (P r)} session :
  preserves f (RatingModel_find P session).
Proof. apply preserves_storageRead. Qed.

Lemma preserves_RatingModel_findOne {X} (f : World -> X) (P : RatingType -> Prop)
    `{!forall r, Decision (P r)} session :
  preserves f (RatingModel_findOne P session).
Proof. apply preserves_storageRead. Qed.

Lemma preserves_AggregatedMetricsModel_findOne {X} (f : World -> X) classId
    metricName categoryValue session :
  preserves f (AggregatedMetricsModel_findOne classId metricName categoryValue
                 session).
Proof. apply preserves_storageRead. Qed.

(** Sessions and invalidation leave the database alone. *)
Lemma db_startSession : preserves db startSession.
Proof. by intros w. Qed.

Lemma db_endSession s : preserves db (endSession s).
Proof. by intros w. Qed.

Lemma db_invalidateRatingsCaches courseId :
  preserves db (invalidateRatingsCaches courseId).
Proof. by intros w. Qed.

(** Sessions and storage writes leave the caches alone. *)
Lemma caches_startSession : preserves caches startSession.
Proof. by intros w. Qed.

Lemma caches_endSession s : preserves caches (endSession s).
Proof. by intros w. Qed.

Lemma caches_storageWrite session (g : DB -> DB) :
  preserves caches (storageWrite session g).
Proof.
  intros w. unfold storageWrite, sessionStore.
  destruct (faultIn w) as [[|n]|]; simpl; destruct session, (txn w); reflexivity.
Qed.

Lemma caches_AggregatedMetric_save i m session :
  preserves caches (AggregatedMetric_save i m session).
Proof. apply caches_storageWrite. Qed.

Lemma caches_AggregatedMetricsModel_create m session :
  preserves caches (AggregatedMetricsModel_create m session).
Proof. apply caches_storageWrite. Qed.

Lemma caches_RatingModel_create createdBy rd session :
  preserves caches (RatingModel_create createdBy rd session).
Proof. apply caches_storageWrite. Qed.

Lemma caches_RatingModel_deleteOne id session :
  preserves caches (RatingModel_deleteOne id session).
Proof. apply caches_storageWrite. Qed.

Lemma caches_RatingModel_updateOne id v session :
  preserves caches (RatingModel_updateOne id v session).
Proof. apply caches_storageWrite. Qed.

Lemma caches_withTransaction {A} (s : ClientSession) (body : M A) :
  preserves caches body -> preserves caches (withTransaction s body).
Proof.
  intros Hbody w. unfold withTransaction.
  specialize (Hbody (set_txn (Some (db w)) w)).
  by destruct (body (set_txn (Some (db w)) w)) as [[a|e] w1].
Qed.

Lemma caches_tryFinally_endSession {A} (s : ClientSession) (body : M A) :
  preserves caches body -> preserves caches (tryFinally body (endSession s)).
Proof.
  intros Hbody w. unfold tryFinally. specialize (Hbody w).
  by destruct (body w) as [r w1].
Qed.

Create HintDb frame.

#[local] Hint Resolve preserves_ret preserves_throw preserves_liftResult
  preserves_storageRead preserves_RatingModel_find preserves_RatingModel_findOne
  preserves_AggregatedMetricsModel_findOne
  db_startSession db_endSession db_invalidateRatingsCaches
  caches_startSession caches_endSession caches_storageWrite
  caches_AggregatedMetric_save caches_AggregatedMetricsModel_create
  caches_RatingModel_create caches_RatingModel_deleteOne
  caches_RatingModel_updateOne : frame.

(** Peels a computation down to its primitive steps. *)
Ltac frame :=
  repeat first
    [ progress intros
    | solve [auto with frame]
    | apply preserves_forEach
    | apply preserves_if
    | apply caches_tryFinally_endSession
    | apply caches_withTransaction
    | match goal with
      | |- preserves _ (match ?x with _ => _ end) => destruct x
      | |- preserves _ (bind _ _) => apply preserves_bind
      end ].

Lemma preserves_getClassDocument {X} (f : World -> X) year semester subject
    courseNumber classNumber :
  preserves f (getClassDocument year semester subject courseNumber classNumber).
Proof. unfold getClassDocument. frame. Qed.

Lemma preserves_getUserRatings {X} (f : World -> X) context :
  preserves f (getUserRatings context).
Proof. unfold getUserRatings. frame. Qed.

Lemma caches_handleCategoryCountChange classId courseId year semester subject
    courseNumber classNumber metricName categoryValue isIncrement session :
  preserves caches
    (handleCategoryCountChange classId courseId year semester subject
       courseNumber classNumber metricName categoryValue isIncrement session).
Proof. unfold handleCategoryCountChange. frame. Qed.

#[local] Hint Resolve preserves_getClassDocument preserves_getUserRatings
  caches_handleCategoryCountChange : frame.

Lemma caches_createNewRating context ratingData s :
  preserves caches (createNewRating context ratingData s).
Proof. unfold createNewRating, Promise_all2. frame. Qed.

Lemma caches_handleExistingRating existingRating newValue s :
  preserves caches (handleExistingRating existingRating newValue s).
Proof. unfold handleExistingRating, Promise_all2. frame. Qed.

Lemma caches_deleteRatingOperations context year semester subject courseNumber
    classNumber metricName s :
  preserves caches
    (deleteRatingOperations context year semester subject courseNumber
       classNumber metricName s).
Proof. unfold deleteRatingOperations, Promise_all2. frame. Qed.

Lemma caches_deleteExisting existingRating s :
  preserves caches (deleteExisting existingRating s).
Proof. unfold deleteExisting, Promise_all2. frame. Qed.

#[local] Hint Resolve caches_createNewRating caches_handleExistingRating
  caches_deleteRatingOperations caches_deleteExisting : frame.

Lemma unchangedOnError_preserves {X A} (f : World -> X) (m : M A) :
  preserves f m -> unchangedOnError f m.
Proof. intros Hm w e w' Hrun. specialize (Hm w). by rewrite Hrun in Hm. Qed.

(** A step that leaves [f] alone, followed by a rest that is safe. *)
Lemma unchangedOnError_bind_pre {X A B} (f : World -> X) (m : M A) (k : A -> M B) :
  preserves f m -> (forall a, unchangedOnError f (k a)) ->
  unchangedOnError f (bind m k).
Proof.
  intros Hm Hk w e w'. unfold bind. specialize (Hm w).
  destruct (m w) as [[a|e1] w1]; simpl in *.
  - intros Hrun. rewrite <- Hm. by eapply Hk.
  - by intros [= _ <-].
Qed.

(** A safe step, followed by a rest that cannot throw. *)
Lemma unchangedOnError_bind_post {X A B} (f : World -> X) (m : M A)
    (k : A -> M B) :
  unchangedOnError f m -> (forall a, neverFails (k a)) ->
  unchangedOnError f (bind m k).
Proof.
  intros Hm Hk w e w'. unfold bind.
  destruct (m w) as [[a|e1] w1] eqn:Hrun.
  - destruct (Hk a w1) as (b & w2 & Hk'). rewrite Hk'. discriminate.
  - intros [= _ <-]. by eapply Hm.
Qed.

Lemma unchangedOnError_if {X A} (f : World -> X) (b : bool) (m1 m2 : M A) :
  unchangedOnError f m1 -> unchangedOnError f m2 ->
  unchangedOnError f (if b then m1 else m2).
Proof. by destruct b. Qed.

Lemma neverFails_invalidate_then_true courseId :
  neverFails (invalidateRatingsCaches courseId ;;; ret true).
Proof. intros w. by eexists _, _. Qed.

Lemma neverFails_forEach_invalidate (courseIds : list string) :
  neverFails (forEach courseIds invalidateRatingsCaches ;;; ret true).
Proof.
  assert (neverFails (forEach courseIds invalidateRatingsCaches)) as Hloop.
  { induction courseIds as [|c cs IH]; intros w; simpl; [by eexists _, _|].
    unfold bind at 1. simpl. apply IH. }
  intros w. destruct (Hloop w) as ([] & w1 & Hrun).
  unfold bind. rewrite Hrun. by eexists _, _.
Qed.

(** The transaction idiom of the controller: all or nothing. *)
Lemma failSafe_transaction {A} (s : ClientSession) (body : M A) :
  txnLocal body ->
  unchangedOnError db (tryFinally (withTransaction s body) (endSession s)).
Proof.
  intros Hbody w e w'. unfold tryFinally.
  destruct (withTransaction s body w) as [[a|e1] w1] eqn:Hrun; simpl.
  - discriminate.
  - intros [= _ <-]. simpl. by eapply withTransaction_rollback.
Qed.

(** Every mutation is all or nothing on the database: when it throws,
    whatever the reason, no rating and no counter has changed. *)
Lemma createRating_failSafe context year semester subject courseNumber
    classNumber metricName value :
  unchangedOnError db (createRating context year semester subject courseNumber classNumber
              metricName value).
Proof.
  unfold createRating.
  apply unchangedOnError_if; [apply unchangedOnError_preserves; auto with frame|].
  apply unchangedOnError_bind_pre; [auto with frame|intros _].
  apply unchangedOnError_bind_pre; [auto with frame|intros classDoc].
  apply unchangedOnError_bind_pre; [auto with frame|intros userRatings].
  apply unchangedOnError_bind_pre; [auto with frame|intros _].
  apply unchangedOnError_bind_pre; [auto with frame|intros session].
  apply unchangedOnError_bind_post; [|intros _; apply neverFails_invalidate_then_true].
  apply failSafe_transaction.
  unfold createRating_transaction, checkRatingExists. txn_local.
Qed.

Lemma createRatings_failSafe context year semester subject courseNumber
    classNumber metrics :
  unchangedOnError db (createRatings context year semester subject courseNumber classNumber
              metrics).
Proof.
  unfold createRatings.
  apply unchangedOnError_if; [apply unchangedOnError_preserves; auto with frame|].
  apply unchangedOnError_bind_pre; [frame|intros _].
  apply unchangedOnError_bind_pre; [frame|intros _].
  apply unchangedOnError_bind_pre; [auto with frame|intros classDoc].
  apply unchangedOnError_bind_pre; [auto with frame|intros userRatings].
  apply unchangedOnError_bind_pre; [auto with frame|intros _].
  apply unchangedOnError_bind_pre; [auto with frame|intros existingRatings].
  apply unchangedOnError_bind_pre; [auto with frame|intros session].
  apply unchangedOnError_bind_post; [|intros _; apply neverFails_invalidate_then_true].
  apply failSafe_transaction. unfold Promise_all2. txn_local.
Qed.

Lemma deleteRatings_failSafe context subject courseNumber :
  unchangedOnError db (deleteRatings context subject courseNumber).
Proof.
  unfold deleteRatings.
  apply unchangedOnError_if; [apply unchangedOnError_preserves; auto with frame|].
  apply unchangedOnError_bind_pre; [auto with frame|intros existingRatings].
  apply unchangedOnError_if; [apply unchangedOnError_preserves; auto with frame|].
  apply unchangedOnError_bind_pre; [auto with frame|intros session].
  apply unchangedOnError_bind_post; [|intros _; apply neverFails_forEach_invalidate].
  apply failSafe_transaction. txn_local.
Qed.

Lemma deleteRating_failSafe context year semester subject courseNumber
    classNumber metricName :
  unchangedOnError db (deleteRating context year semester subject courseNumber classNumber
              metricName None).
Proof.
  unfold deleteRating.
  apply unchangedOnError_if; [apply unchangedOnError_preserves; auto with frame|].
  apply unchangedOnError_bind_post.
  - apply unchangedOnError_bind_pre; [auto with frame|intros session].
    apply failSafe_transaction. txn_local.
  - intros c. destruct (truthy c); [apply neverFails_invalidate_then_true|].
    intros w. by eexists _, _.
Qed.

(** ** Submitting a rating *)

Lemma getUserRatings_run context w :
  truthy (user_id context) = true ->
  getUserRatings context w = (Ok (userRatingsOf context (db w)), w).
Proof.
  intros Hauth. unfold getUserRatings, userRatingsOf, storageRead, bind.
  rewrite Hauth. simpl. by destruct (userRatingsAggregator (db w) context).
Qed.

Lemma getClassDocument_run year semester subject courseNumber classNumber w j classDoc :
  list_find (classOf year semester subject courseNumber classNumber)
    (classes (db w)) = Some (j, classDoc) ->
  getClassDocument year semester subject courseNumber classNumber w
  = (Ok classDoc, w).
Proof.
  intros Hfind. unfold getClassDocument, storageRead, bind. simpl.
  by rewrite Hfind.
Qed.

Lemma createRating_transaction_same context classId courseId year semester
    subject courseNumber classNumber metricName value session w i r :
  list_find (ratedBy (user_id context) subject courseNumber metricName)
    (ratings (db w)) = Some (i, r) ->
  r_semester r = semester -> r_year r = year -> r_classNumber r = classNumber ->
  r_value r = value ->
  createRating_transaction context classId courseId year semester subject
    courseNumber classNumber metricName value session w = (Ok tt, w).
Proof.
  intros Hfind <- <- <- <-.
  unfold createRating_transaction, checkRatingExists, RatingModel_findOne,
    storageRead, bind. simpl.
  rewrite Hfind. simpl.
  rewrite !String.eqb_refl, Z.eqb_refl. simpl.
  unfold handleExistingRating. by rewrite Z.eqb_refl.
Qed.

(** C5. When the rating found for the user, course and metric is in the
    submitted term and carries the submitted value, [createRating] commits
    the database it started from: every rating and every counter row is
    unchanged, whether the submission passes its checks or not; and when it
    passes them the call returns [true]. *)
Theorem resubmitting_same_value_is_noop (context : RequestContext) (year : Z)
    (semester : Semester) (subject courseNumber classNumber : string)
    (metricName : MetricName) (value : Z) (w : World) (i : nat) (r : RatingType) :
  list_find (ratedBy (user_id context) subject courseNumber metricName)
    (ratings (db w)) = Some (i, r) ->
  r_semester r = semester -> r_year r = year -> r_classNumber r = classNumber ->
  r_value r = value ->
  db (createRating context year semester subject courseNumber classNumber
        metricName value w).2 = db w
  /\ (truthy (user_id context) = true ->
      checkValueConstraint metricName value = Ok tt ->
      (exists j classDoc,
          list_find (classOf year semester subject courseNumber classNumber)
            (classes (db w)) = Some (j, classDoc)) ->
      checkUserMaxRatingsConstraint (userRatingsOf context (db w)) year semester
        subject courseNumber = Ok tt ->
      (createRating context year semester subject courseNumber classNumber
         metricName value w).1 = Ok true).
Proof.
  intros Hfind Hsem Hyear Hcls Hval.
  assert (forall classId courseId s w0,
            db w0 = db w ->
            exists w1,
              tryFinally
                (withTransaction s
                   (createRating_transaction context classId courseId year
                      semester subject courseNumber classNumber metricName value s))
                (endSession s) w0 = (Ok tt, w1) /\ db w1 = db w) as Htx.
  { intros classId courseId s w0 Hdb. eexists. unfold tryFinally, withTransaction.
    rewrite (createRating_transaction_same context classId courseId year
               semester subject courseNumber classNumber metricName value s
               (set_txn (Some (db w0)) w0) i r);
      [|simpl; rewrite Hdb; exact Hfind|assumption..].
    split; [reflexivity|]. simpl. exact Hdb. }
  split.
  - destruct (createRating context year semester subject courseNumber classNumber
                metricName value w) as [[b|e] w'] eqn:Hrun; simpl.
    + unfold createRating in Hrun.
      destruct (truthy (user_id context)); simpl in Hrun; [|discriminate].
      apply bind_inv_Ok in Hrun as (u1 & w1 & Hstep & Hrun).
      assert (w1 = w) as -> by (unfold liftResult in Hstep; by destruct (checkValueConstraint _ _); inversion Hstep).
      apply bind_inv_Ok in Hrun as (classDoc & w1 & Hclass & Hrun).
      pose proof (preserves_getClassDocument db year semester subject
                    courseNumber classNumber w) as Hdb1.
      rewrite Hclass in Hdb1. simpl in Hdb1.
      apply bind_inv_Ok in Hrun as (ur & w2 & Hur & Hrun).
      pose proof (preserves_getUserRatings db context w1) as Hdb2.
      rewrite Hur in Hdb2. simpl in Hdb2.
      apply bind_inv_Ok in Hrun as (u3 & w3 & Hmax & Hrun).
      assert (w3 = w2) as -> by (unfold liftResult in Hmax; by destruct (checkUserMaxRatingsConstraint _ _ _ _ _); inversion Hmax).
      apply bind_inv_Ok in Hrun as (s & w4 & Hs & Hrun).
      pose proof (db_startSession w2) as Hdb4. rewrite Hs in Hdb4.
      simpl in Hdb4.
      destruct (Htx (cl_id classDoc) (cl_courseId classDoc) s w4) as (w5 & Htx5 & Hdb5);
        [congruence|].
      erewrite bind_Ok in Hrun; [|exact Htx5].
      inversion Hrun; subst. simpl. exact Hdb5.
    + by eapply createRating_failSafe.
  - intros Hauth Hvalue (j & classDoc & Hclass) Hmax.
    unfold createRating. rewrite Hauth. simpl.
    unfold liftResult at 1. unfold bind at 1. rewrite Hvalue.
    erewrite bind_Ok; [|by eapply getClassDocument_run].
    erewrite bind_Ok; [|by apply getUserRatings_run].
    unfold liftResult at 1. unfold bind at 1. rewrite Hmax.
    erewrite bind_Ok; [|reflexivity].
    edestruct Htx as (w5 & Htx5 & _); [|erewrite bind_Ok; [|exact Htx5]];
      [reflexivity|reflexivity].
Qed.

(** ** Inside a transaction *)

Lemma inTx_sessionView (s : ClientSession) c d n w :
  inTx c d n w -> sessionView (Some s) w = d.
Proof. intros (_ & Ht & _). unfold sessionView. by rewrite Ht. Qed.

Lemma inTx_sessionStore (s : ClientSession) c d d' n w :
  inTx c d n w -> inTx c d' n (sessionStore (Some s) d' w).
Proof.
  intros (Hc & Ht & Hf & Hn). unfold sessionStore. rewrite Ht.
  by repeat split.
Qed.

Lemma inTx_read_committed {A} (f : DB -> A) c d n w :
  inTx c d n w -> storageRead None f w = (Ok (f c), w).
Proof. intros (Hc & _). unfold storageRead. simpl. by rewrite Hc. Qed.

Lemma inTx_write (s : ClientSession) (f : DB -> DB) c d n w :
  inTx c d n w ->
  exists w', storageWrite (Some s) f w = (Ok tt, w') /\ inTx c (f d) n w'.
Proof.
  intros Hw. eexists. split.
  - apply storageWrite_healthy. apply Hw.
  - rewrite (inTx_sessionView s c d n w Hw). by eapply inTx_sessionStore.
Qed.

Lemma inTx_invalidateRatingsCaches courseId c d n w :
  inTx c d n w ->
  exists w', invalidateRatingsCaches courseId w = (Ok tt, w') /\ inTx c d n w'.
Proof. intros Hw. eexists. split; [reflexivity|]. exact Hw. Qed.

Lemma inTx_adjust_existing classId courseId year semester subject courseNumber
    classNumber metricName categoryValue isIncrement (s : ClientSession)
    c d n w i m :
  inTx c d n w ->
  list_find (counterKey classId metricName categoryValue) (aggregatedMetrics d)
  = Some (i, m) ->
  exists w',
    handleCategoryCountChange classId courseId year semester subject courseNumber
      classNumber metricName categoryValue isIncrement (Some s) w = (Ok tt, w')
    /\ inTx c
         (set_aggregatedMetrics
            (<[i := withCount (am_categoryCount m + (if isIncrement then 1 else -1)) m]>
               (aggregatedMetrics d)) d) n w'.
Proof.
  intros Hw Hfind. eexists. split.
  - apply handleCategoryCountChange_existing; [|apply Hw].
    rewrite (inTx_sessionView s c d n w Hw). exact Hfind.
  - rewrite (inTx_sessionView s c d n w Hw). by eapply inTx_sessionStore.
Qed.

Lemma inTx_adjust_seeds classId courseId year semester subject courseNumber
    classNumber metricName categoryValue (s : ClientSession) c d n w domain :
  inTx c d n w ->
  list_find (counterKey classId metricName categoryValue) (aggregatedMetrics d)
  = None ->
  (metricName ∈ numberScaleMetrics /\ domain = [1; 2; 3; 4; 5])
  \/ (metricName ∈ booleanScaleMetrics /\ domain = [0; 1]) ->
  exists w',
    handleCategoryCountChange classId courseId year semester subject courseNumber
      classNumber metricName categoryValue true (Some s) w = (Ok tt, w')
    /\ inTx c
         (set_aggregatedMetrics
            (aggregatedMetrics d
               ++ ((fun v => mkAggregatedMetric classId courseId subject
                               courseNumber semester year classNumber metricName v
                               (if v =? categoryValue then 1 else 0)) <$> domain))
            d) n w'.
Proof.
  intros Hw Hfind Hscale. eexists. split.
  - apply handleCategoryCountChange_seeds; [|apply Hw|exact Hscale].
    rewrite (inTx_sessionView s c d n w Hw). exact Hfind.
  - rewrite (inTx_sessionView s c d n w Hw). by eapply inTx_sessionStore.
Qed.

(** A transaction whose body succeeds commits the view the body ends with. *)
Lemma withTransaction_commit {A} (s : ClientSession) (body : M A) w a w' d :
  body (set_txn (Some (db w)) w) = (Ok a, w') ->
  txn w' = Some d ->
  withTransaction s body w = (Ok a, set_txn None (set_db d w')).
Proof.
  intros Hbody Ht. unfold withTransaction. rewrite Hbody.
  unfold sessionView. by rewrite Ht.
Qed.

(** ** Lists of documents *)

(** Saving a document back with the same key does not move what [findOne]
    finds. *)
Lemma list_find_insert_key {A} (P : A -> Prop) `{!forall x, Decision (P x)}
    (l : list A) (i : nat) (x x' : A) :
  l !! i = Some x -> (P x <-> P x') ->
  list_find P (<[i := x']> l)
  = (fun jy => (jy.1, if decide (jy.1 = i) then x' else jy.2)) <$> list_find P l.
Proof.
  revert i. induction l as [|y l IH]; intros [|i] Hi HP; simpl in *; try done.
  - injection Hi as ->.
    destruct (decide (P x)) as [Hx|Hx], (decide (P x')) as [Hx'|Hx'];
      try tauto; try done.
    destruct (list_find P l) as [[j z]|]; [|done].
    cbn. by rewrite decide_False by lia.
  - destruct (decide (P y)); [done|].
    rewrite (IH i Hi HP).
    destruct (list_find P l) as [[j z]|]; [|done].
    cbn. destruct (decide (j = i)).
    + by rewrite decide_True by lia.
    + by rewrite decide_False by lia.
Qed.

Lemma withCount_key classId metricName categoryValue c m :
  counterKey classId metricName categoryValue m
  <-> counterKey classId metricName categoryValue (withCount c m).
Proof. by destruct m. Qed.

Lemma countAt_saved classId metricName categoryValue l i m c :
  list_find (counterKey classId metricName categoryValue) l = Some (i, m) ->
  countAt classId metricName categoryValue (<[i := withCount c m]> l) = Some c.
Proof.
  intros Hfind. unfold countAt.
  pose proof Hfind as (Hi & _ & _)%list_find_Some.
  rewrite (list_find_insert_key _ l i m (withCount c m) Hi (withCount_key _ _ _ _ _)).
  rewrite Hfind. simpl. by rewrite decide_True.
Qed.

Lemma list_find_saved_other classId metricName categoryValue l i m c :
  l !! i = Some m ->
  ~ counterKey classId metricName categoryValue m ->
  list_find (counterKey classId metricName categoryValue) (<[i := withCount c m]> l)
  = list_find (counterKey classId metricName categoryValue) l.
Proof.
  intros Hi Hkey.
  rewrite (list_find_insert_key _ l i m (withCount c m) Hi (withCount_key _ _ _ _ _)).
  destruct (list_find (counterKey classId metricName categoryValue) l)
    as [[j y]|] eqn:Hfind; simpl; [|done].
  destruct (decide (j = i)) as [->|]; [|done].
  apply list_find_Some in Hfind as (Hj & Hy & _). congruence.
Qed.

Lemma countAt_app_l classId metricName categoryValue l1 l2 c :
  countAt classId metricName categoryValue l1 = Some c ->
  countAt classId metricName categoryValue (l1 ++ l2) = Some c.
Proof.
  unfold countAt.
  destruct (list_find (counterKey classId metricName categoryValue) l1)
    as [[i m]|] eqn:Hfind; [|done].
  intros Hc. by erewrite list_find_app_l.
Qed.

(** With unique [_id]s, [deleteOne({ _id })] removes the document itself. *)
Lemma deleteById_unique (l : list RatingType) (i : nat) (r : RatingType) :
  NoDup (r_id <$> l) -> l !! i = Some r ->
  deleteById (r_id r) l = delete i l.
Proof.
  intros Hnd Hi. unfold deleteById.
  assert (list_find (hasId (r_id r)) l = Some (i, r)) as ->; [|done].
  apply list_find_Some. split; [done|]. split; [done|].
  intros j y Hj Hlt Hid. unfold hasId in Hid.
  assert (j = i); [|lia].
  eapply NoDup_lookup; [exact Hnd| |].
  - rewrite list_lookup_fmap, Hj. simpl. by rewrite Hid.
  - by rewrite list_lookup_fmap, Hi.
Qed.

Lemma filter_delete_only {A} (P : A -> Prop) `{!forall x, Decision (P x)}
    (l : list A) (i : nat) (x : A) :
  l !! i = Some x -> filter P l = [x] -> filter P (delete i l) = [].
Proof.
  revert i. induction l as [|y l IH]; intros [|i] Hi Hf; simpl in *; try done.
  - injection Hi as ->. rewrite filter_cons in Hf.
    destruct (decide (P x)).
    + by injection Hf.
    + assert (x ∈ filter P l) as Hin by (rewrite Hf; left).
      apply list_elem_of_filter in Hin as [? _]. done.
  - rewrite filter_cons in Hf |- *. destruct (decide (P y)).
    + injection Hf as -> Hf. assert (x ∈ filter P l) as Hin.
      { apply list_elem_of_filter. split; [done|]. by eapply list_elem_of_lookup_2. }
      rewrite Hf in Hin. by apply elem_of_nil in Hin.
    + by apply IH.
Qed.

Lemma list_find_stronger {A} (P Q : A -> Prop) `{!forall x, Decision (P x)}
    `{!forall x, Decision (Q x)} (l : list A) (i : nat) (x : A) :
  list_find P l = Some (i, x) -> Q x -> (forall y, Q y -> P y) ->
  list_find Q l = Some (i, x).
Proof.
  intros (Hi & _ & Hmin)%list_find_Some HQ HQP. apply list_find_Some.
  split; [done|]. split; [done|]. intros j y Hj Hlt HQy.
  by eapply Hmin, HQP.
Qed.

(** ** Replacing a rating across terms *)

(** The nested [deleteRating] of the replacement, run inside the open
    transaction. *)
Lemma deleteRating_nested_run context (s : ClientSession) c d n w i r k m :
  inTx c d n w ->
  truthy (user_id context) = true ->
  list_find (ratedIn (user_id context) (r_subject r) (r_courseNumber r)
               (r_semester r) (r_year r) (r_classNumber r) (r_metricName r))
    (ratings c) = Some (i, r) ->
  list_find (counterKey (r_classId r) (r_metricName r) (r_value r))
    (aggregatedMetrics d) = Some (k, m) ->
  exists w',
    deleteRating context (r_year r) (r_semester r) (r_subject r)
      (r_courseNumber r) (r_classNumber r) (r_metricName r) (Some s) w
    = (Ok true, w')
    /\ inTx c
         (set_aggregatedMetrics
            (<[k := withCount (am_categoryCount m + -1) m]> (aggregatedMetrics d))
            (set_ratings (deleteById (r_id r) (ratings d)) d)) n w'.
Proof.
  intros Hw Hauth Hfind Hrow.
  unfold deleteRating. rewrite Hauth. simpl.
  unfold deleteRatingOperations, RatingModel_findOne.
  destruct (inTx_write s (fun d => set_ratings (deleteById (r_id r) (ratings d)) d)
              c d n w Hw) as (w1 & Hdel & Hw1).
  destruct (inTx_adjust_existing (r_classId r) (r_courseId r) (r_year r)
              (r_semester r) (r_subject r) (r_courseNumber r) (r_classNumber r)
              (r_metricName r) (r_value r) false s c _ n w1 k m Hw1 Hrow)
    as (w2 & Hadj & Hw2).
  assert (exists w3,
             (if truthy (r_courseId r) then invalidateRatingsCaches (r_courseId r)
              else ret tt) w2 = (Ok tt, w3)
             /\ inTx c (set_aggregatedMetrics
                          (<[k := withCount (am_categoryCount m + -1) m]>
                             (aggregatedMetrics d))
                          (set_ratings (deleteById (r_id r) (ratings d)) d)) n w3)
    as (w3 & Hinv & Hw3).
  { destruct (truthy (r_courseId r)).
    - by apply inTx_invalidateRatingsCaches.
    - by exists w2. }
  exists w3. split; [|exact Hw3].
  erewrite bind_Ok; [|].
  - erewrite bind_Ok; [|exact Hinv]. reflexivity.
  - erewrite bind_Ok; [reflexivity|].
    erewrite bind_Ok; [|by eapply inTx_read_committed].
    rewrite Hfind. simpl.
    erewrite bind_Ok; [reflexivity|].
    unfold Promise_all2, RatingModel_deleteOne.
    erewrite bind_Ok; [|exact Hdel]. exact Hadj.
Qed.

Lemma createNewRating_run context rd (s : ClientSession) c d n w domain :
  inTx c d n w ->
  (rd_metricName rd ∈ numberScaleMetrics /\ domain = [1; 2; 3; 4; 5])
  \/ (rd_metricName rd ∈ booleanScaleMetrics /\ domain = [0; 1]) ->
  exists w',
    createNewRating context rd s w = (Ok tt, w')
    /\ inTx c
         (set_aggregatedMetrics (incremented rd domain (aggregatedMetrics d))
            (set_nextId (nextId d + 1)
               (set_ratings (ratings d ++ [newRating (nextId d) (user_id context) rd])
                  d))) n w'.
Proof.
  intros Hw Hscale. unfold createNewRating, Promise_all2, RatingModel_create.
  destruct (inTx_write s
              (fun d => set_nextId (nextId d + 1)
                          (set_ratings (ratings d ++ [newRating (nextId d)
                                                        (user_id context) rd]) d))
              c d n w Hw) as (w1 & Hcreate & Hw1).
  unfold incremented.
  destruct (list_find (counterKey (rd_classId rd) (rd_metricName rd) (rd_value rd))
              (aggregatedMetrics d)) as [[j m']|] eqn:Hfind.
  - destruct (inTx_adjust_existing (rd_classId rd) (rd_courseId rd) (rd_year rd)
                (rd_semester rd) (rd_subject rd) (rd_courseNumber rd)
                (rd_classNumber rd) (rd_metricName rd) (rd_value rd) true s c _ n
                w1 j m' Hw1 Hfind) as (w2 & Hadj & Hw2).
    exists w2. split; [|exact Hw2].
    erewrite bind_Ok; [|exact Hcreate]. exact Hadj.
  - destruct (inTx_adjust_seeds (rd_classId rd) (rd_courseId rd) (rd_year rd)
                (rd_semester rd) (rd_subject rd) (rd_courseNumber rd)
                (rd_classNumber rd) (rd_metricName rd) (rd_value rd) s c _ n
                w1 domain Hw1 Hfind Hscale) as (w2 & Hadj & Hw2).
    exists w2. split; [|exact Hw2].
    erewrite bind_Ok; [|exact Hcreate]. exact Hadj.
Qed.

Lemma countAt_incremented rd domain l :
  rd_value rd ∈ domain ->
  countAt (rd_classId rd) (rd_metricName rd) (rd_value rd) (incremented rd domain l)
  = Some (default 0 (countAt (rd_classId rd) (rd_metricName rd) (rd_value rd) l) + 1).
Proof.
  intros Hin. unfold incremented, countAt at 2.
  destruct (list_find (counterKey (rd_classId rd) (rd_metricName rd) (rd_value rd)) l)
    as [[j m']|] eqn:Hfind; simpl.
  - by apply countAt_saved.
  - destruct (list_find_seeded (rd_classId rd) (rd_courseId rd) (rd_year rd)
                (rd_semester rd) (rd_subject rd) (rd_courseNumber rd)
                (rd_classNumber rd) (rd_metricName rd) (rd_value rd) l domain
                Hfind Hin) as (i & m & Hfound & _ & Hone).
    unfold countAt, seededRows. rewrite Hfound. simpl. by rewrite Hone.
Qed.

Lemma countAt_incremented_other rd domain l classId metricName categoryValue :
  classId <> rd_classId rd ->
  countAt classId metricName categoryValue (incremented rd domain l)
  = countAt classId metricName categoryValue l.
Proof.
  intros Hne. unfold incremented.
  destruct (list_find (counterKey (rd_classId rd) (rd_metricName rd) (rd_value rd)) l)
    as [[j m']|] eqn:Hfind.
  - apply list_find_Some in Hfind as (Hj & (Hc & _) & _).
    unfold countAt. rewrite list_find_saved_other; [done|done|].
    intros (Hc' & _). congruence.
  - unfold countAt.
    destruct (list_find (counterKey classId metricName categoryValue) l)
      as [[i m]|] eqn:Hl.
    + by erewrite list_find_app_l.
    + rewrite list_find_app_r by done.
      assert (list_find (counterKey classId metricName categoryValue)
                (seededRows rd domain) = None) as ->; [|done].
      apply list_find_None, Forall_forall. intros x Hx (Hc & _).
      unfold seededRows in Hx. apply list_elem_of_fmap in Hx as [v [-> _]].
      simpl in Hc. congruence.
Qed.

Lemma term_differs (r : RatingType) (year : Z) (semester : Semester)
    (classNumber : string) :
  r_semester r <> semester \/ r_year r <> year \/ r_classNumber r <> classNumber ->
  negb (String.eqb (r_semester r) semester) || negb (r_year r =? year)
  || negb (String.eqb (r_classNumber r) classNumber) = true.
Proof.
  intros Hdiff.
  destruct (String.eqb_spec (r_semester r) semester); simpl; [|done].
  destruct (Z.eqb_spec (r_year r) year); simpl; [|done].
  destruct (String.eqb_spec (r_classNumber r) classNumber); simpl; [|done].
  destruct Hdiff as [?|[?|?]]; done.
Qed.

(** C1. A user who holds a rating for the course and metric in another term
    (semester, year or class number differs) submits a value in the metric's
    domain; the old counter row exists, ids are unique, the two offerings
    are different classes and the storage is healthy.  Then [createRating]
    returns [true] having started one session: the old rating is deleted
    and the new one appended, the count of the old rating's row is one
    less, the count of the new key is one more (1 when the row was not
    there), and if the old rating was the user's only one for the course
    and metric, the new one is.  The unit is atomic: under any schedule of
    storage faults, a failing call leaves the database as it was. *)
Theorem replacing_across_terms_moves_the_vote (context : RequestContext)
    (year : Z) (semester : Semester) (subject courseNumber classNumber : string)
    (metricName : MetricName) (value : Z) (w : World)
    (j i k : nat) (classDoc : ClassDoc) (r : RatingType) (m : AggregatedMetric)
    (domain : list Z) :
  truthy (user_id context) = true ->
  checkValueConstraint metricName value = Ok tt ->
  list_find (classOf year semester subject courseNumber classNumber)
    (classes (db w)) = Some (j, classDoc) ->
  checkUserMaxRatingsConstraint (userRatingsOf context (db w)) year semester
    subject courseNumber = Ok tt ->
  list_find (ratedBy (user_id context) subject courseNumber metricName)
    (ratings (db w)) = Some (i, r) ->
  r_semester r <> semester \/ r_year r <> year \/ r_classNumber r <> classNumber ->
  NoDup (r_id <$> ratings (db w)) ->
  list_find (counterKey (r_classId r) (r_metricName r) (r_value r))
    (aggregatedMetrics (db w)) = Some (k, m) ->
  r_classId r <> cl_id classDoc ->
  (metricName ∈ numberScaleMetrics /\ domain = [1; 2; 3; 4; 5])
  \/ (metricName ∈ booleanScaleMetrics /\ domain = [0; 1]) ->
  value ∈ domain ->
  faultIn w = None ->
  let fresh :=
    newRating (nextId (db w)) (user_id context)
      (mkRatingData (cl_id classDoc) (cl_courseId classDoc) year semester subject
         courseNumber classNumber metricName value) in
  (exists w',
      createRating context year semester subject courseNumber classNumber
        metricName value w = (Ok true, w')
      /\ sessionsStarted w' = S (sessionsStarted w)
      /\ ratings (db w') = (delete i (ratings (db w)) ++ [fresh])%list
      /\ countAt (r_classId r) (r_metricName r) (r_value r)
           (aggregatedMetrics (db w')) = Some (am_categoryCount m - 1)
      /\ countAt (cl_id classDoc) metricName value (aggregatedMetrics (db w'))
         = Some (default 0 (countAt (cl_id classDoc) metricName value
                              (aggregatedMetrics (db w))) + 1)
      /\ (filter (ratedBy (user_id context) subject courseNumber metricName)
            (ratings (db w)) = [r] ->
          filter (ratedBy (user_id context) subject courseNumber metricName)
            (ratings (db w')) = [fresh]))
  /\ (forall f e w',
        createRating context year semester subject courseNumber classNumber
          metricName value (set_faultIn f w) = (Err e, w') ->
        db w' = db w).
Proof.
  intros Hauth Hvalue Hclass Hmax Hfind Hdiff Hnd Hrow Hcls Hscale Hin Hf fresh.
  split; [|intros f e w' Hrun; by apply createRating_failSafe in Hrun].
  pose proof Hfind as (Hi & Hby & _)%list_find_Some.
  destruct Hby as (Hu & Hsub & Hnum & Hmet).
  set (rd := mkRatingData (cl_id classDoc) (cl_courseId classDoc) year semester
               subject courseNumber classNumber metricName value).
  set (n := S (sessionsStarted w)).
  set (w0 := set_sessionsStarted n w).
  set (w1 := set_txn (Some (db w0)) w0).
  assert (inTx (db w) (db w) n w1) as Hw1 by done.
  (* the nested deletion *)
  assert (list_find (ratedIn (user_id context) (r_subject r) (r_courseNumber r)
                       (r_semester r) (r_year r) (r_classNumber r) (r_metricName r))
            (ratings (db w)) = Some (i, r)) as Hfind'.
  { eapply list_find_stronger; [exact Hfind|by repeat split|].
    intros y (? & ? & ? & _ & _ & _ & ?). repeat split; congruence. }
  destruct (deleteRating_nested_run context (sessionsStarted w) _ _ n w1 i r k m
              Hw1 Hauth Hfind' Hrow) as (w2 & Hdel & Hw2).
  destruct (createNewRating_run context rd (sessionsStarted w) _ _ n w2 domain
              Hw2 Hscale) as (w3 & Hnew & Hw3).
  simpl in Hw3.
  assert (createRating_transaction context (cl_id classDoc) (cl_courseId classDoc)
            year semester subject courseNumber classNumber metricName value
            (sessionsStarted w) w1 = (Ok tt, w3)) as Hbody.
  { unfold createRating_transaction, checkRatingExists, RatingModel_findOne.
    erewrite bind_Ok; [|by eapply inTx_read_committed].
    rewrite Hfind. simpl. rewrite term_differs by done.
    erewrite bind_Ok; [|exact Hdel]. exact Hnew. }
  destruct Hw3 as (Hdb3 & Htxn3 & Hf3 & Hn3).
  eexists. split; [|split; [|split; [|split; [|split]]]].
  - unfold createRating. rewrite Hauth. simpl.
    unfold liftResult at 1. unfold bind at 1. rewrite Hvalue.
    erewrite bind_Ok; [|by eapply getClassDocument_run].
    erewrite bind_Ok; [|by apply getUserRatings_run].
    unfold liftResult at 1. unfold bind at 1. rewrite Hmax.
    erewrite bind_Ok; [|reflexivity].
    erewrite bind_Ok; [reflexivity|].
    unfold tryFinally.
    erewrite withTransaction_commit; [|exact Hbody|exact Htxn3]. reflexivity.
  - simpl. exact Hn3.
  - simpl. by rewrite (deleteById_unique _ i r Hnd Hi).
  - simpl. rewrite countAt_incremented_other by done.
    replace (am_categoryCount m - 1) with (am_categoryCount m + -1) by lia.
    by apply countAt_saved.
  - simpl. rewrite (countAt_incremented rd domain) by done. simpl.
    unfold countAt.
    rewrite list_find_saved_other; [done|by apply list_find_Some in Hrow as (? & _)|].
    apply list_find_Some in Hrow as (_ & (Hc & _) & _). intros (Hc' & _). congruence.
  - simpl. intros Honly.
    rewrite (deleteById_unique _ i r Hnd Hi), filter_app.
    rewrite (filter_delete_only _ _ i r Hi Honly). simpl.
    rewrite filter_cons, decide_True; [done|]. by repeat split.
Qed.

(** ** Caches and failing writes *)

Lemma caches_safe_transaction {A} (s : ClientSession) (body : M A) :
  preserves caches body ->
  unchangedOnError caches (tryFinally (withTransaction s body) (endSession s)).
Proof. intros Hbody. apply unchangedOnError_preserves. frame. Qed.

(** When the batch submission throws, no cache entry has been deleted. *)
Lemma createRatings_keeps_caches_on_error context year semester subject
    courseNumber classNumber metrics :
  unchangedOnError caches
    (createRatings context year semester subject courseNumber classNumber metrics).
Proof.
  unfold createRatings.
  apply unchangedOnError_if; [apply unchangedOnError_preserves; auto with frame|].
  apply unchangedOnError_bind_pre; [frame|intros _].
  apply unchangedOnError_bind_pre; [frame|intros _].
  apply unchangedOnError_bind_pre; [auto with frame|intros classDoc].
  apply unchangedOnError_bind_pre; [auto with frame|intros userRatings].
  apply unchangedOnError_bind_pre; [auto with frame|intros _].
  apply unchangedOnError_bind_pre; [auto with frame|intros existingRatings].
  apply unchangedOnError_bind_pre; [auto with frame|intros session].
  apply unchangedOnError_bind_post;
    [|intros _; apply neverFails_invalidate_then_true].
  apply caches_safe_transaction. unfold Promise_all2. frame.
Qed.

(** When removing all ratings throws, no cache entry has been deleted. *)
Lemma deleteRatings_keeps_caches_on_error context subject courseNumber :
  unchangedOnError caches (deleteRatings context subject courseNumber).
Proof.
  unfold deleteRatings.
  apply unchangedOnError_if; [apply unchangedOnError_preserves; auto with frame|].
  apply unchangedOnError_bind_pre; [auto with frame|intros existingRatings].
  apply unchangedOnError_if; [apply unchangedOnError_preserves; auto with frame|].
  apply unchangedOnError_bind_pre; [auto with frame|intros session].
  apply unchangedOnError_bind_post; [|intros _; apply neverFails_forEach_invalidate].
  apply caches_safe_transaction. frame.
Qed.

(** When a removal that runs its own transaction throws, no cache entry
    has been deleted. *)
Lemma deleteRating_keeps_caches_on_error context year semester subject
    courseNumber classNumber metricName :
  unchangedOnError caches
    (deleteRating context year semester subject courseNumber classNumber
       metricName None).
Proof.
  unfold deleteRating.
  apply unchangedOnError_if; [apply unchangedOnError_preserves; auto with frame|].
  apply unchangedOnError_bind_post.
  - apply unchangedOnError_bind_pre; [auto with frame|intros session].
    apply caches_safe_transaction. frame.
  - intros c. destruct (truthy c); [apply neverFails_invalidate_then_true|].
    intros w. by eexists _, _.
Qed.

(** When [createRating] has no rating to replace, because the user holds
    none for the course and metric or holds one in the submitted term, a
    failing call has deleted no cache entry. *)
Lemma createRating_keeps_caches_without_replacement context year semester
    subject courseNumber classNumber metricName value w e w' :
  match list_find (ratedBy (user_id context) subject courseNumber metricName)
          (ratings (db w)) with
  | Some (_, r) =>
      r_semester r = semester /\ r_year r = year /\ r_classNumber r = classNumber
  | None => True
  end ->
  createRating context year semester subject courseNumber classNumber metricName
    value w = (Err e, w') ->
  caches w' = caches w.
Proof.
  intros Hsame Hrun.
  assert (forall classId courseId s w1,
             db w1 = db w ->
             caches (createRating_transaction context classId courseId year
                       semester subject courseNumber classNumber metricName value
                       s w1).2 = caches w1) as Hbody.
  { intros classId courseId s w1 Hdb.
    unfold createRating_transaction, checkRatingExists, RatingModel_findOne,
      storageRead, bind. simpl. rewrite Hdb.
    destruct (list_find _ (ratings (db w))) as [[i r]|]; simpl.
    - destruct Hsame as (-> & -> & ->).
      rewrite !String.eqb_refl, Z.eqb_refl. simpl.
      apply caches_handleExistingRating.
    - apply caches_createNewRating. }
  unfold createRating in Hrun.
  destruct (truthy (user_id context)) eqn:Hauth; simpl in Hrun;
    [|by injection Hrun as _ <-].
  unfold liftResult at 1 in Hrun. unfold bind at 1 in Hrun.
  destruct (checkValueConstraint metricName value); [|by injection Hrun as _ <-].
  unfold bind at 1 in Hrun.
  destruct (getClassDocument year semester subject courseNumber classNumber w)
    as [[classDoc|e1] w1] eqn:Hclass.
  2: { injection Hrun as _ <-.
       pose proof (preserves_getClassDocument caches year semester subject
                     courseNumber classNumber w) as Hp.
       by rewrite Hclass in Hp. }
  assert (w1 = w) as ->.
  { unfold getClassDocument, storageRead, bind in Hclass. simpl in Hclass.
    destruct (list_find _ (classes (db w))) as [[j c]|]; by injection Hclass. }
  rewrite (bind_Ok _ _ _ _ _ (getUserRatings_run context w Hauth)) in Hrun.
  unfold liftResult at 1 in Hrun. unfold bind at 1 in Hrun.
  destruct (checkUserMaxRatingsConstraint _ _ _ _ _); [|by injection Hrun as _ <-].
  unfold bind at 1 in Hrun. simpl in Hrun.
  unfold bind at 1 in Hrun. unfold tryFinally, withTransaction in Hrun.
  match type of Hrun with
  | context [createRating_transaction ?a ?b ?c ?d ?e ?f ?g ?h ?i ?j ?k ?w1] =>
      specialize (Hbody b c k w1 eq_refl);
      destruct (createRating_transaction a b c d e f g h i j k w1)
        as [[u|e2] w2]
  end; simpl in Hrun, Hbody.
  - discriminate.
  - injection Hrun as _ <-. exact Hbody.
Qed.

(** ** Count conservation *)

Lemma counted_adjust (cnt cnt' : ObjectId -> MetricName -> Z -> Z) c n v
    (isIncrement : bool) seed l l' :
  counted cnt l -> seedsFor c n v seed ->
  adjustedTo c n v isIncrement seed l l' ->
  (isIncrement = false -> 1 <= cnt c n v) ->
  (forall c' n' v',
      cnt' c' n' v'
      = cnt c' n' v'
        + (if decide (c' = c /\ n' = n /\ v' = v)
           then (if isIncrement then 1 else -1) else 0)) ->
  counted cnt' l'.
Proof.
  intros (Hrow & Hnorow & Hpos) Hseed Hadj Hdec Hcnt. unfold adjustedTo in Hadj.
  destruct (list_find (counterKey c n v) l) as [[i m]|] eqn:Hfind.
  - (* the row exists and is saved back *)
    subst l'. pose proof Hfind as (Hi & Hkey & _)%list_find_Some.
    set (m1 := withCount _ m).
    assert (forall c' n' v',
               list_find (counterKey c' n' v') (<[i := m1]> l)
               = (fun jy => (jy.1, if decide (jy.1 = i) then m1 else jy.2))
                   <$> list_find (counterKey c' n' v') l) as Hsaved.
    { intros c' n' v'. apply list_find_insert_key with (x := m); [done|].
      apply withCount_key. }
    split; [|split].
    + intros c' n' v' i' m' Hfind'. rewrite Hsaved in Hfind'.
      destruct (list_find (counterKey c' n' v') l) as [[i0 m0]|] eqn:Hfind0;
        [|discriminate].
      simpl in Hfind'. injection Hfind' as <- <-. rewrite Hcnt.
      pose proof Hfind0 as (Hi0 & Hkey0 & _)%list_find_Some.
      destruct (decide (i0 = i)) as [->|Hne].
      * assert (m0 = m) as -> by congruence.
        assert (c' = c /\ n' = n /\ v' = v) as (-> & -> & ->).
        { destruct Hkey as (? & ? & ?), Hkey0 as (? & ? & ?).
          repeat split; congruence. }
        rewrite decide_True by done. unfold m1. simpl.
        by rewrite (Hrow _ _ _ _ _ Hfind).
      * rewrite decide_False; [rewrite Z.add_0_r; by eapply Hrow|].
        intros (-> & -> & ->). rewrite Hfind in Hfind0. congruence.
    + intros c' n' v' domain Hnone Hrange Hin. rewrite Hsaved in Hnone.
      destruct (list_find (counterKey c' n' v') l) as [[i0 m0]|] eqn:Hfind0;
        [discriminate|].
      rewrite Hcnt, (Hnorow _ _ _ _ Hfind0 Hrange Hin).
      rewrite decide_False; [done|].
      intros (-> & -> & ->). rewrite Hfind in Hfind0. discriminate.
    + apply Forall_insert; [done|]. unfold m1. simpl.
      rewrite (Hrow _ _ _ _ _ Hfind).
      rewrite Forall_forall in Hpos.
      pose proof (Hpos m (list_elem_of_lookup_2 _ _ _ Hi)) as Hm.
      rewrite (Hrow _ _ _ _ _ Hfind) in Hm.
      destruct isIncrement; [lia|]. specialize (Hdec eq_refl). lia.
  - (* no row: the range is seeded *)
    destruct Hadj as (-> & domain & Hrange & ->).
    split; [|split].
    + intros c' n' v' i' m' Hfind'. rewrite Hcnt.
      apply list_find_app_Some in Hfind' as [Hl|(_ & Hl & Hr)].
      * rewrite decide_False; [rewrite Z.add_0_r; by eapply Hrow|].
        intros (-> & -> & ->). rewrite Hfind in Hl. discriminate.
      * apply list_find_Some in Hr as (Hr & Hkey' & _).
        apply list_elem_of_lookup_2, list_elem_of_fmap in Hr as (x & -> & Hx).
        destruct (Hseed x) as (Hc & Hn & Hv & Hcount).
        destruct Hkey' as (Hc' & Hn' & Hv').
        rewrite Hc in Hc'. rewrite Hn in Hn'. rewrite Hv in Hv'. subst c' n' v'.
        rewrite (Hnorow _ _ _ _ Hl Hrange Hx), Hcount.
        destruct (Z.eqb_spec x v) as [->|Hne].
        -- by rewrite decide_True.
        -- rewrite decide_False; [done|]. by intros (_ & _ & ?).
    + intros c' n' v' domain' Hnone Hrange' Hin.
      apply list_find_app_None in Hnone as [Hl Hr].
      rewrite Hcnt, (Hnorow _ _ _ _ Hl Hrange' Hin).
      rewrite decide_False; [done|].
      intros (-> & -> & ->). rewrite Hrange in Hrange'. injection Hrange' as <-.
      apply list_find_None in Hr. rewrite Forall_forall in Hr.
      apply (Hr (seed v)); [apply list_elem_of_fmap; by exists v|].
      destruct (Hseed v) as (? & ? & ? & _). by repeat split.
    + apply Forall_app. split; [done|]. apply Forall_forall.
      intros m (x & -> & _)%list_elem_of_fmap.
      destruct (Hseed x) as (_ & _ & _ & ->). by destruct (x =? v).
Qed.

(** How the live ratings under a key change with the collection. *)
Lemma liveRatings_app c n v l r :
  liveRatings c n v (l ++ [r])
  = liveRatings c n v l + (if decide (ratedAt c n v r) then 1 else 0).
Proof.
  unfold liveRatings. rewrite filter_app, length_app, filter_cons, filter_nil.
  destruct (decide (ratedAt c n v r)); simpl; lia.
Qed.

Lemma liveRatings_delete c n v l i r :
  l !! i = Some r ->
  liveRatings c n v (delete i l)
  = liveRatings c n v l + (if decide (ratedAt c n v r) then -1 else 0).
Proof.
  intros Hi. unfold liveRatings.
  rewrite <- (take_drop_middle l i r Hi) at 2.
  rewrite delete_take_drop, !filter_app, !length_app, filter_cons.
  destruct (decide (ratedAt c n v r)); simpl; lia.
Qed.

Lemma liveRatings_insert c n v l i r r' :
  l !! i = Some r ->
  liveRatings c n v (<[i := r']> l)
  = liveRatings c n v l + (if decide (ratedAt c n v r) then -1 else 0)
    + (if decide (ratedAt c n v r') then 1 else 0).
Proof.
  intros Hi. unfold liveRatings.
  rewrite <- (take_drop_middle l i r Hi) at 2.
  rewrite insert_take_drop by (by eapply lookup_lt_Some).
  rewrite !filter_app, !length_app, !filter_cons.
  destruct (decide (ratedAt c n v r)), (decide (ratedAt c n v r')); simpl; lia.
Qed.

Lemma liveRatings_pos c n v l r :
  r ∈ l -> ratedAt c n v r -> 1 <= liveRatings c n v l.
Proof.
  intros Hin Hat. unfold liveRatings.
  assert (r ∈ filter (ratedAt c n v) l) as Hf by (by apply list_elem_of_filter).
  destruct (filter (ratedAt c n v) l); [by apply elem_of_nil in Hf|simpl; lia].
Qed.

(** What a successful step inside a transaction did, whatever the storage
    had scheduled. *)
Lemma storageWrite_Ok_inv (s : ClientSession) (f : DB -> DB) w w' d :
  txn w = Some d -> storageWrite (Some s) f w = (Ok tt, w') ->
  txn w' = Some (f d) /\ db w' = db w.
Proof.
  intros Ht. unfold storageWrite, sessionStore, sessionView.
  destruct (faultIn w) as [[|k]|]; simpl; rewrite ?Ht; [discriminate| |];
    intros [= <-]; by split.
Qed.

Lemma forEach_create_Ok_inv (g : Z -> AggregatedMetric) (vs : list Z)
    (s : ClientSession) w w' d :
  txn w = Some d ->
  forEach vs (fun v => AggregatedMetricsModel_create (g v) (Some s)) w = (Ok tt, w') ->
  txn w' = Some (set_aggregatedMetrics (aggregatedMetrics d ++ (g <$> vs)) d)
  /\ db w' = db w.
Proof.
  revert w d. induction vs as [|v vs IH]; intros w d Ht Hrun; simpl in *.
  - injection Hrun as <-.
    by rewrite app_nil_r, set_aggregatedMetrics_same.
  - apply bind_inv_Ok in Hrun as ([] & w1 & Hstep & Hrun).
    apply (storageWrite_Ok_inv _ _ _ _ d Ht) in Hstep as [Ht1 Hdb1].
    destruct (IH _ _ Ht1 Hrun) as [Ht' Hdb']. split; [|congruence].
    rewrite Ht'. simpl. by rewrite <- app_assoc.
Qed.

Lemma valueRange_inv_Ok (metricName : MetricName) (domain : list Z) (w w' : World) :
  (if includes numberScaleMetrics metricName then ret [1; 2; 3; 4; 5]
   else if includes booleanScaleMetrics metricName then ret [0; 1]
        else throw (GraphQLError "Invalid metric name" "INVALID_ARGUMENT")) w
  = (Ok domain, w') ->
  valueRangeOf metricName = Some domain /\ w' = w.
Proof.
  unfold valueRangeOf.
  destruct (includes numberScaleMetrics metricName);
    [|destruct (includes booleanScaleMetrics metricName)];
    intros [= <- <-] || discriminate; by split.
Qed.

Lemma handleCategoryCountChange_Ok_inv classId courseId year semester subject
    courseNumber classNumber metricName categoryValue isIncrement
    (s : ClientSession) w w' d :
  txn w = Some d ->
  handleCategoryCountChange classId courseId year semester subject courseNumber
    classNumber metricName categoryValue isIncrement (Some s) w = (Ok tt, w') ->
  db w' = db w
  /\ exists l',
      txn w' = Some (set_aggregatedMetrics l' d)
      /\ adjustedTo classId metricName categoryValue isIncrement
           (fun x => mkAggregatedMetric classId courseId subject courseNumber
                       semester year classNumber metricName x
                       (if x =? categoryValue then 1 else 0))
           (aggregatedMetrics d) l'.
Proof.
  intros Ht Hrun. unfold handleCategoryCountChange in Hrun.
  apply bind_inv_Ok in Hrun as (found & w1 & Hfind & Hrun).
  unfold AggregatedMetricsModel_findOne, storageRead, sessionView in Hfind.
  rewrite Ht in Hfind. injection Hfind as <- <-.
  unfold adjustedTo.
  destruct (list_find (counterKey classId metricName categoryValue)
              (aggregatedMetrics d)) as [[i m]|] eqn:Hrow.
  - apply (storageWrite_Ok_inv _ _ _ _ d Ht) in Hrun as [Ht' Hdb'].
    split; [done|]. by eexists.
  - destruct isIncrement; [|discriminate].
    apply bind_inv_Ok in Hrun as (domain & w1 & Hrange & Hrun).
    apply valueRange_inv_Ok in Hrange as [Hrange ->].
    apply (forEach_create_Ok_inv _ _ _ _ _ d Ht) in Hrun as [Ht' Hdb'].
    split; [done|]. eexists. split; [exact Ht'|]. split; [done|]. by exists domain.
Qed.

(** ** The paired steps keep the database consistent *)

Lemma ratedAt_newRating c n v id createdBy rd :
  ratedAt c n v (newRating id createdBy rd)
  <-> c = rd_classId rd /\ n = rd_metricName rd /\ v = rd_value rd.
Proof.
  unfold ratedAt. simpl. split; intros (? & ? & ?); repeat split; congruence.
Qed.

Lemma createNewRating_consistent context rd (s : ClientSession) w w' d :
  txn w = Some d -> consistent d ->
  createNewRating context rd s w = (Ok tt, w') ->
  db w' = db w
  /\ exists d', txn w' = Some d' /\ consistent d'
                /\ classes d' = classes d.
Proof.
  intros Ht (Hnd & Hids & Hcnt) Hrun. unfold createNewRating, Promise_all2 in Hrun.
  apply bind_inv_Ok in Hrun as ([] & w1 & Hcreate & Hrun).
  apply (storageWrite_Ok_inv _ _ _ _ d Ht) in Hcreate as [Ht1 Hdb1].
  apply (handleCategoryCountChange_Ok_inv _ _ _ _ _ _ _ _ _ _ _ _ _ _ Ht1) in Hrun
    as (Hdb' & l' & Ht' & Hadj).
  split; [congruence|]. eexists. split; [exact Ht'|]. split; [|done].
  simpl in *. split; [|split]; simpl.
  - rewrite fmap_app. apply NoDup_app. split; [done|]. split; [|apply NoDup_singleton].
    intros x Hx ->%list_elem_of_singleton.
    apply list_elem_of_fmap in Hx as (r & Hr & Hin).
    rewrite Forall_forall in Hids. specialize (Hids r Hin). simpl in Hr. lia.
  - apply Forall_app. split.
    + eapply Forall_impl; [exact Hids|]. intros r ?. simpl in *. lia.
    + apply Forall_singleton. simpl. lia.
  - eapply counted_adjust; [exact Hcnt| |exact Hadj|done|].
    + by intros x.
    + intros c' n' v'. rewrite liveRatings_app. f_equal.
      destruct (decide (ratedAt c' n' v' (newRating (nextId d) (user_id context) rd)))
        as [Hat|Hat]; rewrite ratedAt_newRating in Hat.
      * by rewrite decide_True.
      * by rewrite decide_False.
Qed.

(** Deleting a rating and decrementing the row of its key. *)
Lemma delete_pair_consistent (r : RatingType) courseId year semester subject
    courseNumber classNumber (s : ClientSession) w w' d :
  txn w = Some d -> consistent d -> r ∈ ratings d ->
  Promise_all2
    (RatingModel_deleteOne (r_id r) (Some s))
    (handleCategoryCountChange (r_classId r) courseId year semester subject
       courseNumber classNumber (r_metricName r) (r_value r) false (Some s)) w
  = (Ok tt, w') ->
  db w' = db w
  /\ exists d', txn w' = Some d' /\ consistent d'
                /\ classes d' = classes d
                /\ (forall x, x ∈ ratings d -> r_id x <> r_id r -> x ∈ ratings d').
Proof.
  intros Ht (Hnd & Hids & Hcnt) Hin Hrun. unfold Promise_all2 in Hrun.
  apply list_elem_of_lookup_1 in Hin as [i Hi].
  apply bind_inv_Ok in Hrun as ([] & w1 & Hdel & Hrun).
  apply (storageWrite_Ok_inv _ _ _ _ d Ht) in Hdel as [Ht1 Hdb1].
  apply (handleCategoryCountChange_Ok_inv _ _ _ _ _ _ _ _ _ _ _ _ _ _ Ht1) in Hrun
    as (Hdb' & l' & Ht' & Hadj).
  split; [congruence|]. eexists. split; [exact Ht'|].
  simpl in *. rewrite (deleteById_unique _ i r Hnd Hi) in *.
  split; [|split; [done|]].
  - split; [|split]; simpl.
    + rewrite list_fmap_delete. eapply sublist_NoDup; [exact Hnd|apply sublist_delete].
    + by apply Forall_delete.
    + eapply counted_adjust; [exact Hcnt| |exact Hadj| |].
      * by intros x.
      * intros _. eapply liveRatings_pos; [by eapply list_elem_of_lookup_2|done].
      * intros c' n' v'. rewrite (liveRatings_delete _ _ _ _ _ r Hi). f_equal.
        unfold ratedAt.
        destruct (decide (r_classId r = c' /\ r_metricName r = n' /\ r_value r = v'))
          as [(<- & <- & <-)|Hat].
        -- by rewrite decide_True.
        -- rewrite decide_False; [done|]. intros (-> & -> & ->). by apply Hat.
  - simpl. intros x Hx Hne.
    apply list_elem_of_lookup_1 in Hx as [j Hj].
    assert (j <> i) as Hji by (intros ->; congruence).
    apply list_elem_of_lookup. destruct (decide (j < i)%nat).
    + exists j. by rewrite list_lookup_delete_lt.
    + exists (pred j). rewrite list_lookup_delete_ge by lia.
      by replace (S (pred j)) with j by lia.
Qed.

Lemma deleteExisting_consistent (r : RatingType) (s : ClientSession) w w' d :
  txn w = Some d -> consistent d -> r ∈ ratings d ->
  deleteExisting r s w = (Ok tt, w') ->
  db w' = db w
  /\ exists d', txn w' = Some d' /\ consistent d'
                /\ classes d' = classes d
                /\ (forall x, x ∈ ratings d -> r_id x <> r_id r -> x ∈ ratings d').
Proof.
  intros Ht Hd Hin Hrun. unfold deleteExisting in Hrun.
  by eapply delete_pair_consistent in Hrun.
Qed.

Lemma updateById_unique (l : list RatingType) (i : nat) (r : RatingType) (v : Z) :
  NoDup (r_id <$> l) -> l !! i = Some r ->
  updateById (r_id r) v l = <[i := withValue v r]> l.
Proof.
  intros Hnd Hi. unfold updateById.
  assert (list_find (hasId (r_id r)) l = Some (i, r)) as ->; [|done].
  apply list_find_Some. split; [done|]. split; [done|].
  intros j y Hj Hlt Hid. unfold hasId in Hid.
  assert (j = i); [|lia].
  eapply NoDup_lookup; [exact Hnd| |].
  - rewrite list_lookup_fmap, Hj. simpl. by rewrite Hid.
  - by rewrite list_lookup_fmap, Hi.
Qed.

Lemma handleExistingRating_consistent (r : RatingType) (newValue : Z)
    (s : ClientSession) w w' d :
  txn w = Some d -> consistent d -> r ∈ ratings d ->
  handleExistingRating r newValue s w = (Ok tt, w') ->
  db w' = db w
  /\ exists d', txn w' = Some d' /\ consistent d' /\ classes d' = classes d.
Proof.
  intros Ht Hd Hin Hrun. unfold handleExistingRating in Hrun.
  destruct (Z.eqb_spec (r_value r) newValue) as [Heq|Hne].
  { injection Hrun as <-. split; [done|]. by exists d. }
  destruct Hd as (Hnd & Hids & Hcnt).
  pose proof Hin as [i Hi]%list_elem_of_lookup_1.
  apply bind_inv_Ok in Hrun as ([] & w1 & Hupd & Hrun).
  apply (storageWrite_Ok_inv _ _ _ _ d Ht) in Hupd as [Ht1 Hdb1].
  unfold Promise_all2 in Hrun.
  apply bind_inv_Ok in Hrun as ([] & w2 & Hdec & Hrun).
  apply (handleCategoryCountChange_Ok_inv _ _ _ _ _ _ _ _ _ _ _ _ _ _ Ht1) in Hdec
    as (Hdb2 & l1 & Ht2 & Hadj1).
  apply (handleCategoryCountChange_Ok_inv _ _ _ _ _ _ _ _ _ _ _ _ _ _ Ht2) in Hrun
    as (Hdb' & l2 & Ht' & Hadj2).
  split; [congruence|]. eexists. split; [exact Ht'|]. split; [|done].
  simpl in *. rewrite (updateById_unique _ i r newValue Hnd Hi) in *.
  split; [|split]; simpl.
  - rewrite list_fmap_insert. simpl. rewrite list_insert_id; [done|].
    by rewrite list_lookup_fmap, Hi.
  - apply Forall_insert; [done|]. simpl.
    rewrite Forall_forall in Hids. by apply (Hids r).
  - assert (counted
              (fun c n v =>
                 liveRatings c n v (ratings d)
                 + (if decide (c = r_classId r /\ n = r_metricName r
                               /\ v = r_value r) then -1 else 0)) l1) as Hcnt1.
    { eapply counted_adjust; [exact Hcnt| |exact Hadj1| |].
      - by intros x.
      - intros _. by eapply liveRatings_pos.
      - intros c' n' v'. reflexivity. }
    eapply counted_adjust; [exact Hcnt1| |exact Hadj2|done|].
    + by intros x.
    + intros c' n' v'. simpl.
      rewrite (liveRatings_insert _ _ _ _ _ r _ Hi). unfold ratedAt. simpl.
      f_equal; [f_equal|].
      * destruct (decide (r_classId r = c' /\ r_metricName r = n' /\ r_value r = v'))
          as [(<- & <- & <-)|Hat].
        -- by rewrite decide_True.
        -- rewrite decide_False; [done|]. intros (-> & -> & ->). by apply Hat.
      * destruct (decide (r_classId r = c' /\ r_metricName r = n' /\ newValue = v'))
          as [(<- & <- & <-)|Hat].
        -- by rewrite decide_True.
        -- rewrite decide_False; [done|]. intros (-> & -> & ->). by apply Hat.
Qed.

(** ** The operations keep the database consistent *)

Lemma withTransaction_Ok_inv {A} (s : ClientSession) (body : M A) w a w' :
  withTransaction s body w = (Ok a, w') ->
  exists w1,
    body (set_txn (Some (db w)) w) = (Ok a, w1)
    /\ db w' = sessionView (Some s) w1.
Proof.
  unfold withTransaction.
  destruct (body (set_txn (Some (db w)) w)) as [[a1|e] w1]; [|discriminate].
  intros [= <- <-]. by exists w1.
Qed.

Lemma tryFinally_endSession_Ok_inv {A} (s : ClientSession) (m : M A) w a w' :
  tryFinally m (endSession s) w = (Ok a, w') ->
  exists w1, m w = (Ok a, w1) /\ db w' = db w1.
Proof.
  unfold tryFinally. destruct (m w) as [r w1]. simpl.
  intros [= -> <-]. by exists w1.
Qed.

(** What a committed transaction leaves, when its body keeps the view
    consistent. *)
Lemma transaction_consistent {A} (s : ClientSession) (body : M A) w a w' :
  (forall w1 w2,
      txn w1 = Some (db w) -> db w1 = db w -> body w1 = (Ok a, w2) ->
      exists d', txn w2 = Some d' /\ consistent d') ->
  tryFinally (withTransaction s body) (endSession s) w = (Ok a, w') ->
  consistent (db w').
Proof.
  intros Hbody Hrun.
  apply tryFinally_endSession_Ok_inv in Hrun as (w1 & Hrun & ->).
  apply withTransaction_Ok_inv in Hrun as (w2 & Hrun & ->).
  apply Hbody in Hrun as (d' & Ht & Hd'); [|done..].
  unfold sessionView. by rewrite Ht.
Qed.

Lemma invalidation_frame (courseId : string) (w : World) :
  exists w',
    invalidateRatingsCaches courseId w = (Ok tt, w')
    /\ db w' = db w /\ txn w' = txn w.
Proof. by eexists. Qed.

Lemma deleteRatingOperations_consistent context year semester subject
    courseNumber classNumber metricName (s : ClientSession) w w' d r :
  txn w = Some d -> db w = d -> consistent d ->
  deleteRatingOperations context year semester subject courseNumber classNumber
    metricName s w = (Ok r, w') ->
  db w' = db w
  /\ exists d', txn w' = Some d' /\ consistent d' /\ classes d' = classes d.
Proof.
  intros Ht Hdb Hd Hrun. unfold deleteRatingOperations in Hrun.
  apply bind_inv_Ok in Hrun as (found & w1 & Hfind & Hrun).
  unfold RatingModel_findOne, storageRead in Hfind. simpl in Hfind.
  injection Hfind as <- <-. rewrite Hdb in Hrun.
  destruct (list_find _ (ratings d)) as [[i r0]|] eqn:Hfound; [|discriminate].
  simpl in Hrun.
  apply list_find_Some in Hfound as (Hi & Hin & _).
  destruct Hin as (_ & _ & _ & _ & _ & _ & <-).
  apply bind_inv_Ok in Hrun as ([] & w1 & Hpair & Hrun).
  injection Hrun as <- <-.
  eapply delete_pair_consistent in Hpair as (Hdb' & d' & Ht' & Hd' & Hcl & _);
    [|done|done|by eapply list_elem_of_lookup_2].
  split; [done|]. by exists d'.
Qed.

Lemma deleteRating_nested_consistent context year semester subject courseNumber
    classNumber metricName (s : ClientSession) w w' d b :
  txn w = Some d -> db w = d -> consistent d ->
  deleteRating context year semester subject courseNumber classNumber metricName
    (Some s) w = (Ok b, w') ->
  db w' = db w
  /\ exists d', txn w' = Some d' /\ consistent d' /\ classes d' = classes d.
Proof.
  intros Ht Hdb Hd Hrun. unfold deleteRating in Hrun.
  destruct (truthy (user_id context)); simpl in Hrun; [|discriminate].
  apply bind_inv_Ok in Hrun as (c & w1 & Hops & Hrun).
  apply bind_inv_Ok in Hops as (r & w2 & Hops & Hret). injection Hret as <- <-.
  eapply deleteRatingOperations_consistent in Hops as (Hdb2 & d' & Ht2 & Hd' & Hcl);
    [|done..].
  apply bind_inv_Ok in Hrun as ([] & w3 & Hinv & Hrun). injection Hrun as <- <-.
  assert (db w3 = db w2 /\ txn w3 = txn w2) as [Hdb3 Ht3].
  { destruct (truthy (r_courseId r)); [|by injection Hinv as <-].
    destruct (invalidation_frame (r_courseId r) w2) as (w4 & Hrun4 & Hdb4 & Ht4).
    rewrite Hrun4 in Hinv. by injection Hinv as <-. }
  split; [congruence|]. exists d'. split; [congruence|done].
Qed.

Lemma createRating_transaction_consistent context classId courseId year
    semester subject courseNumber classNumber metricName value
    (s : ClientSession) w w' d :
  txn w = Some d -> db w = d -> consistent d ->
  createRating_transaction context classId courseId year semester subject
    courseNumber classNumber metricName value s w = (Ok tt, w') ->
  exists d', txn w' = Some d' /\ consistent d'.
Proof.
  intros Ht Hdb Hd Hrun. unfold createRating_transaction in Hrun.
  apply bind_inv_Ok in Hrun as (found & w1 & Hfind & Hrun).
  unfold checkRatingExists, RatingModel_findOne, storageRead in Hfind.
  simpl in Hfind. injection Hfind as <- <-. rewrite Hdb in Hrun.
  destruct (list_find _ (ratings d)) as [[i r]|] eqn:Hfound; simpl in Hrun.
  - apply list_find_Some in Hfound as (Hi & _ & _).
    destruct (negb (r_semester r =? semester)%string || negb (r_year r =? year)
              || negb (r_classNumber r =? classNumber)%string).
    + apply bind_inv_Ok in Hrun as (b & w1 & Hdel & Hrun).
      eapply deleteRating_nested_consistent in Hdel
        as (Hdb1 & d1 & Ht1 & Hd1 & _); [|done..].
      eapply createNewRating_consistent in Hrun as (_ & d' & Ht' & Hd' & _);
        [|done..].
      by exists d'.
    + eapply handleExistingRating_consistent in Hrun as (_ & d' & Ht' & Hd' & _);
        [|done|done|by eapply list_elem_of_lookup_2].
      by exists d'.
  - eapply createNewRating_consistent in Hrun as (_ & d' & Ht' & Hd' & _);
      [|done..].
    by exists d'.
Qed.

Lemma forEach_deleteExisting_consistent (rest : list RatingType)
    (s : ClientSession) w w' d :
  txn w = Some d -> consistent d ->
  (forall x, x ∈ rest -> x ∈ ratings d) -> NoDup (r_id <$> rest) ->
  forEach rest (fun r => deleteExisting r s) w = (Ok tt, w') ->
  exists d', txn w' = Some d' /\ consistent d'.
Proof.
  revert w d. induction rest as [|r rest IH]; intros w d Ht Hd Hin Hnd Hrun;
    simpl in Hrun.
  - injection Hrun as <-. by exists d.
  - apply bind_inv_Ok in Hrun as ([] & w1 & Hdel & Hrun).
    eapply deleteExisting_consistent in Hdel as (_ & d1 & Ht1 & Hd1 & _ & Hkeep);
      [|done|done|apply Hin; left].
    rewrite fmap_cons in Hnd. apply NoDup_cons in Hnd as [Hr Hnd].
    eapply IH; [exact Ht1|exact Hd1| |exact Hnd|exact Hrun].
    intros x Hx. apply Hkeep; [apply Hin; by right|].
    intros Hid. apply Hr. rewrite <- Hid. apply list_elem_of_fmap. by exists x.
Qed.

Lemma forEach_createNewRating_consistent context classId courseId year semester
    subject courseNumber classNumber (metrics : list MetricInput)
    (s : ClientSession) w w' d :
  txn w = Some d -> consistent d ->
  forEach metrics (fun metric =>
    Promise_all2
      (RatingModel_create (user_id context)
         (mkRatingData classId courseId year semester subject courseNumber
            classNumber (mi_metricName metric) (mi_value metric)) (Some s))
      (handleCategoryCountChange classId courseId year semester subject
         courseNumber classNumber (mi_metricName metric) (mi_value metric) true
         (Some s))) w = (Ok tt, w') ->
  exists d', txn w' = Some d' /\ consistent d'.
Proof.
  revert w d. induction metrics as [|metric metrics IH]; intros w d Ht Hd Hrun;
    simpl in Hrun.
  - injection Hrun as <-. by exists d.
  - apply bind_inv_Ok in Hrun as ([] & w1 & Hnew & Hrun).
    apply (createNewRating_consistent context
             (mkRatingData classId courseId year semester subject courseNumber
                classNumber (mi_metricName metric) (mi_value metric)) s w w1 d Ht Hd)
      in Hnew as (_ & d1 & Ht1 & Hd1 & _).
    by eapply IH.
Qed.

(** A successful step that writes nothing. *)
Lemma preserves_Ok {A} (m : M A) w a w' :
  preserves db m -> m w = (Ok a, w') -> db w' = db w.
Proof. intros Hm Hrun. specialize (Hm w). by rewrite Hrun in Hm. Qed.

Lemma createRating_consistent context year semester subject courseNumber
    classNumber metricName value w :
  consistent (db w) ->
  consistent (db (createRating context year semester subject courseNumber
                    classNumber metricName value w).2).
Proof.
  intros Hd.
  destruct (createRating context year semester subject courseNumber classNumber
              metricName value w) as [[b|e] w'] eqn:Hrun; simpl;
    [|by rewrite (createRating_failSafe _ _ _ _ _ _ _ _ _ _ _ Hrun)].
  unfold createRating in Hrun.
  destruct (truthy (user_id context)); simpl in Hrun; [|discriminate].
  apply bind_inv_Ok in Hrun as (u1 & w1 & Hstep & Hrun).
  apply preserves_Ok in Hstep; [|auto with frame].
  apply bind_inv_Ok in Hrun as (classDoc & w2 & Hclass & Hrun).
  apply preserves_Ok in Hclass; [|auto with frame].
  apply bind_inv_Ok in Hrun as (ur & w3 & Hur & Hrun).
  apply preserves_Ok in Hur; [|auto with frame].
  apply bind_inv_Ok in Hrun as (u4 & w4 & Hmax & Hrun).
  apply preserves_Ok in Hmax; [|auto with frame].
  apply bind_inv_Ok in Hrun as (s & w5 & Hs & Hrun).
  apply preserves_Ok in Hs; [|auto with frame].
  apply bind_inv_Ok in Hrun as ([] & w6 & Htx & Hrun).
  injection Hrun as _ <-. simpl.
  assert (db w5 = db w) as Hdb5 by congruence.
  eapply transaction_consistent; [|exact Htx].
  intros wa wb Hta Hdba Hbody.
  eapply createRating_transaction_consistent; [exact Hta|exact Hdba| |exact Hbody].
  by rewrite Hdb5.
Qed.

Lemma createRatings_consistent context year semester subject courseNumber
    classNumber metrics w :
  consistent (db w) ->
  consistent (db (createRatings context year semester subject courseNumber
                    classNumber metrics w).2).
Proof.
  intros Hd.
  destruct (createRatings context year semester subject courseNumber classNumber
              metrics w) as [[b|e] w'] eqn:Hrun; simpl;
    [|by rewrite (createRatings_failSafe _ _ _ _ _ _ _ _ _ _ Hrun)].
  unfold createRatings in Hrun.
  destruct (truthy (user_id context)); simpl in Hrun; [|discriminate].
  apply bind_inv_Ok in Hrun as (u0 & w0 & Hreq & Hrun).
  apply preserves_Ok in Hreq; [|frame].
  apply bind_inv_Ok in Hrun as (u1 & w1 & Hstep & Hrun).
  apply preserves_Ok in Hstep; [|frame].
  apply bind_inv_Ok in Hrun as (classDoc & w2 & Hclass & Hrun).
  apply preserves_Ok in Hclass; [|auto with frame].
  apply bind_inv_Ok in Hrun as (ur & w3 & Hur & Hrun).
  apply preserves_Ok in Hur; [|auto with frame].
  apply bind_inv_Ok in Hrun as (u4 & w4 & Hmax & Hrun).
  apply preserves_Ok in Hmax; [|auto with frame].
  apply bind_inv_Ok in Hrun as (existingRatings & w5 & Hfind & Hrun).
  unfold RatingModel_find, storageRead in Hfind. simpl in Hfind.
  injection Hfind as <- <-.
  apply bind_inv_Ok in Hrun as (s & w6 & Hs & Hrun).
  apply preserves_Ok in Hs; [|auto with frame].
  apply bind_inv_Ok in Hrun as ([] & w7 & Htx & Hrun).
  injection Hrun as _ <-. simpl.
  assert (db w6 = db w) as Hdb6 by congruence.
  assert (db w4 = db w) as Hdb4 by congruence.
  eapply transaction_consistent; [|exact Htx].
  intros wa wb Hta Hdba Hbody.
  apply bind_inv_Ok in Hbody as ([] & wc & Hdel & Hnew).
  eapply forEach_deleteExisting_consistent in Hdel as (d1 & Ht1 & Hd1);
    [| exact Hta | by rewrite Hdb6 | | ].
  - by eapply forEach_createNewRating_consistent in Hnew.
  - intros x Hx. rewrite Hdb4 in Hx. rewrite Hdb6.
    by apply list_elem_of_filter in Hx as [_ Hx].
  - rewrite Hdb4. destruct Hd as (Hnd & _).
    eapply sublist_NoDup; [exact Hnd|]. apply fmap_sublist, sublist_filter.
Qed.

Lemma deleteRating_consistent context year semester subject courseNumber
    classNumber metricName w :
  consistent (db w) ->
  consistent (db (deleteRating context year semester subject courseNumber
                    classNumber metricName None w).2).
Proof.
  intros Hd.
  destruct (deleteRating context year semester subject courseNumber classNumber
              metricName None w) as [[b|e] w'] eqn:Hrun; simpl;
    [|by rewrite (deleteRating_failSafe _ _ _ _ _ _ _ _ _ _ Hrun)].
  unfold deleteRating in Hrun.
  destruct (truthy (user_id context)); simpl in Hrun; [|discriminate].
  apply bind_inv_Ok in Hrun as (c & w1 & Htx & Hrun).
  apply bind_inv_Ok in Htx as (s & w0 & Hs & Htx).
  apply preserves_Ok in Hs; [|auto with frame].
  apply bind_inv_Ok in Hrun as ([] & w2 & Hinv & Hrun). injection Hrun as _ <-.
  assert (db w2 = db w1) as ->.
  { destruct (truthy c); [|by injection Hinv as <-].
    destruct (invalidation_frame c w1) as (w4 & Hrun4 & Hdb4 & _).
    rewrite Hrun4 in Hinv. by injection Hinv as <-. }
  eapply transaction_consistent; [|exact Htx].
  intros wa wb Hta Hdba Hbody.
  apply bind_inv_Ok in Hbody as (r & wc & Hops & Hret). injection Hret as _ <-.
  eapply deleteRatingOperations_consistent in Hops as (_ & d' & Ht' & Hd' & _);
    [by exists d'|exact Hta|exact Hdba|by rewrite Hs].
Qed.

Lemma deleteRatings_consistent context subject courseNumber w :
  consistent (db w) ->
  consistent (db (deleteRatings context subject courseNumber w).2).
Proof.
  intros Hd.
  destruct (deleteRatings context subject courseNumber w) as [[b|e] w'] eqn:Hrun;
    simpl; [|by rewrite (deleteRatings_failSafe _ _ _ _ _ _ Hrun)].
  unfold deleteRatings in Hrun.
  destruct (truthy (user_id context)); simpl in Hrun; [|discriminate].
  apply bind_inv_Ok in Hrun as (existingRatings & w1 & Hfind & Hrun).
  unfold RatingModel_find, storageRead in Hfind. simpl in Hfind.
  injection Hfind as <- <-.
  destruct (length _ =? 0)%nat; [by injection Hrun as _ <-|].
  apply bind_inv_Ok in Hrun as (s & w2 & Hs & Hrun).
  apply preserves_Ok in Hs; [|auto with frame].
  apply bind_inv_Ok in Hrun as ([] & w3 & Htx & Hrun).
  apply bind_inv_Ok in Hrun as ([] & w4 & Hinv & Hrun). injection Hrun as _ <-.
  assert (db w4 = db w3) as ->.
  { apply preserves_Ok in Hinv; [done|]. apply preserves_forEach.
    intros c. auto with frame. }
  eapply transaction_consistent; [|exact Htx].
  intros wa wb Hta Hdba Hbody.
  eapply forEach_deleteExisting_consistent in Hbody as (d1 & Ht1 & Hd1);
    [by exists d1| exact Hta | by rewrite Hs | | ].
  - intros x Hx. rewrite Hs. by apply list_elem_of_filter in Hx as [_ Hx].
  - destruct Hd as (Hnd & _).
    eapply sublist_NoDup; [exact Hnd|]. apply fmap_sublist, sublist_filter.
Qed.

(** Every database reached in turn is consistent. *)
Lemma reachedInTurn_consistent (w : World) : reachedInTurn w -> consistent (db w).
Proof.
  induction 1 as [w Hr Hm|w w' _ IH Hdb| | | |].
  - unfold consistent, counted. rewrite Hr, Hm. simpl.
    split; [apply NoDup_nil_2|]. split; [done|]. split; [done|]. split; [done|done].
  - by rewrite Hdb.
  - by apply createRating_consistent.
  - by apply createRatings_consistent.
  - by apply deleteRating_consistent.
  - by apply deleteRatings_consistent.
Qed.


(** The two parts of [deleteRatings], run without anything in between, are
    the call. *)
Lemma deleteRatings_in_two_steps context subject courseNumber (w : World) :
  deleteRatings context subject courseNumber w
  = (existingRatings <~ deleteRatings_find context subject courseNumber ;;
     deleteRatings_afterFind existingRatings) w.
Proof.
  unfold deleteRatings, deleteRatings_find, deleteRatings_afterFind.
  by destruct (negb (truthy (user_id context))).
Qed.

(** ** Mutations end with the invalidation *)

Lemma purged_after_invalidation (courseId : string) (w : World) :
  purged courseId (invalidateRatingsCaches courseId w).2.
Proof.
  unfold purged. simpl. split; [|split; apply lookup_delete_eq].
  intros k Hk. by rewrite purge_all_lookup, Hk.
Qed.

Lemma getClassDocument_Ok_inv year semester subject courseNumber classNumber
    w classDoc w' :
  getClassDocument year semester subject courseNumber classNumber w
  = (Ok classDoc, w') ->
  exists j,
    list_find (classOf year semester subject courseNumber classNumber)
      (classes (db w)) = Some (j, classDoc).
Proof.
  unfold getClassDocument, storageRead, bind. simpl.
  destruct (list_find _ (classes (db w))) as [[j c]|]; [|discriminate].
  simpl. intros [= <- _]. by exists j.
Qed.

Lemma invalidate_then_true_Ok_inv (courseId : string) (w : World) b w' :
  (invalidateRatingsCaches courseId ;;; ret true) w = (Ok b, w') ->
  w' = (invalidateRatingsCaches courseId w).2.
Proof. unfold bind. simpl. by intros [= _ <-]. Qed.

Lemma elem_of_Set_of (xs : list string) (x : string) : x ∈ Set_of xs <-> x ∈ xs.
Proof.
  induction xs as [|y xs IH]; simpl; [done|].
  rewrite !elem_of_cons, list_elem_of_filter, IH.
  split.
  - intros [?|[_ ?]]; [by left|by right].
  - intros [?|?]; [by left|].
    destruct (decide (x = y)); [by left|right; by split].
Qed.

(** ** What a successful mutation does to the caches *)

(** What a step makes of an observation that it preserves. *)
Lemma preserves_run {X A} (f : World -> X) (m : M A) w r w' :
  preserves f m -> m w = (r, w') -> f w' = f w.
Proof. intros Hm Hrun. specialize (Hm w). by rewrite Hrun in Hm. Qed.

Lemma existsb_eqb_elem (k : string) (cs : list string) :
  existsb (String.eqb k) cs = true <-> k ∈ cs.
Proof.
  induction cs as [|c cs IH]; simpl.
  - split; [discriminate|]. intros Hk. by apply elem_of_nil in Hk.
  - rewrite orb_true_iff, IH, elem_of_cons, String.eqb_eq. done.
Qed.

Lemma cachesWithout_nil (w w' : World) :
  caches w' = caches w -> cachesWithout [] w w'.
Proof.
  unfold caches. intros [= Hcourse Hsem Hins]. unfold cachesWithout. simpl.
  rewrite Hcourse, Hsem, Hins. by repeat split.
Qed.

Lemma cachesWithout_caches (cs : list string) (w w1 w2 : World) :
  cachesWithout cs w w1 -> caches w2 = caches w1 -> cachesWithout cs w w2.
Proof.
  unfold caches. intros Hw [= Hcourse Hsem Hins]. unfold cachesWithout.
  by rewrite Hcourse, Hsem, Hins.
Qed.

Lemma cachesWithout_from (cs : list string) (w0 w w' : World) :
  caches w = caches w0 -> cachesWithout cs w w' -> cachesWithout cs w0 w'.
Proof.
  unfold caches. intros [= Hcourse Hsem Hins]. unfold cachesWithout.
  by rewrite Hcourse, Hsem, Hins.
Qed.

Lemma cachesWithout_invalidate (cs : list string) (w w1 : World) (courseId : string) :
  cachesWithout cs w w1 ->
  cachesWithout (cs ++ [courseId]) w (invalidateRatingsCaches courseId w1).2.
Proof.
  intros (Hcourse & Hsem & Hins). unfold cachesWithout. simpl.
  split; [|split].
  - intros k. rewrite purge_all_lookup, existsb_app, Hcourse. simpl.
    rewrite orb_false_r.
    by destruct (String.prefix (courseId +:+ ":") k),
         (existsb (fun c => String.prefix (c +:+ ":") k) cs).
  - intros k. rewrite lookup_delete, existsb_app, Hsem. simpl.
    rewrite orb_false_r.
    destruct (String.eqb_spec k courseId) as [->|Hne].
    + rewrite decide_True by done. by rewrite orb_true_r.
    + rewrite decide_False by congruence. by rewrite orb_false_r.
  - intros k. rewrite lookup_delete, existsb_app, Hins. simpl.
    rewrite orb_false_r.
    destruct (String.eqb_spec k courseId) as [->|Hne].
    + rewrite decide_True by done. by rewrite orb_true_r.
    + rewrite decide_False by congruence. by rewrite orb_false_r.
Qed.

Lemma cachesWithout_forEach (courseIds cs : list string) (w w1 w' : World) :
  cachesWithout cs w w1 ->
  forEach courseIds invalidateRatingsCaches w1 = (Ok tt, w') ->
  cachesWithout (cs ++ courseIds) w w'.
Proof.
  revert cs w1. induction courseIds as [|c rest IH]; intros cs w1 Hw Hrun.
  - injection Hrun as <-. by rewrite app_nil_r.
  - simpl in Hrun. unfold bind at 1 in Hrun.
    change (invalidateRatingsCaches c w1)
      with (Ok tt, (invalidateRatingsCaches c w1).2) in Hrun.
    simpl in Hrun. rewrite (cons_middle c cs rest), app_assoc.
    eapply IH; [|exact Hrun]. by apply cachesWithout_invalidate.
Qed.

Lemma cachesWithout_purged (cs : list string) (w w' : World) (c : string) :
  c ∈ cs -> cachesWithout cs w w' -> purged c w'.
Proof.
  intros Hc (Hcourse & Hsem & Hins).
  assert (existsb (String.eqb c) cs = true) as Hmem by (by apply existsb_eqb_elem).
  unfold purged. rewrite Hsem, Hins, Hmem. split; [|done].
  intros k Hk. rewrite Hcourse.
  assert (existsb (fun c0 => String.prefix (c0 +:+ ":") k) cs = true) as ->; [|done].
  apply existsb_exists. exists c. split; [|exact Hk].
  by apply list_elem_of_In.
Qed.

Lemma cachesWithout_others (cs : list string) (w w' : World) (other : string) :
  cachesWithout cs w w' -> other ∉ cs ->
  semestersWithRatingsCache w' !! other = semestersWithRatingsCache w !! other
  /\ instructorAggregatedRatingsCache w' !! other
     = instructorAggregatedRatingsCache w !! other
  /\ (colonFree other = true -> Forall (fun c => colonFree c = true) cs ->
      forall sfx,
        courseAggregatedRatingsCache w' !! (other +:+ ":" +:+ sfx)
        = courseAggregatedRatingsCache w !! (other +:+ ":" +:+ sfx)).
Proof.
  intros (Hcourse & Hsem & Hins) Hother.
  assert (existsb (String.eqb other) cs = false) as Hmem.
  { destruct (existsb (String.eqb other) cs) eqn:Hm; [|done].
    by apply existsb_eqb_elem in Hm. }
  rewrite Hsem, Hins, Hmem. split; [done|]. split; [done|].
  intros Ho Hcs sfx. rewrite Hcourse.
  assert (existsb (fun c => String.prefix (c +:+ ":") (other +:+ ":" +:+ sfx)) cs
          = false) as ->; [|done].
  clear Hcourse Hsem Hins Hmem.
  induction Hcs as [|c cs Hc _ IH]; [done|]. simpl.
  apply not_elem_of_cons in Hother as [Hne Hother].
  rewrite IH by done. rewrite orb_false_r.
  destruct (String.prefix (c +:+ ":") (other +:+ ":" +:+ sfx)) eqn:Hp; [|done].
  exfalso. apply Hne. symmetry. by eapply prefix_colonFree.
Qed.

Lemma withTransaction_Ok_caches {A} (s : ClientSession) (body : M A) w a w' :
  withTransaction s body w = (Ok a, w') ->
  exists w1,
    body (set_txn (Some (db w)) w) = (Ok a, w1) /\ caches w' = caches w1.
Proof.
  unfold withTransaction.
  destruct (body (set_txn (Some (db w)) w)) as [[a1|e] w1]; [|discriminate].
  intros [= <- <-]. by exists w1.
Qed.

Lemma tryFinally_endSession_Ok_caches {A} (s : ClientSession) (m : M A) w a w' :
  tryFinally m (endSession s) w = (Ok a, w') ->
  exists w1, m w = (Ok a, w1) /\ caches w' = caches w1.
Proof.
  unfold tryFinally. destruct (m w) as [r w1]. simpl.
  intros [= -> <-]. by exists w1.
Qed.

(** The caches after a committed transaction whose body leaves them
    alone. *)
Lemma committed_transaction_caches {A} (s : ClientSession) (body : M A) w a w' :
  preserves caches body ->
  tryFinally (withTransaction s body) (endSession s) w = (Ok a, w') ->
  caches w' = caches w.
Proof.
  intros Hbody Hrun. eapply preserves_run; [|exact Hrun]. frame.
Qed.

(** What the nested removal of a replacement does to the caches: the
    course of the rating it deletes is invalidated at once. *)
Lemma deleteRating_nested_caches context year semester subject courseNumber
    classNumber metricName (s : ClientSession) w b w' :
  deleteRating context year semester subject courseNumber classNumber metricName
    (Some s) w = (Ok b, w') ->
  exists i r,
    list_find (ratedIn (user_id context) subject courseNumber semester year
                 classNumber metricName) (ratings (db w)) = Some (i, r)
    /\ cachesWithout (if truthy (r_courseId r) then [r_courseId r] else []) w w'.
Proof.
  intros Hrun. unfold deleteRating in Hrun.
  destruct (truthy (user_id context)); simpl in Hrun; [|discriminate].
  apply bind_inv_Ok in Hrun as (c & w1 & Hops & Hrun).
  apply bind_inv_Ok in Hops as (r & w2 & Hops & Hret). injection Hret as <- <-.
  pose proof (preserves_run caches _ _ _ _
                (caches_deleteRatingOperations _ _ _ _ _ _ _ _) Hops) as Hcaches.
  unfold deleteRatingOperations in Hops.
  apply bind_inv_Ok in Hops as (found & w3 & Hfind & Hops).
  unfold RatingModel_findOne, storageRead in Hfind. simpl in Hfind.
  injection Hfind as <- <-.
  destruct (list_find _ (ratings (db w))) as [[i r0]|] eqn:Hfound; [|discriminate].
  simpl in Hops. apply bind_inv_Ok in Hops as (u & w4 & _ & Hret).
  injection Hret as <- _.
  exists i, r0. split; [done|].
  apply bind_inv_Ok in Hrun as ([] & w5 & Hinv & Hret). injection Hret as _ <-.
  destruct (truthy (r_courseId r0)).
  - change (invalidateRatingsCaches (r_courseId r0) w2)
      with (Ok tt, (invalidateRatingsCaches (r_courseId r0) w2).2) in Hinv.
    injection Hinv as <-.
    apply (cachesWithout_invalidate [] w w2 (r_courseId r0)).
    by apply cachesWithout_nil.
  - injection Hinv as <-. by apply cachesWithout_nil.
Qed.

(** What the transaction of [createRating] does to the caches: nothing,
    unless it replaces a rating of another term. *)
Lemma createRating_transaction_caches context classId courseId year semester
    subject courseNumber classNumber metricName value (s : ClientSession) w w' :
  createRating_transaction context classId courseId year semester subject
    courseNumber classNumber metricName value s w = (Ok tt, w') ->
  exists replaced,
    cachesWithout replaced w w'
    /\ (replaced = []
        \/ exists i r,
             ratings (db w) !! i = Some r
             /\ ratedBy (user_id context) subject courseNumber metricName r
             /\ replaced = [r_courseId r]).
Proof.
  intros Hrun. unfold createRating_transaction in Hrun.
  apply bind_inv_Ok in Hrun as (existing & w1 & Hfind & Hrun).
  unfold checkRatingExists, RatingModel_findOne, storageRead in Hfind.
  simpl in Hfind. injection Hfind as <- <-.
  destruct (list_find _ (ratings (db w))) as [[i0 ex]|] eqn:Hex; simpl in Hrun.
  - apply list_find_Some in Hex as (_ & (Hu & Hsub & Hnum & Hm) & _).
    destruct (negb (String.eqb (r_semester ex) semester)
              || negb (r_year ex =? year)
              || negb (String.eqb (r_classNumber ex) classNumber)).
    + apply bind_inv_Ok in Hrun as (b & w2 & Hdel & Hnew).
      apply deleteRating_nested_caches in Hdel as (i & r & Hr & Hdel).
      apply list_find_Some in Hr
        as (Hi & (Hu' & Hsub' & Hnum' & _ & _ & _ & Hm') & _).
      pose proof (preserves_run caches _ _ _ _
                    (caches_createNewRating _ _ _) Hnew) as Hcaches.
      destruct (truthy (r_courseId r)).
      * exists [r_courseId r]. split; [by eapply cachesWithout_caches|].
        right. exists i, r. split; [done|]. split; [|done].
        unfold ratedBy. repeat split; congruence.
      * exists []. split; [by eapply cachesWithout_caches|by left].
    + exists []. split; [|by left]. apply cachesWithout_nil.
      eapply preserves_run; [|exact Hrun]. apply caches_handleExistingRating.
  - exists []. split; [|by left]. apply cachesWithout_nil.
    eapply preserves_run; [|exact Hrun]. apply caches_createNewRating.
Qed.


(** ** The branches of a submission *)

Lemma createRating_commits context year semester subject courseNumber
    classNumber metricName value w j classDoc w3 d :
  truthy (user_id context) = true ->
  checkValueConstraint metricName value = Ok tt ->
  list_find (classOf year semester subject courseNumber classNumber)
    (classes (db w)) = Some (j, classDoc) ->
  checkUserMaxRatingsConstraint (userRatingsOf context (db w)) year semester
    subject courseNumber = Ok tt ->
  createRating_transaction context (cl_id classDoc) (cl_courseId classDoc) year
    semester subject courseNumber classNumber metricName value (sessionsStarted w)
    (set_txn (Some (db w)) (set_sessionsStarted (S (sessionsStarted w)) w))
  = (Ok tt, w3) ->
  txn w3 = Some d ->
  exists w',
    createRating context year semester subject courseNumber classNumber
      metricName value w = (Ok true, w')
    /\ db w' = d /\ purged (cl_courseId classDoc) w'
    /\ faultIn w' = faultIn w3.
Proof.
  intros Hauth Hvalue Hclass Hmax Hbody Htxn.
  eexists. split; [|split; [|split]].
  - unfold createRating. rewrite Hauth. simpl.
    unfold liftResult at 1. unfold bind at 1. rewrite Hvalue.
    erewrite bind_Ok; [|by eapply getClassDocument_run].
    erewrite bind_Ok; [|by apply getUserRatings_run].
    unfold liftResult at 1. unfold bind at 1. rewrite Hmax.
    erewrite bind_Ok; [|reflexivity].
    erewrite bind_Ok; [reflexivity|].
    unfold tryFinally.
    erewrite withTransaction_commit; [|exact Hbody|exact Htxn]. reflexivity.
  - reflexivity.
  - apply purged_after_invalidation.
  - reflexivity.
Qed.

Lemma inTx_increment rd (s : ClientSession) c d n w domain :
  inTx c d n w ->
  (rd_metricName rd ∈ numberScaleMetrics /\ domain = [1; 2; 3; 4; 5])
  \/ (rd_metricName rd ∈ booleanScaleMetrics /\ domain = [0; 1]) ->
  exists w',
    handleCategoryCountChange (rd_classId rd) (rd_courseId rd) (rd_year rd)
      (rd_semester rd) (rd_subject rd) (rd_courseNumber rd) (rd_classNumber rd)
      (rd_metricName rd) (rd_value rd) true (Some s) w = (Ok tt, w')
    /\ inTx c (set_aggregatedMetrics (incremented rd domain (aggregatedMetrics d)) d)
         n w'.
Proof.
  intros Hw Hscale. unfold incremented.
  destruct (list_find _ (aggregatedMetrics d)) as [[k m]|] eqn:Hfind.
  - by eapply inTx_adjust_existing.
  - by eapply inTx_adjust_seeds.
Qed.

Lemma filter_none {A} (P : A -> Prop) `{!forall x, Decision (P x)} (l : list A) :
  list_find P l = None -> filter P l = [].
Proof.
  intros Hnone%list_find_None. induction Hnone as [|x l Hx _ IH]; [done|].
  by rewrite filter_cons, decide_False.
Qed.

Lemma countAt_incremented_kept rd domain l classId metricName categoryValue cnt :
  countAt classId metricName categoryValue l = Some cnt ->
  ~ (classId = rd_classId rd /\ metricName = rd_metricName rd
     /\ categoryValue = rd_value rd) ->
  countAt classId metricName categoryValue (incremented rd domain l) = Some cnt.
Proof.
  intros Hcnt Hne. unfold incremented.
  destruct (list_find (counterKey (rd_classId rd) _ _) l) as [[k m]|] eqn:Hfind.
  - unfold countAt in *. rewrite list_find_saved_other; [done| |].
    + by apply list_find_Some in Hfind as (? & _).
    + apply list_find_Some in Hfind as (_ & (Hc & Hn & Hv) & _).
      intros (Hc' & Hn' & Hv'). apply Hne. repeat split; congruence.
  - by apply countAt_app_l.
Qed.

(** X1. A user who holds no rating for the course and metric submits a
    value of the metric's domain for an existing class, on a healthy
    storage.  [createRating] returns [true]: the rating is appended under
    the next [_id], the count of its key is one more (1 when the row was
    not there), every other row that existed keeps its count, the new rating
    is the user's only one for the course and metric, and the caches hold
    nothing for the course. *)
Theorem first_vote_is_recorded (context : RequestContext) (year : Z)
    (semester : Semester) (subject courseNumber classNumber : string)
    (metricName : MetricName) (value : Z) (w : World) (j : nat)
    (classDoc : ClassDoc) (domain : list Z) :
  truthy (user_id context) = true ->
  checkValueConstraint metricName value = Ok tt ->
  list_find (classOf year semester subject courseNumber classNumber)
    (classes (db w)) = Some (j, classDoc) ->
  checkUserMaxRatingsConstraint (userRatingsOf context (db w)) year semester
    subject courseNumber = Ok tt ->
  list_find (ratedBy (user_id context) subject courseNumber metricName)
    (ratings (db w)) = None ->
  (metricName ∈ numberScaleMetrics /\ domain = [1; 2; 3; 4; 5])
  \/ (metricName ∈ booleanScaleMetrics /\ domain = [0; 1]) ->
  value ∈ domain ->
  faultIn w = None ->
  let fresh :=
    newRating (nextId (db w)) (user_id context)
      (mkRatingData (cl_id classDoc) (cl_courseId classDoc) year semester subject
         courseNumber classNumber metricName value) in
  exists w',
    createRating context year semester subject courseNumber classNumber
      metricName value w = (Ok true, w')
    /\ ratings (db w') = (ratings (db w) ++ [fresh])%list
    /\ nextId (db w') = nextId (db w) + 1
    /\ countAt (cl_id classDoc) metricName value (aggregatedMetrics (db w'))
       = Some (default 0 (countAt (cl_id classDoc) metricName value
                            (aggregatedMetrics (db w))) + 1)
    /\ (forall c n v cnt,
          countAt c n v (aggregatedMetrics (db w)) = Some cnt ->
          ~ (c = cl_id classDoc /\ n = metricName /\ v = value) ->
          countAt c n v (aggregatedMetrics (db w')) = Some cnt)
    /\ filter (ratedBy (user_id context) subject courseNumber metricName)
         (ratings (db w')) = [fresh]
    /\ purged (cl_courseId classDoc) w'.
Proof.
  intros Hauth Hvalue Hclass Hmax Hnone Hscale Hin Hf fresh.
  set (rd := mkRatingData (cl_id classDoc) (cl_courseId classDoc) year semester
               subject courseNumber classNumber metricName value).
  set (n := S (sessionsStarted w)).
  set (w1 := set_txn (Some (db w)) (set_sessionsStarted n w)).
  assert (inTx (db w) (db w) n w1) as Hw1 by done.
  destruct (createNewRating_run context rd (sessionsStarted w) _ _ n w1 domain
              Hw1 Hscale) as (w3 & Hnew & Hw3).
  assert (createRating_transaction context (cl_id classDoc) (cl_courseId classDoc)
            year semester subject courseNumber classNumber metricName value
            (sessionsStarted w) w1 = (Ok tt, w3)) as Hbody.
  { unfold createRating_transaction, checkRatingExists, RatingModel_findOne.
    erewrite bind_Ok; [|by eapply inTx_read_committed].
    rewrite Hnone. exact Hnew. }
  destruct Hw3 as (Hdb3 & Htxn3 & Hf3 & Hn3).
  destruct (createRating_commits _ _ _ _ _ _ _ _ _ _ _ _ _
              Hauth Hvalue Hclass Hmax Hbody Htxn3)
    as (w' & Hrun & Hdb & Hpurged & _).
  exists w'. rewrite Hdb. simpl.
  split; [exact Hrun|]. split; [done|]. split; [done|].
  split; [by rewrite (countAt_incremented rd domain)|].
  split; [intros c n' v cnt Hcnt Hne; by apply countAt_incremented_kept|].
  split; [|exact Hpurged].
  rewrite filter_app.
  replace (filter _ (ratings (db w))) with (@nil RatingType).
  - simpl. rewrite filter_cons, decide_True; [done|]. by repeat split.
  - symmetry. by apply filter_none.
Qed.

(** X2. A user who holds a rating for the course and metric in the same
    term (semester, year and class number agree) submits another value of
    the metric's domain; ids are unique, the old value's counter row exists
    and the storage is healthy.  [createRating] returns [true]: the rating
    keeps its [_id] and its place and carries the new value, no [_id] is
    consumed, the count of the old value's row is one less and the count
    of the new value's key, under the class of the stored rating, is one
    more (1 when the row was not there). *)
Theorem revote_in_term_updates_in_place (context : RequestContext) (year : Z)
    (semester : Semester) (subject courseNumber classNumber : string)
    (metricName : MetricName) (value : Z) (w : World) (j i k : nat)
    (classDoc : ClassDoc) (r : RatingType) (m : AggregatedMetric)
    (domain : list Z) :
  truthy (user_id context) = true ->
  checkValueConstraint metricName value = Ok tt ->
  list_find (classOf year semester subject courseNumber classNumber)
    (classes (db w)) = Some (j, classDoc) ->
  checkUserMaxRatingsConstraint (userRatingsOf context (db w)) year semester
    subject courseNumber = Ok tt ->
  list_find (ratedBy (user_id context) subject courseNumber metricName)
    (ratings (db w)) = Some (i, r) ->
  r_semester r = semester -> r_year r = year -> r_classNumber r = classNumber ->
  r_value r <> value ->
  NoDup (r_id <$> ratings (db w)) ->
  list_find (counterKey (r_classId r) metricName (r_value r))
    (aggregatedMetrics (db w)) = Some (k, m) ->
  (metricName ∈ numberScaleMetrics /\ domain = [1; 2; 3; 4; 5])
  \/ (metricName ∈ booleanScaleMetrics /\ domain = [0; 1]) ->
  value ∈ domain ->
  faultIn w = None ->
  exists w',
    createRating context year semester subject courseNumber classNumber
      metricName value w = (Ok true, w')
    /\ ratings (db w') = <[i := withValue value r]> (ratings (db w))
    /\ nextId (db w') = nextId (db w)
    /\ countAt (r_classId r) metricName (r_value r) (aggregatedMetrics (db w'))
       = Some (am_categoryCount m - 1)
    /\ countAt (r_classId r) metricName value (aggregatedMetrics (db w'))
       = Some (default 0 (countAt (r_classId r) metricName value
                            (aggregatedMetrics (db w))) + 1).
Proof.
  intros Hauth Hvalue Hclass Hmax Hfind Hsem Hyear Hnum Hval Hnd Hrow Hscale Hin Hf.
  pose proof Hfind as (Hi & Hby & _)%list_find_Some.
  destruct Hby as (Hu & Hsub & Hcn & Hmet).
  set (rd := mkRatingData (r_classId r) (r_courseId r) (r_year r) (r_semester r)
               (r_subject r) (r_courseNumber r) (r_classNumber r) (r_metricName r)
               value).
  set (n := S (sessionsStarted w)).
  set (w1 := set_txn (Some (db w)) (set_sessionsStarted n w)).
  assert (inTx (db w) (db w) n w1) as Hw1 by done.
  destruct (inTx_write (sessionsStarted w)
              (fun d => set_ratings (updateById (r_id r) value (ratings d)) d)
              _ _ n w1 Hw1) as (w2 & Hupd & Hw2).
  rewrite <- Hmet in Hrow.
  destruct (inTx_adjust_existing (r_classId r) (r_courseId r) (r_year r)
              (r_semester r) (r_subject r) (r_courseNumber r) (r_classNumber r)
              (r_metricName r) (r_value r) false (sessionsStarted w)
              _ _ n w2 k m Hw2 Hrow) as (w3 & Hdec & Hw3).
  assert ((rd_metricName rd ∈ numberScaleMetrics /\ domain = [1; 2; 3; 4; 5])
          \/ (rd_metricName rd ∈ booleanScaleMetrics /\ domain = [0; 1])) as Hscale'.
  { simpl. by rewrite Hmet. }
  destruct (inTx_increment rd (sessionsStarted w) _ _ n w3 domain Hw3 Hscale')
    as (w4 & Hinc & Hw4).
  simpl in Hw4.
  assert (createRating_transaction context (cl_id classDoc) (cl_courseId classDoc)
            year semester subject courseNumber classNumber metricName value
            (sessionsStarted w) w1 = (Ok tt, w4)) as Hbody.
  { unfold createRating_transaction, checkRatingExists, RatingModel_findOne.
    erewrite bind_Ok; [|by eapply inTx_read_committed].
    rewrite Hfind. simpl. rewrite Hsem, Hyear, Hnum.
    rewrite String.eqb_refl, Z.eqb_refl, String.eqb_refl. simpl.
    unfold handleExistingRating.
    destruct (Z.eqb_spec (r_value r) value) as [?|_]; [done|].
    unfold RatingModel_updateOne, Promise_all2.
    erewrite bind_Ok; [|exact Hupd].
    erewrite bind_Ok; [|exact Hdec]. exact Hinc. }
  destruct Hw4 as (Hdb4 & Htxn4 & Hf4 & Hn4).
  destruct (createRating_commits _ _ _ _ _ _ _ _ _ _ _ _ _
              Hauth Hvalue Hclass Hmax Hbody Htxn4) as (w' & Hrun & Hdb & _ & _).
  exists w'. rewrite Hdb. simpl.
  split; [exact Hrun|]. split; [by apply updateById_unique|]. split; [done|].
  rewrite <- Hmet.
  assert (countAt (r_classId r) (r_metricName r) (r_value r)
            (<[k := withCount (am_categoryCount m + -1) m]> (aggregatedMetrics (db w)))
          = Some (am_categoryCount m - 1)) as Hold.
  { replace (am_categoryCount m - 1) with (am_categoryCount m + -1) by lia.
    by apply countAt_saved. }
  split.
  - apply countAt_incremented_kept; [exact Hold|]. simpl. intros (_ & _ & ?). done.
  - rewrite (countAt_incremented rd domain) by done. simpl.
    unfold countAt. rewrite list_find_saved_other; [done| |].
    + by apply list_find_Some in Hrow as (? & _).
    + apply list_find_Some in Hrow as (_ & (_ & _ & Hv) & _).
      intros (_ & _ & Hv'). congruence.
Qed.

(** ** Failing operations *)

(** X3. Each of the four mutating operations is all or nothing: whatever
    the world, the arguments and the faults of the storage, a call that
    throws leaves the committed database exactly as it was. *)
Theorem failed_mutation_commits_nothing :
  (forall context year semester subject courseNumber classNumber metricName
          value w e w',
      createRating context year semester subject courseNumber classNumber
        metricName value w = (Err e, w') -> db w' = db w)
  /\ (forall context year semester subject courseNumber classNumber metrics
             w e w',
        createRatings context year semester subject courseNumber classNumber
          metrics w = (Err e, w') -> db w' = db w)
  /\ (forall context year semester subject courseNumber classNumber metricName
             w e w',
        deleteRating context year semester subject courseNumber classNumber
          metricName None w = (Err e, w') -> db w' = db w)
  /\ (forall context subject courseNumber w e w',
        deleteRatings context subject courseNumber w = (Err e, w') ->
        db w' = db w).
Proof.
  split; [|split; [|split]]; intros.
  - by eapply createRating_failSafe.
  - by eapply createRatings_failSafe.
  - by eapply deleteRating_failSafe.
  - by eapply deleteRatings_failSafe.
Qed.

(** X4. The batch submission, the deletion of one rating and the deletion
    of a user's ratings for a course invalidate only after the
    transaction: when one of them throws, no entry of the three caches has
    been touched.  The same holds for a single submission that has no
    rating of another term to replace. *)
Theorem failed_mutation_keeps_caches :
  (forall context year semester subject courseNumber classNumber metrics
          w e w',
      createRatings context year semester subject courseNumber classNumber
        metrics w = (Err e, w') -> caches w' = caches w)
  /\ (forall context year semester subject courseNumber classNumber metricName
             w e w',
        deleteRating context year semester subject courseNumber classNumber
          metricName None w = (Err e, w') -> caches w' = caches w)
  /\ (forall context subject courseNumber w e w',
        deleteRatings context subject courseNumber w = (Err e, w') ->
        caches w' = caches w)
  /\ (forall context year semester subject courseNumber classNumber metricName
             value w e w',
        match list_find (ratedBy (user_id context) subject courseNumber metricName)
                (ratings (db w)) with
        | Some (_, r) =>
            r_semester r = semester /\ r_year r = year
            /\ r_classNumber r = classNumber
        | None => True
        end ->
        createRating context year semester subject courseNumber classNumber
          metricName value w = (Err e, w') -> caches w' = caches w).
Proof.
  split; [|split; [|split]]; intros.
  - by eapply createRatings_keeps_caches_on_error.
  - by eapply deleteRating_keeps_caches_on_error.
  - by eapply deleteRatings_keeps_caches_on_error.
  - by eapply createRating_keeps_caches_without_replacement.
Qed.

(** X5. A submission that fails validation changes nothing at all, not
    even the session counters: [createRating] rethrows the error of the
    value check, throws NOT_FOUND when no class matches the term, and
    rethrows the error of the per-user ceiling, each time returning the world
    it was given. *)
Theorem rejected_submission_touches_nothing (context : RequestContext)
    (year : Z) (semester : Semester) (subject courseNumber classNumber : string)
    (metricName : MetricName) (value : Z) (w : World) :
  truthy (user_id context) = true ->
  (forall e,
      checkValueConstraint metricName value = Err e ->
      createRating context year semester subject courseNumber classNumber
        metricName value w = (Err e, w))
  /\ (checkValueConstraint metricName value = Ok tt ->
      list_find (classOf year semester subject courseNumber classNumber)
        (classes (db w)) = None ->
      createRating context year semester subject courseNumber classNumber
        metricName value w
      = (Err (classNotFound year semester subject courseNumber classNumber), w)
      /\ errorKind (classNotFound year semester subject courseNumber classNumber)
         = Some NotFound)
  /\ (forall j classDoc e,
        checkValueConstraint metricName value = Ok tt ->
        list_find (classOf year semester subject courseNumber classNumber)
          (classes (db w)) = Some (j, classDoc) ->
        checkUserMaxRatingsConstraint (userRatingsOf context (db w)) year
          semester subject courseNumber = Err e ->
        createRating context year semester subject courseNumber classNumber
          metricName value w = (Err e, w)).
Proof.
  intros Hauth. split; [|split].
  - intros e Hvalue. unfold createRating. rewrite Hauth. simpl.
    unfold liftResult at 1. unfold bind at 1. by rewrite Hvalue.
  - intros Hvalue Hclass. split; [|reflexivity].
    unfold createRating. rewrite Hauth. simpl.
    unfold liftResult at 1. unfold bind at 1. rewrite Hvalue.
    unfold getClassDocument, storageRead. unfold bind. simpl.
    by rewrite Hclass.
  - intros j classDoc e Hvalue Hclass Hmax.
    unfold createRating. rewrite Hauth. simpl.
    unfold liftResult at 1. unfold bind at 1. rewrite Hvalue.
    erewrite bind_Ok; [|by eapply getClassDocument_run].
    erewrite bind_Ok; [|by apply getUserRatings_run].
    unfold liftResult at 1. unfold bind at 1. by rewrite Hmax.
Qed.

Lemma forEach_checks_fail {A} (check : A -> Result unit) (xs : list A)
    (before after : list A) (x : A) (e : Error) (w : World) :
  xs = (before ++ x :: after)%list ->
  Forall (fun y => check y = Ok tt) before -> check x = Err e ->
  forEach xs (fun y => liftResult (check y)) w = (Err e, w).
Proof.
  intros -> Hbefore Hx. induction Hbefore as [|y before Hy _ IH]; simpl.
  - unfold bind, liftResult. by rewrite Hx.
  - unfold bind at 1. unfold liftResult at 1. rewrite Hy. exact IH.
Qed.

(** X6. The batch submission validates before it reads or writes.  When a
    required metric is missing from the batch it throws BAD_USER_INPUT,
    whatever the values and the class; when the required metrics are there
    and a value fails its check, it rethrows the error of the first such
    metric.  In both cases the world is returned as it was given. *)
Theorem rejected_batch_touches_nothing (context : RequestContext) (year : Z)
    (semester : Semester) (subject courseNumber classNumber : string)
    (metrics : list MetricInput) (w : World) :
  truthy (user_id context) = true ->
  (forall m,
      m ∈ REQUIRED_METRICS -> m ∉ mi_metricName <$> metrics ->
      exists e,
        createRatings context year semester subject courseNumber classNumber
          metrics w = (Err e, w)
        /\ errorCode e = Some "BAD_USER_INPUT"
        /\ errorKind e = Some BadInput)
  /\ (forall before metric after e,
        Forall (fun m => m ∈ mi_metricName <$> metrics) REQUIRED_METRICS ->
        metrics = (before ++ metric :: after)%list ->
        Forall (fun x => checkValueConstraint (mi_metricName x) (mi_value x) = Ok tt)
          before ->
        checkValueConstraint (mi_metricName metric) (mi_value metric) = Err e ->
        createRatings context year semester subject courseNumber classNumber
          metrics w = (Err e, w)).
Proof.
  intros Hauth. split.
  - intros m Hreq Hmissing. unfold createRatings. rewrite Hauth. simpl.
    assert (m ∈ filter (fun m => m ∉ mi_metricName <$> metrics) REQUIRED_METRICS)
      as Hm by by apply list_elem_of_filter.
    destruct (filter _ REQUIRED_METRICS) as [|m0 missing] eqn:Hfilter;
      [by apply elem_of_nil in Hm|].
    eexists. split; [unfold bind at 1; simpl; reflexivity|].
    split; reflexivity.
  - intros before metric after e Hreq Hsplit Hbefore Hbad.
    unfold createRatings. rewrite Hauth. simpl.
    assert (filter (fun m => m ∉ mi_metricName <$> metrics) REQUIRED_METRICS = [])
      as ->.
    { induction Hreq as [|m req Hm _ IH]; [done|].
      by rewrite filter_cons, decide_False by (intros Hn; by apply Hn). }
    simpl. unfold bind at 1. simpl.
    erewrite bind_Err; [reflexivity|].
    by eapply (forEach_checks_fail
                 (fun x => checkValueConstraint (mi_metricName x) (mi_value x))).
Qed.

(** ** What a committed batch or deletion leaves *)

Lemma transaction_Ok_inv {A} (s : ClientSession) (body : M A) w a w' :
  tryFinally (withTransaction s body) (endSession s) w = (Ok a, w') ->
  exists w1,
    body (set_txn (Some (db w)) w) = (Ok a, w1)
    /\ db w' = sessionView (Some s) w1.
Proof.
  intros Hrun.
  apply tryFinally_endSession_Ok_inv in Hrun as (w1 & Htx & Hdb).
  apply withTransaction_Ok_inv in Htx as (w2 & Hbody & Hdb2).
  exists w2. split; [done|congruence].
Qed.

Lemma filter_all {A} (P : A -> Prop) `{!forall x, Decision (P x)} (l : list A) :
  Forall P l -> filter P l = l.
Proof.
  induction 1 as [|x l Hx _ IH]; [done|].
  by rewrite filter_cons, decide_True, IH.
Qed.

Lemma filter_ext_in {A} (P Q : A -> Prop) `{!forall x, Decision (P x)}
    `{!forall x, Decision (Q x)} (l : list A) :
  (forall x, x ∈ l -> P x <-> Q x) -> filter P l = filter Q l.
Proof.
  induction l as [|x l IH]; intros Hext; [done|].
  rewrite !filter_cons, IH by (intros y Hy; apply Hext; by right).
  destruct (decide (P x)) as [HP|HP], (decide (Q x)) as [HQ|HQ]; try done.
  - exfalso. apply HQ, Hext; [by left|done].
  - exfalso. apply HP, Hext; [by left|done].
Qed.

Lemma deleteById_filter (id : ObjectId) (l : list RatingType) :
  NoDup (r_id <$> l) -> deleteById id l = filter (fun x => r_id x <> id) l.
Proof.
  induction l as [|x l IH]; [done|].
  rewrite fmap_cons, NoDup_cons. intros [Hx Hnd]. specialize (IH Hnd).
  unfold deleteById in *. rewrite filter_cons. simpl.
  destruct (decide (hasId id x)) as [Hid|Hid]; unfold hasId in Hid.
  - rewrite decide_False by (intros Hne; by apply Hne). simpl.
    symmetry. apply filter_all, Forall_forall. intros y Hy Heq.
    apply Hx, list_elem_of_fmap. exists y. split; [congruence|done].
  - rewrite decide_True by done.
    destruct (list_find (hasId id) l) as [[i y]|]; simpl; by rewrite <- IH.
Qed.

Lemma NoDup_fmap_filter {A B} (f : A -> B) (P : A -> Prop)
    `{!forall x, Decision (P x)} (l : list A) :
  NoDup (f <$> l) -> NoDup (f <$> filter P l).
Proof.
  intros Hnd. eapply sublist_NoDup; [exact Hnd|].
  apply fmap_sublist, sublist_filter.
Qed.

Lemma NoDup_fmap_elem {A B} (f : A -> B) (l : list A) (x y : A) :
  NoDup (f <$> l) -> x ∈ l -> y ∈ l -> f x = f y -> x = y.
Proof.
  induction l as [|z l IH]; [by intros _ ?%elem_of_nil|].
  rewrite fmap_cons, NoDup_cons. intros [Hz Hnd] Hx Hy Hf.
  apply elem_of_cons in Hx as [->|Hx], Hy as [->|Hy]; [done| | |by apply IH].
  - exfalso. apply Hz, list_elem_of_fmap. by exists y.
  - exfalso. apply Hz, list_elem_of_fmap. by exists x.
Qed.

(** Dropping the documents whose [_id] is that of a match drops the
    matches. *)
Lemma filter_by_ids (P : RatingType -> Prop) `{!forall x, Decision (P x)}
    (l : list RatingType) :
  NoDup (r_id <$> l) ->
  filter (fun x => r_id x ∉ r_id <$> filter P l) l = filter (fun x => ~ P x) l.
Proof.
  intros Hnd. apply filter_ext_in. intros x Hx. split.
  - intros Hnot HP. apply Hnot, list_elem_of_fmap. exists x.
    split; [done|]. by apply list_elem_of_filter.
  - intros HnP (y & Hid & Hy)%list_elem_of_fmap.
    apply list_elem_of_filter in Hy as [HPy Hy].
    by rewrite (NoDup_fmap_elem r_id l x y Hnd Hx Hy Hid) in HnP.
Qed.

Lemma deleteExisting_Ok_inv (r : RatingType) (s : ClientSession) w w' d :
  txn w = Some d ->
  deleteExisting r s w = (Ok tt, w') ->
  db w' = db w
  /\ exists l',
      txn w' = Some (set_aggregatedMetrics l'
                       (set_ratings (deleteById (r_id r) (ratings d)) d))
      /\ adjustedTo (r_classId r) (r_metricName r) (r_value r) false
           (fun x => mkAggregatedMetric (r_classId r) (r_courseId r) (r_subject r)
                       (r_courseNumber r) (r_semester r) (r_year r)
                       (r_classNumber r) (r_metricName r) x
                       (if x =? r_value r then 1 else 0))
           (aggregatedMetrics d) l'.
Proof.
  intros Ht Hrun. unfold deleteExisting, Promise_all2 in Hrun.
  apply bind_inv_Ok in Hrun as ([] & w1 & Hdel & Hrun).
  apply (storageWrite_Ok_inv _ _ _ _ d Ht) in Hdel as [Ht1 Hdb1].
  apply (handleCategoryCountChange_Ok_inv _ _ _ _ _ _ _ _ _ _ _ _ _ _ Ht1) in Hrun
    as (Hdb' & l' & Ht' & Hadj).
  split; [congruence|]. by exists l'.
Qed.

Lemma forEach_deleteExisting_Ok_inv (rest : list RatingType)
    (s : ClientSession) w w' d :
  txn w = Some d -> NoDup (r_id <$> ratings d) ->
  forEach rest (fun r => deleteExisting r s) w = (Ok tt, w') ->
  db w' = db w
  /\ exists d',
      txn w' = Some d'
      /\ ratings d' = filter (fun x => r_id x ∉ r_id <$> rest) (ratings d)
      /\ nextId d' = nextId d /\ classes d' = classes d
      /\ courses d' = courses d.
Proof.
  revert w d. induction rest as [|r rest IH]; intros w d Ht Hnd Hrun;
    simpl in Hrun.
  - injection Hrun as <-. split; [done|]. exists d. split; [done|].
    split; [|done]. symmetry. apply filter_all, Forall_forall.
    intros x _. apply not_elem_of_nil.
  - apply bind_inv_Ok in Hrun as ([] & w1 & Hdel & Hrun).
    apply (deleteExisting_Ok_inv r s w w1 d Ht) in Hdel as (Hdb1 & l' & Ht1 & _).
    eapply IH in Hrun as (Hdb' & d' & Ht' & Hr' & Hn' & Hc' & Hco'); [|exact Ht1|].
    + split; [congruence|]. exists d'. split; [done|]. simpl in *.
      split; [|done]. rewrite Hr', deleteById_filter by done.
      rewrite list_filter_filter. apply list_filter_iff. intros x.
      rewrite not_elem_of_cons. tauto.
    + simpl. rewrite deleteById_filter by done. by apply NoDup_fmap_filter.
Qed.

Lemma forEach_create_pair_Ok_inv context classId courseId year semester
    subject courseNumber classNumber (metrics : list MetricInput)
    (s : ClientSession) w w' d :
  txn w = Some d ->
  forEach metrics (fun metric =>
    Promise_all2
      (RatingModel_create (user_id context)
         (mkRatingData classId courseId year semester subject courseNumber
            classNumber (mi_metricName metric) (mi_value metric)) (Some s))
      (handleCategoryCountChange classId courseId year semester subject
         courseNumber classNumber (mi_metricName metric) (mi_value metric) true
         (Some s))) w = (Ok tt, w') ->
  db w' = db w
  /\ exists d',
      txn w' = Some d'
      /\ ratings d'
         = (ratings d
            ++ imap (fun k metric =>
                       newRating (nextId d + Z.of_nat k) (user_id context)
                         (mkRatingData classId courseId year semester subject
                            courseNumber classNumber (mi_metricName metric)
                            (mi_value metric))) metrics)%list
      /\ nextId d' = nextId d + Z.of_nat (length metrics)
      /\ classes d' = classes d.
Proof.
  revert w d. induction metrics as [|metric metrics IH]; intros w d Ht Hrun;
    simpl in Hrun.
  - injection Hrun as <-. split; [done|]. exists d. split; [done|]. simpl.
    split; [by rewrite app_nil_r|]. split; [lia|done].
  - apply bind_inv_Ok in Hrun as ([] & w1 & Hnew & Hrun).
    unfold Promise_all2 in Hnew.
    apply bind_inv_Ok in Hnew as ([] & w0 & Hcreate & Hcount).
    apply (storageWrite_Ok_inv _ _ _ _ d Ht) in Hcreate as [Ht0 Hdb0].
    apply (handleCategoryCountChange_Ok_inv _ _ _ _ _ _ _ _ _ _ _ _ _ _ Ht0)
      in Hcount as (Hdb1 & l' & Ht1 & _).
    eapply IH in Hrun as (Hdb' & d' & Ht' & Hr' & Hn' & Hc'); [|exact Ht1].
    split; [congruence|]. exists d'. split; [done|]. simpl in *.
    split; [|split; [lia|done]]. rewrite Hr', <- app_assoc. simpl. f_equal. f_equal.
    + f_equal. lia.
    + apply imap_ext. intros k metric' _. simpl. f_equal. lia.
Qed.

Lemma createRatings_Ok_inv context year semester subject courseNumber
    classNumber (metrics : list MetricInput) w b w' :
  NoDup (r_id <$> ratings (db w)) ->
  createRatings context year semester subject courseNumber classNumber metrics w
  = (Ok b, w') ->
  exists j classDoc,
    list_find (classOf year semester subject courseNumber classNumber)
      (classes (db w)) = Some (j, classDoc)
    /\ ratings (db w')
       = (filter (fun r => ~ ratedCourse (user_id context) (cl_courseId classDoc) r)
            (ratings (db w))
          ++ imap (fun k metric =>
                     newRating (nextId (db w) + Z.of_nat k) (user_id context)
                       (mkRatingData (cl_id classDoc) (cl_courseId classDoc) year
                          semester subject courseNumber classNumber
                          (mi_metricName metric) (mi_value metric))) metrics)%list
    /\ nextId (db w') = nextId (db w) + Z.of_nat (length metrics)
    /\ classes (db w') = classes (db w).
Proof.
  intros Hnd Hrun. unfold createRatings in Hrun.
  destruct (truthy (user_id context)); simpl in Hrun; [|discriminate].
  apply bind_inv_Ok in Hrun as (u0 & w0 & Hreq & Hrun).
  apply preserves_Ok in Hreq; [|frame].
  apply bind_inv_Ok in Hrun as (u1 & w1 & Hstep & Hrun).
  apply preserves_Ok in Hstep; [|frame].
  apply bind_inv_Ok in Hrun as (classDoc & w2 & Hclass & Hrun).
  pose proof Hclass as [j Hj]%getClassDocument_Ok_inv.
  apply preserves_Ok in Hclass; [|auto with frame].
  apply bind_inv_Ok in Hrun as (ur & w3 & Hur & Hrun).
  apply preserves_Ok in Hur; [|auto with frame].
  apply bind_inv_Ok in Hrun as (u4 & w4 & Hmax & Hrun).
  apply preserves_Ok in Hmax; [|auto with frame].
  apply bind_inv_Ok in Hrun as (existingRatings & w5 & Hfind & Hrun).
  unfold RatingModel_find, storageRead in Hfind. simpl in Hfind.
  injection Hfind as <- <-.
  apply bind_inv_Ok in Hrun as (s & w6 & Hs & Hrun).
  apply preserves_Ok in Hs; [|auto with frame].
  apply bind_inv_Ok in Hrun as ([] & w7 & Htx & Hrun).
  apply bind_inv_Ok in Hrun as ([] & w8 & Hinv & Hrun). injection Hrun as _ <-.
  assert (db w8 = db w7) as Hdb8.
  { destruct (invalidation_frame (cl_courseId classDoc) w7) as (wi & Hri & Hdbi & _).
    rewrite Hri in Hinv. by injection Hinv as <-. }
  assert (db w4 = db w) as Hdb4 by congruence.
  assert (db w6 = db w) as Hdb6 by congruence.
  assert (db w1 = db w) as Hdb1 by congruence.
  apply transaction_Ok_inv in Htx as (wb & Hbody & Hdb7).
  apply bind_inv_Ok in Hbody as ([] & wc & Hdel & Hnew).
  eapply forEach_deleteExisting_Ok_inv in Hdel
    as (_ & d1 & Ht1 & Hr1 & Hn1 & Hc1 & _); [|reflexivity|by rewrite Hdb6].
  eapply forEach_create_pair_Ok_inv in Hnew as (_ & d2 & Ht2 & Hr2 & Hn2 & Hc2);
    [|exact Ht1].
  assert (db w8 = d2) as Hd2.
  { rewrite Hdb8, Hdb7. unfold sessionView. by rewrite Ht2. }
  exists j, classDoc. rewrite Hdb1 in Hj. split; [exact Hj|].
  rewrite Hd2, Hr2, Hn2, Hr1, Hn1, Hc2, Hc1, Hdb6, Hdb4.
  by rewrite (filter_by_ids _ _ Hnd).
Qed.

(** X7. A batch submission that returns has replaced the user's ratings
    for the course: when ids are unique, the rating collection afterwards
    is the old one without any rating of the user for the class's course,
    followed by one new rating per metric of the batch, in the order of the
    batch and under consecutive fresh ids.  So the user's ratings for the
    course are then exactly those of the batch. *)
Theorem committed_batch_replaces_the_ratings (context : RequestContext)
    (year : Z) (semester : Semester) (subject courseNumber classNumber : string)
    (metrics : list MetricInput) (w : World) (b : bool) (w' : World) :
  NoDup (r_id <$> ratings (db w)) ->
  createRatings context year semester subject courseNumber classNumber metrics w
  = (Ok b, w') ->
  exists j classDoc,
    list_find (classOf year semester subject courseNumber classNumber)
      (classes (db w)) = Some (j, classDoc)
    /\ let submitted :=
         imap (fun k metric =>
                 newRating (nextId (db w) + Z.of_nat k) (user_id context)
                   (mkRatingData (cl_id classDoc) (cl_courseId classDoc) year
                      semester subject courseNumber classNumber
                      (mi_metricName metric) (mi_value metric))) metrics in
       ratings (db w')
       = (filter (fun r => ~ ratedCourse (user_id context) (cl_courseId classDoc) r)
            (ratings (db w)) ++ submitted)%list
       /\ filter (ratedCourse (user_id context) (cl_courseId classDoc))
            (ratings (db w')) = submitted
       /\ nextId (db w') = nextId (db w) + Z.of_nat (length metrics).
Proof.
  intros Hnd Hrun.
  destruct (createRatings_Ok_inv _ _ _ _ _ _ _ _ _ _ Hnd Hrun)
    as (j & classDoc & Hj & Hr & Hn & _).
  exists j, classDoc. split; [exact Hj|]. simpl.
  split; [exact Hr|]. split; [|exact Hn].
  rewrite Hr, filter_app, list_filter_filter.
  rewrite (filter_ext_in _ (fun _ => False)) by (intros x _; tauto).
  rewrite (filter_none (fun _ : RatingType => False)).
  - simpl. apply filter_all, Forall_forall. intros x Hx.
    apply elem_of_lookup_imap in Hx as (k & metric & -> & _). by split.
  - apply list_find_None, Forall_forall. by intros x _ [].
Qed.

(** X8. Deleting a rating that the user does not hold throws NOT_FOUND.
    Called on its own, [deleteRating] has then started and ended one session
    and left the database and the three caches as they were; called with the
    session of a caller, it returns the world it was given. *)
Theorem deleting_a_missing_rating_fails (context : RequestContext) (year : Z)
    (semester : Semester) (subject courseNumber classNumber : string)
    (metricName : MetricName) (w : World) :
  truthy (user_id context) = true ->
  list_find (ratedIn (user_id context) subject courseNumber semester year
               classNumber metricName) (ratings (db w)) = None ->
  errorKind ratingNotFound = Some NotFound
  /\ (exists w',
        deleteRating context year semester subject courseNumber classNumber
          metricName None w = (Err ratingNotFound, w')
        /\ db w' = db w /\ caches w' = caches w
        /\ sessionsStarted w' = S (sessionsStarted w)
        /\ sessionsEnded w' = S (sessionsEnded w))
  /\ (forall s : ClientSession,
        deleteRating context year semester subject courseNumber classNumber
          metricName (Some s) w = (Err ratingNotFound, w)).
Proof.
  intros Hauth Hnone. split; [reflexivity|]. split.
  - exists (set_sessionsEnded (S (sessionsEnded w))
              (set_txn None
                 (set_txn (Some (db w))
                    (set_sessionsStarted (S (sessionsStarted w)) w)))).
    split; [|by repeat split].
    unfold deleteRating. rewrite Hauth. simpl.
    unfold bind at 1. unfold bind at 1. unfold startSession at 1.
    unfold tryFinally, withTransaction, deleteRatingOperations,
      RatingModel_findOne, storageRead.
    unfold bind at 1. unfold bind at 1. simpl. rewrite Hnone. simpl. reflexivity.
  - intros s. unfold deleteRating. rewrite Hauth. simpl.
    unfold deleteRatingOperations, RatingModel_findOne, storageRead.
    unfold bind. simpl. by rewrite Hnone.
Qed.

Lemma deleteRating_Ok_inv context year semester subject courseNumber
    classNumber metricName w b w' :
  NoDup (r_id <$> ratings (db w)) ->
  deleteRating context year semester subject courseNumber classNumber metricName
    None w = (Ok b, w') ->
  exists i r k m,
    list_find (ratedIn (user_id context) subject courseNumber semester year
                 classNumber metricName) (ratings (db w)) = Some (i, r)
    /\ list_find (counterKey (r_classId r) metricName (r_value r))
         (aggregatedMetrics (db w)) = Some (k, m)
    /\ db w'
       = set_aggregatedMetrics
           (<[k := withCount (am_categoryCount m + -1) m]> (aggregatedMetrics (db w)))
           (set_ratings (delete i (ratings (db w))) (db w)).
Proof.
  intros Hnd Hrun. unfold deleteRating in Hrun.
  destruct (truthy (user_id context)); simpl in Hrun; [|discriminate].
  apply bind_inv_Ok in Hrun as (c & w1 & Htx & Hrun).
  apply bind_inv_Ok in Htx as (s & w0 & Hs & Htx).
  apply preserves_Ok in Hs; [|auto with frame].
  apply bind_inv_Ok in Hrun as ([] & w2 & Hinv & Hrun). injection Hrun as _ <-.
  assert (db w2 = db w1) as ->.
  { destruct (truthy c); [|by injection Hinv as <-].
    destruct (invalidation_frame c w1) as (w4 & Hrun4 & Hdb4 & _).
    rewrite Hrun4 in Hinv. by injection Hinv as <-. }
  apply transaction_Ok_inv in Htx as (wb & Hbody & ->).
  apply bind_inv_Ok in Hbody as (r & wc & Hops & Hret). injection Hret as _ <-.
  unfold deleteRatingOperations in Hops.
  apply bind_inv_Ok in Hops as (found & wd & Hfind & Hops).
  unfold RatingModel_findOne, storageRead in Hfind. simpl in Hfind.
  injection Hfind as <- <-. rewrite Hs in Hops.
  destruct (list_find _ (ratings (db w))) as [[i r0]|] eqn:Hfound;
    simpl in Hops; [|discriminate].
  apply bind_inv_Ok in Hops as ([] & we & Hpair & Hret). injection Hret as <- <-.
  unfold Promise_all2 in Hpair.
  apply bind_inv_Ok in Hpair as ([] & wf & Hdel & Hcount).
  apply (storageWrite_Ok_inv _ _ _ _ (db w)) in Hdel as [Ht1 _]; [|reflexivity].
  apply (handleCategoryCountChange_Ok_inv _ _ _ _ _ _ _ _ _ _ _ _ _ _ Ht1)
    in Hcount as (_ & l' & Ht' & Hadj).
  unfold adjustedTo in Hadj. simpl in Hadj.
  destruct (list_find _ (aggregatedMetrics (db w))) as [[k m]|] eqn:Hrow;
    [|by destruct Hadj].
  exists i, r0, k, m. split; [done|]. split; [done|].
  unfold sessionView. rewrite Ht'. simpl.
  pose proof Hfound as (Hi & _)%list_find_Some.
  by rewrite Hadj, (deleteById_unique _ i r0 Hnd Hi).
Qed.

(** X9. A deletion that returns has removed exactly the rating that the
    query for the user, course, term and metric finds first, and has taken
    one off the count of the row for that rating's class, metric and value;
    that row existed, and no other document changed. *)
Theorem committed_deletion_removes_one_rating (context : RequestContext)
    (year : Z) (semester : Semester) (subject courseNumber classNumber : string)
    (metricName : MetricName) (w : World) (b : bool) (w' : World) :
  NoDup (r_id <$> ratings (db w)) ->
  deleteRating context year semester subject courseNumber classNumber metricName
    None w = (Ok b, w') ->
  exists i r k m,
    list_find (ratedIn (user_id context) subject courseNumber semester year
                 classNumber metricName) (ratings (db w)) = Some (i, r)
    /\ list_find (counterKey (r_classId r) metricName (r_value r))
         (aggregatedMetrics (db w)) = Some (k, m)
    /\ ratings (db w') = delete i (ratings (db w))
    /\ aggregatedMetrics (db w')
       = <[k := withCount (am_categoryCount m - 1) m]> (aggregatedMetrics (db w))
    /\ nextId (db w') = nextId (db w).
Proof.
  intros Hnd Hrun.
  destruct (deleteRating_Ok_inv _ _ _ _ _ _ _ _ _ _ Hnd Hrun)
    as (i & r & k & m & Hfind & Hrow & Hdb).
  exists i, r, k, m. split; [exact Hfind|]. split; [exact Hrow|].
  rewrite Hdb. simpl. split; [done|]. split; [|done].
  by replace (am_categoryCount m - 1) with (am_categoryCount m + -1) by lia.
Qed.

Lemma deleteRatings_Ok_inv context subject courseNumber w b w' :
  NoDup (r_id <$> ratings (db w)) ->
  deleteRatings context subject courseNumber w = (Ok b, w') ->
  ratings (db w')
  = filter (fun r => ~ ratedSubject (user_id context) subject courseNumber r)
      (ratings (db w))
  /\ nextId (db w') = nextId (db w)
  /\ classes (db w') = classes (db w).
Proof.
  intros Hnd Hrun. unfold deleteRatings in Hrun.
  destruct (truthy (user_id context)); simpl in Hrun; [|discriminate].
  apply bind_inv_Ok in Hrun as (existingRatings & w1 & Hfind & Hrun).
  unfold RatingModel_find, storageRead in Hfind. simpl in Hfind.
  injection Hfind as <- <-.
  rewrite <- (filter_by_ids _ _ Hnd).
  set (existing := filter (ratedSubject _ _ _) (ratings (db w))) in *.
  destruct (length existing =? 0)%nat eqn:Hlen.
  - apply Nat.eqb_eq, nil_length_inv in Hlen. rewrite Hlen.
    injection Hrun as _ <-. split; [|done]. symmetry.
    apply filter_all, Forall_forall. intros x _. apply not_elem_of_nil.
  - apply bind_inv_Ok in Hrun as (s & w2 & Hs & Hrun).
    apply preserves_Ok in Hs; [|auto with frame].
    apply bind_inv_Ok in Hrun as ([] & w3 & Htx & Hrun).
    apply bind_inv_Ok in Hrun as ([] & w4 & Hinv & Hrun). injection Hrun as _ <-.
    assert (db w4 = db w3) as ->.
    { apply preserves_Ok in Hinv; [done|]. apply preserves_forEach.
      intros c. auto with frame. }
    apply transaction_Ok_inv in Htx as (wb & Hbody & ->).
    eapply forEach_deleteExisting_Ok_inv in Hbody
      as (_ & d1 & Ht1 & Hr1 & Hn1 & Hc1 & _); [|reflexivity|by rewrite Hs].
    unfold sessionView. rewrite Ht1, Hr1, Hn1, Hc1, Hs. done.
Qed.

(** X10. A deletion of the user's ratings for a course that returns has
    removed every rating of the user for that subject and course number,
    and nothing else: when ids are unique, the collection afterwards is the
    old one without those ratings, in the old order, and no [_id] has been
    consumed. *)
Theorem committed_deletion_removes_the_users_ratings (context : RequestContext)
    (subject courseNumber : string) (w : World) (b : bool) (w' : World) :
  NoDup (r_id <$> ratings (db w)) ->
  deleteRatings context subject courseNumber w = (Ok b, w') ->
  ratings (db w')
  = filter (fun r => ~ ratedSubject (user_id context) subject courseNumber r)
      (ratings (db w))
  /\ filter (ratedSubject (user_id context) subject courseNumber) (ratings (db w'))
     = []
  /\ nextId (db w') = nextId (db w).
Proof.
  intros Hnd Hrun.
  destruct (deleteRatings_Ok_inv _ _ _ _ _ _ Hnd Hrun) as (Hr & Hn & _).
  split; [exact Hr|]. split; [|exact Hn].
  rewrite Hr, list_filter_filter.
  apply (filter_none (fun x => _)), list_find_None, Forall_forall.
  intros x _ [HP HnP]. by apply HnP.
Qed.

(** ** Entries of a cache *)

Lemma lawful_courseAggregatedRatingsCacheRef : lawful courseAggregatedRatingsCacheRef.
Proof. by split. Qed.

Lemma lawful_semestersWithRatingsCacheRef : lawful semestersWithRatingsCacheRef.
Proof. by split. Qed.

Lemma lawful_instructorAggregatedRatingsCacheRef :
  lawful instructorAggregatedRatingsCacheRef.
Proof. by split. Qed.

Lemma sweep_fold_lookup {T} (now : Z) (kvs : list (string * CacheEntry T))
    (c : gmap string (CacheEntry T)) (k : string) :
  foldr (fun '(key, entry) c => if now >? expiresAt entry then delete key c else c)
    c kvs !! k
  = if decide (Exists (fun kv => kv.1 = k /\ (now >? expiresAt kv.2) = true) kvs)
    then None else c !! k.
Proof.
  induction kvs as [|[k0 e0] kvs IH].
  - destruct (decide _) as [Hex|]; [by apply Exists_nil in Hex|done].
  - cbn [foldr].
    assert ((Exists (fun kv : string * CacheEntry T =>
                       kv.1 = k /\ (now >? expiresAt kv.2) = true) ((k0, e0) :: kvs))
            <-> (k0 = k /\ (now >? expiresAt e0) = true)
                \/ Exists (fun kv : string * CacheEntry T =>
                             kv.1 = k /\ (now >? expiresAt kv.2) = true) kvs)
      as Hcons by apply Exists_cons.
    destruct (now >? expiresAt e0) eqn:Hexp.
    + destruct (decide (k0 = k)) as [->|Hne].
      * rewrite lookup_delete_eq, decide_True; [done|]. apply Hcons. by left.
      * rewrite lookup_delete_ne, IH by done.
        apply decide_ext. rewrite Hcons. tauto.
    + rewrite IH. apply decide_ext. rewrite Hcons.
      split; [tauto|]. intros [[_ ?]|?]; [congruence|done].
Qed.

Lemma sweep_all_lookup {T} (now : Z) (c : gmap string (CacheEntry T)) (k : string) :
  foldr (fun '(key, entry) c => if now >? expiresAt entry then delete key c else c)
    c (map_to_list c) !! k
  = match c !! k with
    | Some e => if now >? expiresAt e then None else Some e
    | None => None
    end.
Proof.
  rewrite sweep_fold_lookup.
  destruct (c !! k) as [e|] eqn:Hk.
  - destruct (now >? expiresAt e) eqn:Hexp.
    + rewrite decide_True; [done|]. apply Exists_exists. exists (k, e).
      split; [by apply elem_of_map_to_list|done].
    + rewrite decide_False; [done|].
      intros ([k' e'] & Hin & <- & Hexp')%Exists_exists. simpl in *.
      apply elem_of_map_to_list in Hin. congruence.
  - destruct (decide _) as [Hex|]; done.
Qed.

(** X11. The periodic sweep deletes exactly the expired entries: afterwards
    a key holds its entry if the clock has not passed the entry's expiry,
    and nothing otherwise.  The sweep uses the test of the read, so no read
    can tell that it has run: every key reads after the sweep as it would
    have read before. *)
Theorem sweep_drops_exactly_the_expired {T} (cache : CacheRef T) (w : World) :
  lawful cache ->
  exists w',
    sweepExpiredEntries cache w = (Ok tt, w')
    /\ (forall k,
          cacheOf cache w' !! k
          = match cacheOf cache w !! k with
            | Some e => if clock w >? expiresAt e then None else Some e
            | None => None
            end)
    /\ (forall k, (getCachedValue cache k w').1 = (getCachedValue cache k w).1).
Proof.
  intros [Hget Hclock].
  exists (setCache cache
            (foldr (fun '(key, entry) c =>
                      if clock w >? expiresAt entry then delete key c else c)
               (cacheOf cache w) (map_to_list (cacheOf cache w))) w).
  split; [reflexivity|].
  assert (forall k,
             cacheOf cache
               (setCache cache
                  (foldr (fun '(key, entry) c =>
                            if clock w >? expiresAt entry then delete key c else c)
                     (cacheOf cache w) (map_to_list (cacheOf cache w))) w) !! k
             = match cacheOf cache w !! k with
               | Some e => if clock w >? expiresAt e then None else Some e
               | None => None
               end) as Hlookup.
  { intros k. rewrite Hget. apply sweep_all_lookup. }
  split; [exact Hlookup|].
  intros k. unfold getCachedValue, Map_get, Date_now, Map_delete, bind.
  simpl. rewrite Hlookup.
  destruct (cacheOf cache w !! k) as [e|]; [|done].
  destruct (clock w >? expiresAt e) eqn:Hexp; [done|].
  rewrite Hclock. by rewrite Hexp.
Qed.

(** X12. What is stored in a cache is what the next read returns: after
    [setCachedValue] with a lifetime that is not negative, [getCachedValue]
    of the key returns the value and changes nothing, while the entries of
    the other keys are what they were.  With a negative lifetime the entry
    is stale at once and the read returns nothing. *)
Theorem cached_value_round_trip {T} (cache : CacheRef T) (key : string) (v : T)
    (ttlMs : Z) (w : World) :
  lawful cache ->
  exists w1,
    setCachedValue cache key v ttlMs w = (Ok tt, w1)
    /\ (0 <= ttlMs -> getCachedValue cache key w1 = (Ok (Some v), w1))
    /\ (ttlMs < 0 -> (getCachedValue cache key w1).1 = Ok None)
    /\ (forall k, k <> key -> cacheOf cache w1 !! k = cacheOf cache w !! k).
Proof.
  intros [Hget Hclock].
  exists (setCache cache
            (<[key := mkCacheEntry v (clock w + ttlMs)]> (cacheOf cache w)) w).
  split; [reflexivity|].
  assert (cacheOf cache
            (setCache cache
               (<[key := mkCacheEntry v (clock w + ttlMs)]> (cacheOf cache w)) w)
          !! key = Some (mkCacheEntry v (clock w + ttlMs))) as Hkey.
  { by rewrite Hget, lookup_insert_eq. }
  split; [|split].
  - intros Httl.
    rewrite (getCachedValue_hit cache key (mkCacheEntry v (clock w + ttlMs)));
      [reflexivity|exact Hkey|].
    rewrite Hclock. simpl. lia.
  - intros Httl.
    rewrite (getCachedValue_stale cache key (mkCacheEntry v (clock w + ttlMs)));
      [reflexivity|exact Hkey|].
    rewrite Hclock. simpl. lia.
  - intros k Hne. by rewrite Hget, lookup_insert_ne.
Qed.

(** ** The key of a metric filter *)

Lemma insertSorted_perm (x : string) (l : list string) :
  insertSorted x l ≡ₚ x :: l.
Proof.
  induction l as [|y l IH]; simpl; [done|].
  destruct (localeCompare x y <=? 0); [done|].
  rewrite IH. apply perm_swap.
Qed.

Lemma sortByLocale_perm (l : list string) : sortByLocale l ≡ₚ l.
Proof.
  induction l as [|x l IH]; simpl; [done|].
  unfold sortByLocale in *. simpl. by rewrite insertSorted_perm, IH.
Qed.

Lemma insertSorted_comm_lt (a b : string) (s : list string) :
  localeCompare a b <= 0 -> ~ localeCompare b a <= 0 ->
  (forall y, y ∈ s -> localeCompare b y <= 0 -> localeCompare a y <= 0) ->
  insertSorted a (insertSorted b s) = insertSorted b (insertSorted a s).
Proof.
  intros Hab Hba. induction s as [|y s IH]; intros Htrans; simpl.
  - destruct (Z.leb_spec (localeCompare a b) 0); [|lia].
    destruct (Z.leb_spec (localeCompare b a) 0); [lia|done].
  - destruct (Z.leb_spec (localeCompare b y) 0) as [Hby|Hby].
    + assert (localeCompare a y <= 0) as Hay by (apply Htrans; [by left|done]).
      simpl.
      destruct (Z.leb_spec (localeCompare a b) 0); [|lia].
      destruct (Z.leb_spec (localeCompare a y) 0); [|lia]. simpl.
      destruct (Z.leb_spec (localeCompare b a) 0); [lia|].
      destruct (Z.leb_spec (localeCompare b y) 0); [done|lia].
    + simpl. destruct (Z.leb_spec (localeCompare a y) 0) as [Hay|Hay]; simpl.
      * destruct (Z.leb_spec (localeCompare b a) 0); [lia|].
        destruct (Z.leb_spec (localeCompare b y) 0); [lia|done].
      * destruct (Z.leb_spec (localeCompare b y) 0); [lia|].
        rewrite IH; [done|]. intros z Hz. apply Htrans. by right.
Qed.

Lemma insertSorted_comm (names : list MetricName) (a b : string) (s : list string) :
  ordersNames names -> a ∈ names -> b ∈ names -> (forall y, y ∈ s -> y ∈ names) ->
  insertSorted a (insertSorted b s) = insertSorted b (insertSorted a s).
Proof.
  intros (Htotal & Hanti & Htrans) Ha Hb Hs.
  destruct (decide (localeCompare a b <= 0)) as [Hab|Hab],
           (decide (localeCompare b a <= 0)) as [Hba|Hba].
  - by rewrite (Hanti a b).
  - apply insertSorted_comm_lt; [done|done|].
    intros y Hy Hby. apply (Htrans a b y); auto.
  - symmetry. apply insertSorted_comm_lt; [done|done|].
    intros y Hy Hay. apply (Htrans b a y); auto.
  - destruct (Htotal a b Ha Hb); done.
Qed.

Lemma sortByLocale_order_free (names l l' : list string) :
  ordersNames names -> l ≡ₚ l' -> (forall x, x ∈ l -> x ∈ names) ->
  sortByLocale l = sortByLocale l'.
Proof.
  intros Hord Hperm. induction Hperm as [|x l l' Hperm IH|x y l|l l' l'' H1 IH1 H2 IH2];
    intros Hin.
  - done.
  - unfold sortByLocale in *. simpl. rewrite IH; [done|].
    intros z Hz. apply Hin. by right.
  - unfold sortByLocale. simpl. eapply insertSorted_comm; [exact Hord| | |].
    + apply Hin. by left.
    + apply Hin. right. by left.
    + intros z Hz. apply Hin. right. right.
      by rewrite <- (sortByLocale_perm l).
  - rewrite IH1 by done. apply IH2. intros z Hz. apply Hin. by rewrite H1.
Qed.

(** X13. The cache key of a metric filter does not depend on the order in
    which the names are given, and neither does the filter: for names that
    [localeCompare] orders, two filters with the same names in another order
    get the same key and select the same metrics, so that the requests can
    share a cache entry.  The names of the key are those of the filter, each
    as often as it was given. *)
Theorem metric_names_key_ignores_order (names names' : list MetricName) :
  ordersNames names -> names ≡ₚ names' ->
  getMetricNamesKey (Some names) = getMetricNamesKey (Some names')
  /\ sortByLocale names ≡ₚ names
  /\ (forall aggregated,
        filterAggregatedMetrics aggregated (Some names)
        = filterAggregatedMetrics aggregated (Some names')).
Proof.
  intros Hord Hperm. split; [|split; [apply sortByLocale_perm|]].
  - destruct names as [|a names], names' as [|a' names'].
    + done.
    + by apply Permutation_nil_cons in Hperm.
    + symmetry in Hperm. by apply Permutation_nil_cons in Hperm.
    + unfold getMetricNamesKey.
      by rewrite (sortByLocale_order_free (a :: names) (a :: names) (a' :: names')).
  - intros aggregated. destruct names as [|a names], names' as [|a' names'].
    + done.
    + by apply Permutation_nil_cons in Hperm.
    + symmetry in Hperm. by apply Permutation_nil_cons in Hperm.
    + unfold filterAggregatedMetrics. f_equal.
      apply list_filter_iff. intros m. by rewrite Hperm.
Qed.

(** ** Reading the aggregates *)

(** X14. The metric filter keeps the metrics whose name is asked for, in
    their order, and leaves the rest of the aggregate alone; an absent filter
    and an empty one keep everything, they do not select nothing.  Filtering
    twice is filtering once. *)
Theorem filter_keeps_the_named_metrics (aggregated : FormattedAggregatedRatings)
    (metricNames : option (list MetricName)) :
  let filtered := filterAggregatedMetrics aggregated metricNames in
  (metricNames = None \/ metricNames = Some [] -> filtered = aggregated)
  /\ (forall names,
        metricNames = Some names -> names <> [] ->
        forall metric,
          metric ∈ f_metrics filtered
          <-> metric ∈ f_metrics aggregated /\ fm_metricName metric ∈ names)
  /\ f_metrics filtered `sublist_of` f_metrics aggregated
  /\ (f_subject filtered, f_courseNumber filtered, f_semester filtered,
      f_year filtered, f_classNumber filtered)
     = (f_subject aggregated, f_courseNumber aggregated, f_semester aggregated,
        f_year aggregated, f_classNumber aggregated)
  /\ filterAggregatedMetrics filtered metricNames = filtered.
Proof.
  intros filtered. subst filtered.
  split; [by intros [->| ->]|].
  split.
  { intros names -> Hne metric. destruct names as [|a names]; [done|].
    simpl. rewrite list_elem_of_filter. tauto. }
  destruct metricNames as [[|a names]|]; simpl;
    [done| |done].
  split; [apply sublist_filter|]. split; [done|].
  f_equal. rewrite list_filter_filter. apply list_filter_iff. tauto.
Qed.

Lemma getCourseId_found subject courseNumber w j course :
  list_find (courseOf subject courseNumber) (courses (db w)) = Some (j, course) ->
  getCourseId subject courseNumber w = (Ok (Some (co_courseId course)), w).
Proof.
  intros Hfind. unfold getCourseId, storageRead, bind. simpl. by rewrite Hfind.
Qed.

Lemma getCourseId_missing subject courseNumber w :
  list_find (courseOf subject courseNumber) (courses (db w)) = None ->
  getCourseId subject courseNumber w = (Ok None, w).
Proof.
  intros Hfind. unfold getCourseId, storageRead, bind. simpl. by rewrite Hfind.
Qed.

(** X15. A course that the catalogue does not know, or knows without an
    identifier, has no ratings: the read returns the aggregate without
    metrics for the subject and number asked, the count is 0, and neither
    touches a cache or anything else of the world. *)
Theorem unknown_course_has_no_ratings (subject courseNumber : string)
    (metricNames : option (list MetricName)) (w : World) :
  list_find (courseOf subject courseNumber) (courses (db w)) = None
  \/ (exists j course,
        list_find (courseOf subject courseNumber) (courses (db w))
        = Some (j, course)
        /\ co_courseId course = "") ->
  getCourseAggregatedRatings subject courseNumber metricNames w
  = (Ok (noRatings subject courseNumber), w)
  /\ getCourseRatingsCount subject courseNumber w = (Ok 0, w).
Proof.
  intros Hcourse.
  assert (forall names,
             getCourseAggregatedRatings subject courseNumber names w
             = (Ok (noRatings subject courseNumber), w)) as Hread.
  { intros names. unfold getCourseAggregatedRatings.
    destruct Hcourse as [Hnone|(j & course & Hfind & Hid)].
    - erewrite bind_Ok; [|by apply getCourseId_missing]. done.
    - erewrite bind_Ok; [|by eapply getCourseId_found]. cbv beta iota.
      by rewrite Hid. }
  split; [apply Hread|].
  unfold getCourseRatingsCount. erewrite bind_Ok; [|apply Hread]. done.
Qed.

Lemma getCachedValue_absent {T} (cache : CacheRef T) (key : string) (w : World) :
  cacheOf cache w !! key = None -> getCachedValue cache key w = (Ok None, w).
Proof.
  intros Hmiss. unfold getCachedValue, Map_get, bind. by rewrite Hmiss.
Qed.

Lemma courseAggregate_run subject courseNumber courseId metricNames w :
  exists fresh,
    courseAggregate subject courseNumber courseId metricNames w = (Ok fresh, w).
Proof. by eexists. Qed.

Lemma getCourseAggregatedRatings_miss subject courseNumber metricNames w j course
    fresh :
  list_find (courseOf subject courseNumber) (courses (db w)) = Some (j, course) ->
  truthy (co_courseId course) = true ->
  courseAggregatedRatingsCache w
    !! (co_courseId course +:+ ":" +:+ getMetricNamesKey metricNames) = None ->
  courseAggregate subject courseNumber (co_courseId course) metricNames w
  = (Ok fresh, w) ->
  getCourseAggregatedRatings subject courseNumber metricNames w
  = (Ok fresh,
     set_courseCache
       (<[co_courseId course +:+ ":" +:+ getMetricNamesKey metricNames
          := mkCacheEntry fresh (clock w + COURSE_AGGREGATED_RATINGS_TTL_MS)]>
          (courseAggregatedRatingsCache w)) w).
Proof.
  intros Hfind Htruthy Hmiss Hfresh. unfold getCourseAggregatedRatings.
  erewrite bind_Ok; [|by eapply getCourseId_found]. cbv beta iota.
  rewrite Htruthy. simpl.
  erewrite bind_Ok; [|by apply getCachedValue_absent]. cbv beta iota.
  erewrite bind_Ok; [|exact Hfresh]. reflexivity.
Qed.

(** X16. What a read of the course aggregate computes on a miss is what
    the following reads return: when the cache holds nothing for the key,
    the read computes the aggregate from the committed database and stores
    it, and any later read of the same key that finds that cache, up to two
    minutes later on the clock, returns the stored aggregate and changes
    nothing, whatever the ratings and the counters are by then. *)
Theorem aggregate_is_served_from_the_cache (subject courseNumber : string)
    (metricNames : option (list MetricName)) (w : World) (j : nat)
    (course : CourseDoc) :
  list_find (courseOf subject courseNumber) (courses (db w)) = Some (j, course) ->
  truthy (co_courseId course) = true ->
  courseAggregatedRatingsCache w
    !! (co_courseId course +:+ ":" +:+ getMetricNamesKey metricNames) = None ->
  exists fresh w1,
    courseAggregate subject courseNumber (co_courseId course) metricNames w
    = (Ok fresh, w)
    /\ getCourseAggregatedRatings subject courseNumber metricNames w
       = (Ok fresh, w1)
    /\ forall w2,
         courses (db w2) = courses (db w) ->
         courseAggregatedRatingsCache w2 = courseAggregatedRatingsCache w1 ->
         clock w2 <= clock w + COURSE_AGGREGATED_RATINGS_TTL_MS ->
         getCourseAggregatedRatings subject courseNumber metricNames w2
         = (Ok fresh, w2).
Proof.
  intros Hfind Htruthy Hmiss.
  destruct (courseAggregate_run subject courseNumber (co_courseId course)
              metricNames w) as [fresh Hfresh].
  eexists fresh, _. split; [exact Hfresh|].
  split; [by eapply getCourseAggregatedRatings_miss|].
  intros w2 Hcourses Hcache Hclock. simpl in Hcache.
  unfold getCourseAggregatedRatings.
  erewrite bind_Ok; [|eapply getCourseId_found; by rewrite Hcourses].
  cbv beta iota. rewrite Htruthy. simpl.
  rewrite (bind_Ok _ _ w2 (Some fresh) w2); [reflexivity|].
  rewrite (getCachedValue_hit courseAggregatedRatingsCacheRef _
             (mkCacheEntry fresh (clock w + COURSE_AGGREGATED_RATINGS_TTL_MS)));
    [done| |exact Hclock].
  simpl. by rewrite Hcache, lookup_insert_eq.
Qed.

Lemma prefix_app (p s : string) : String.prefix p (p +:+ s) = true.
Proof.
  induction p as [|a p IH]; [by destruct s|].
  change (String a p +:+ s) with (String a (p +:+ s)).
  rewrite prefix_cons. by destruct (Ascii.ascii_dec a a).
Qed.

Lemma prefix_key (a b k : string) :
  String.prefix (a +:+ b) (a +:+ b +:+ k) = true.
Proof.
  induction a as [|c a IH]; [exact (prefix_app b k)|].
  change (String c a +:+ b) with (String c (a +:+ b)).
  change (String c a +:+ b +:+ k) with (String c (a +:+ b +:+ k)).
  rewrite prefix_cons. by destruct (Ascii.ascii_dec c c).
Qed.

(** X17. A read after a submission sees the submission: when
    [createRating] has returned, the next read of the aggregate of the
    class's course, whatever the metric filter, finds no entry, computes the
    aggregate from the database as committed and stores it under the key. *)
Theorem read_after_submission_recomputes (context : RequestContext) (year : Z)
    (semester : Semester) (subject courseNumber classNumber : string)
    (metricName : MetricName) (value : Z) (w : World) (b : bool) (w' : World)
    (j i : nat) (classDoc : ClassDoc) (course : CourseDoc)
    (metricNames : option (list MetricName)) :
  createRating context year semester subject courseNumber classNumber metricName
    value w = (Ok b, w') ->
  list_find (classOf year semester subject courseNumber classNumber)
    (classes (db w)) = Some (j, classDoc) ->
  list_find (courseOf subject courseNumber) (courses (db w')) = Some (i, course) ->
  co_courseId course = cl_courseId classDoc ->
  truthy (co_courseId course) = true ->
  exists fresh,
    courseAggregate subject courseNumber (co_courseId course) metricNames w'
    = (Ok fresh, w')
    /\ getCourseAggregatedRatings subject courseNumber metricNames w'
       = (Ok fresh,
          set_courseCache
            (<[co_courseId course +:+ ":" +:+ getMetricNamesKey metricNames
               := mkCacheEntry fresh (clock w' + COURSE_AGGREGATED_RATINGS_TTL_MS)]>
               (courseAggregatedRatingsCache w')) w').
Proof.
  intros Hrun Hclass Hcourse Hid Htruthy.
  assert (purged (cl_courseId classDoc) w') as (Hpurged & _).
  { unfold createRating in Hrun.
    destruct (truthy (user_id context)); simpl in Hrun; [|discriminate].
    apply bind_inv_Ok in Hrun as (u1 & w1 & Hstep & Hrun).
    apply preserves_Ok in Hstep; [|auto with frame].
    apply bind_inv_Ok in Hrun as (classDoc' & w2 & Hclass' & Hrun).
    apply getClassDocument_Ok_inv in Hclass' as [j' Hclass'].
    rewrite Hstep, Hclass in Hclass'. injection Hclass' as _ <-.
    apply bind_inv_Ok in Hrun as (ur & w3 & _ & Hrun).
    apply bind_inv_Ok in Hrun as (u4 & w4 & _ & Hrun).
    apply bind_inv_Ok in Hrun as (s & w5 & _ & Hrun).
    apply bind_inv_Ok in Hrun as (u6 & w6 & _ & Hrun).
    apply invalidate_then_true_Ok_inv in Hrun as ->.
    apply purged_after_invalidation. }
  destruct (courseAggregate_run subject courseNumber (co_courseId course)
              metricNames w') as [fresh Hfresh].
  exists fresh. split; [exact Hfresh|].
  eapply getCourseAggregatedRatings_miss; [exact Hcourse|exact Htruthy| |exact Hfresh].
  apply Hpurged. rewrite Hid. apply prefix_key.
Qed.

Lemma getCachedValue_returns {T} (cache : CacheRef T) (key : string) (w : World) :
  exists v w', getCachedValue cache key w = (Ok v, w').
Proof.
  unfold getCachedValue, Map_get, Date_now, Map_delete, bind.
  destruct (cacheOf cache w !! key) as [e|]; [|by eexists _, _].
  destruct (clock w >? expiresAt e); by eexists _, _.
Qed.

Lemma getCourseAggregatedRatings_returns subject courseNumber metricNames w :
  exists formatted w',
    getCourseAggregatedRatings subject courseNumber metricNames w
    = (Ok formatted, w').
Proof.
  unfold getCourseAggregatedRatings.
  destruct (list_find (courseOf subject courseNumber) (courses (db w)))
    as [[j course]|] eqn:Hfind.
  - erewrite bind_Ok; [|by eapply getCourseId_found]. cbv beta iota.
    destruct (truthy (co_courseId course)); simpl; [|by eexists _, _].
    destruct (getCachedValue_returns courseAggregatedRatingsCacheRef
                (co_courseId course +:+ ":" +:+ getMetricNamesKey metricNames) w)
      as (v & w1 & Hget).
    erewrite bind_Ok; [|exact Hget]. destruct v; by eexists _, _.
  - erewrite bind_Ok; [|by apply getCourseId_missing]. by eexists _, _.
Qed.

Lemma max_of_counts (l : list Z) :
  0 <= foldr Z.max 0 l
  /\ Forall (fun x => x <= foldr Z.max 0 l) l
  /\ (foldr Z.max 0 l = 0 \/ foldr Z.max 0 l ∈ l).
Proof.
  induction l as [|x l (Hpos & Hall & Hmax)]; simpl.
  - split; [done|]. split; [done|]. by left.
  - split; [lia|]. split.
    + constructor; [lia|]. eapply Forall_impl; [exact Hall|]. simpl. lia.
    + destruct (Z.max_spec x (foldr Z.max 0 l)) as [[_ ->]|[_ ->]].
      * destruct Hmax as [?|?]; [by left|right; by right].
      * right. by left.
Qed.

(** X18. The ratings count of a course is the largest count among the
    metrics of its unfiltered aggregate, and 0 when that is larger: the call
    always returns, leaves the world as the read of the aggregate leaves it,
    and its result is not negative, bounds every metric's count and is 0 or
    the count of one of the metrics. *)
Theorem ratings_count_is_the_largest_count (subject courseNumber : string)
    (w : World) :
  exists formatted w' n,
    getCourseAggregatedRatings subject courseNumber None w = (Ok formatted, w')
    /\ getCourseRatingsCount subject courseNumber w = (Ok n, w')
    /\ 0 <= n
    /\ Forall (fun metric => fm_count metric <= n) (f_metrics formatted)
    /\ (n = 0 \/ exists metric, metric ∈ f_metrics formatted /\ fm_count metric = n).
Proof.
  destruct (getCourseAggregatedRatings_returns subject courseNumber None w)
    as (formatted & w' & Hread).
  exists formatted, w', (foldr Z.max 0 (fm_count <$> f_metrics formatted)).
  split; [exact Hread|].
  split; [unfold getCourseRatingsCount; by erewrite bind_Ok|].
  destruct (max_of_counts (fm_count <$> f_metrics formatted))
    as (Hpos & Hall & Hmax).
  split; [exact Hpos|]. split.
  - apply Forall_forall. intros metric Hin.
    apply (proj1 (Forall_forall _ _) Hall), list_elem_of_fmap. by exists metric.
  - destruct Hmax as [?|Hin]; [by left|right].
    apply list_elem_of_fmap in Hin as (metric & Hn & Hin). by exists metric.
Qed.

(** ** The scales of the metrics *)

Lemma scale_elem (b : bool) (metricName : MetricName) :
  metricName ∈ (filter (fun e : string * MetricConfig => isRating e.2 = b)
                  (map_to_list METRIC_MAPPINGS)).*1
  <-> exists c, METRIC_MAPPINGS !! metricName = Some c /\ isRating c = b.
Proof.
  rewrite list_elem_of_fmap. split.
  - intros ([m c] & -> & Hin). apply list_elem_of_filter in Hin as [Hb Hin].
    apply elem_of_map_to_list in Hin. by exists c.
  - intros (c & Hc & Hb). exists (metricName, c). split; [done|].
    apply list_elem_of_filter. split; [done|]. by apply elem_of_map_to_list.
Qed.

Lemma numberScaleMetrics_elem (metricName : MetricName) :
  metricName ∈ numberScaleMetrics
  <-> exists c, METRIC_MAPPINGS !! metricName = Some c /\ isRating c = true.
Proof. apply (scale_elem true). Qed.

Lemma booleanScaleMetrics_elem (metricName : MetricName) :
  metricName ∈ booleanScaleMetrics
  <-> exists c, METRIC_MAPPINGS !! metricName = Some c /\ isRating c = false.
Proof.
  unfold booleanScaleMetrics. rewrite <- (scale_elem false).
  erewrite (list_filter_iff _ (fun e : string * MetricConfig => isRating e.2 = false));
    [done|].
  intros [m c]. simpl. by destruct (isRating c).
Qed.

(** X19. The two scales split the metrics of [METRIC_MAPPINGS]: a metric is
    on the number scale when it is mapped as a rating, on the Boolean scale
    when it is mapped otherwise, and on neither when it is not mapped.  The
    first increment for a metric that is not mapped throws INVALID_ARGUMENT
    and creates no row. *)
Theorem unmapped_metric_is_rejected :
  (forall metricName,
      (metricName ∈ numberScaleMetrics
       <-> exists c, METRIC_MAPPINGS !! metricName = Some c /\ isRating c = true)
      /\ (metricName ∈ booleanScaleMetrics
          <-> exists c, METRIC_MAPPINGS !! metricName = Some c /\ isRating c = false))
  /\ (forall classId courseId year semester subject courseNumber classNumber
             metricName categoryValue session w,
        METRIC_MAPPINGS !! metricName = None ->
        Forall (fun m => ~ counterKey classId metricName categoryValue m)
          (aggregatedMetrics (sessionView session w)) ->
        exists e,
          handleCategoryCountChange classId courseId year semester subject
            courseNumber classNumber metricName categoryValue true session w
          = (Err e, w)
          /\ errorCode e = Some "INVALID_ARGUMENT"
          /\ errorKind e = Some InvalidArgument).
Proof.
  split.
  - intros metricName.
    split; [apply numberScaleMetrics_elem|apply booleanScaleMetrics_elem].
  - intros classId courseId year semester subject courseNumber classNumber
      metricName categoryValue session w Hnone Hrows.
    apply (list_find_None (counterKey classId metricName categoryValue)) in Hrows.
    exists (GraphQLError "Invalid metric name" "INVALID_ARGUMENT").
    split; [|by split].
    unfold handleCategoryCountChange, AggregatedMetricsModel_findOne, storageRead.
    unfold bind at 1. simpl. rewrite Hrows. unfold includes.
    rewrite !bool_decide_eq_false_2; [done| |].
    + intros (c & Hc & _)%booleanScaleMetrics_elem. congruence.
    + intros (c & Hc & _)%numberScaleMetrics_elem. congruence.
Qed.

(** ** Sessions *)

Lemma openSessions_storageWrite session (g : DB -> DB) :
  preserves openSessions (storageWrite session g).
Proof.
  intros w. unfold storageWrite, sessionStore, sessionView.
  destruct (faultIn w) as [[|n]|]; simpl; [done| |];
    by destruct session, (txn w).
Qed.

Lemma openSessions_invalidateRatingsCaches courseId :
  preserves openSessions (invalidateRatingsCaches courseId).
Proof. by intros w. Qed.

Lemma openSessions_AggregatedMetric_save i m session :
  preserves openSessions (AggregatedMetric_save i m session).
Proof. apply openSessions_storageWrite. Qed.

Lemma openSessions_AggregatedMetricsModel_create m session :
  preserves openSessions (AggregatedMetricsModel_create m session).
Proof. apply openSessions_storageWrite. Qed.

Lemma openSessions_RatingModel_create createdBy rd session :
  preserves openSessions (RatingModel_create createdBy rd session).
Proof. apply openSessions_storageWrite. Qed.

Lemma openSessions_RatingModel_deleteOne id session :
  preserves openSessions (RatingModel_deleteOne id session).
Proof. apply openSessions_storageWrite. Qed.

Lemma openSessions_RatingModel_updateOne id v session :
  preserves openSessions (RatingModel_updateOne id v session).
Proof. apply openSessions_storageWrite. Qed.

#[local] Hint Resolve openSessions_storageWrite openSessions_invalidateRatingsCaches
  openSessions_AggregatedMetric_save openSessions_AggregatedMetricsModel_create
  openSessions_RatingModel_create openSessions_RatingModel_deleteOne
  openSessions_RatingModel_updateOne : frame.

Lemma openSessions_handleCategoryCountChange classId courseId year semester
    subject courseNumber classNumber metricName categoryValue isIncrement session :
  preserves openSessions
    (handleCategoryCountChange classId courseId year semester subject
       courseNumber classNumber metricName categoryValue isIncrement session).
Proof. unfold handleCategoryCountChange. frame. Qed.

#[local] Hint Resolve openSessions_handleCategoryCountChange : frame.

Lemma openSessions_createNewRating context ratingData s :
  preserves openSessions (createNewRating context ratingData s).
Proof. unfold createNewRating, Promise_all2. frame. Qed.

Lemma openSessions_handleExistingRating existingRating newValue s :
  preserves openSessions (handleExistingRating existingRating newValue s).
Proof. unfold handleExistingRating, Promise_all2. frame. Qed.

Lemma openSessions_deleteRatingOperations context year semester subject
    courseNumber classNumber metricName s :
  preserves openSessions
    (deleteRatingOperations context year semester subject courseNumber
       classNumber metricName s).
Proof. unfold deleteRatingOperations, Promise_all2. frame. Qed.

Lemma openSessions_deleteExisting existingRating s :
  preserves openSessions (deleteExisting existingRating s).
Proof. unfold deleteExisting, Promise_all2. frame. Qed.

#[local] Hint Resolve openSessions_createNewRating
  openSessions_handleExistingRating openSessions_deleteRatingOperations
  openSessions_deleteExisting : frame.

Lemma openSessions_deleteRating_nested context year semester subject
    courseNumber classNumber metricName (s : ClientSession) :
  preserves openSessions
    (deleteRating context year semester subject courseNumber classNumber
       metricName (Some s)).
Proof. unfold deleteRating. frame. Qed.

#[local] Hint Resolve openSessions_deleteRating_nested : frame.

(** A session that is started around a transaction is ended, whether the
    transaction commits or aborts. *)
Lemma openSessions_session {A} (body : ClientSession -> M A) :
  (forall s, preserves openSessions (body s)) ->
  preserves openSessions
    (session <~ startSession ;;
     tryFinally (withTransaction session (body session)) (endSession session)).
Proof.
  intros Hbody w.
  unfold bind, startSession, tryFinally, withTransaction, endSession.
  specialize (Hbody (sessionsStarted w)
                (set_txn (Some (db (set_sessionsStarted (S (sessionsStarted w)) w)))
                   (set_sessionsStarted (S (sessionsStarted w)) w))).
  destruct (body _ _) as [[a|e] w1]; simpl in *;
    unfold openSessions in *; simpl in *; lia.
Qed.

Lemma openSessions_session_then {A B} (body : ClientSession -> M A)
    (k : ClientSession -> A -> M B) :
  (forall s, preserves openSessions (body s)) ->
  (forall s a, preserves openSessions (k s a)) ->
  preserves openSessions
    (session <~ startSession ;;
     bind (tryFinally (withTransaction session (body session)) (endSession session))
       (k session)).
Proof.
  intros Hbody Hk w.
  unfold bind, startSession, tryFinally, withTransaction, endSession.
  specialize (Hbody (sessionsStarted w)
                (set_txn (Some (db (set_sessionsStarted (S (sessionsStarted w)) w)))
                   (set_sessionsStarted (S (sessionsStarted w)) w))).
  destruct (body _ _) as [[a|e] w1]; simpl in *.
  - rewrite Hk. unfold openSessions in *. simpl in *. lia.
  - unfold openSessions in *. simpl in *. lia.
Qed.

Lemma openSessions_createRating_transaction context classId courseId year
    semester subject courseNumber classNumber metricName value s :
  preserves openSessions
    (createRating_transaction context classId courseId year semester subject
       courseNumber classNumber metricName value s).
Proof. unfold createRating_transaction, checkRatingExists. frame. Qed.

(** X20. No operation leaks a session: after each of the four mutating
    operations, whether it returned or threw and whatever the storage did,
    as many sessions have been ended as have been started. *)
Theorem every_session_is_ended :
  (forall context year semester subject courseNumber classNumber metricName
          value w,
      openSessions (createRating context year semester subject courseNumber
                      classNumber metricName value w).2 = openSessions w)
  /\ (forall context year semester subject courseNumber classNumber metrics w,
        openSessions (createRatings context year semester subject courseNumber
                        classNumber metrics w).2 = openSessions w)
  /\ (forall context year semester subject courseNumber classNumber metricName w,
        openSessions (deleteRating context year semester subject courseNumber
                        classNumber metricName None w).2 = openSessions w)
  /\ (forall context subject courseNumber w,
        openSessions (deleteRatings context subject courseNumber w).2
        = openSessions w).
Proof.
  split; [|split; [|split]].
  - intros context year semester subject courseNumber classNumber metricName
      value. change (preserves openSessions
                       (createRating context year semester subject courseNumber
                          classNumber metricName value)).
    unfold createRating. apply preserves_if; [frame|].
    apply preserves_bind; [frame|intros _].
    apply preserves_bind; [frame|intros classDoc].
    apply preserves_bind; [frame|intros ur].
    apply preserves_bind; [frame|intros _].
    apply (openSessions_session_then
             (fun s => createRating_transaction context (cl_id classDoc)
                         (cl_courseId classDoc) year semester subject courseNumber
                         classNumber metricName value s)
             (fun _ _ => invalidateRatingsCaches (cl_courseId classDoc) ;;; ret true)).
    + intros s. apply openSessions_createRating_transaction.
    + intros s a. frame.
  - intros context year semester subject courseNumber classNumber metrics.
    change (preserves openSessions
              (createRatings context year semester subject courseNumber
                 classNumber metrics)).
    unfold createRatings. apply preserves_if; [frame|].
    apply preserves_bind; [frame|intros _].
    apply preserves_bind; [frame|intros _].
    apply preserves_bind; [frame|intros classDoc].
    apply preserves_bind; [frame|intros ur].
    apply preserves_bind; [frame|intros _].
    apply preserves_bind; [frame|intros existingRatings].
    apply (openSessions_session_then
             (fun s =>
                forEach existingRatings (fun existingRating =>
                  deleteExisting existingRating s) ;;;
                forEach metrics (fun metric =>
                  Promise_all2
                    (RatingModel_create (user_id context)
                       (mkRatingData (cl_id classDoc) (cl_courseId classDoc) year
                          semester subject courseNumber classNumber
                          (mi_metricName metric) (mi_value metric)) (Some s))
                    (handleCategoryCountChange (cl_id classDoc)
                       (cl_courseId classDoc) year semester subject courseNumber
                       classNumber (mi_metricName metric) (mi_value metric) true
                       (Some s))))
             (fun _ _ => invalidateRatingsCaches (cl_courseId classDoc) ;;; ret true)).
    + intros s. unfold Promise_all2. frame.
    + intros s a. frame.
  - intros context year semester subject courseNumber classNumber metricName.
    change (preserves openSessions
              (deleteRating context year semester subject courseNumber
                 classNumber metricName None)).
    unfold deleteRating. apply preserves_if; [frame|].
    apply preserves_bind; [|frame].
    apply (openSessions_session
             (fun s =>
                deletedRating <~ deleteRatingOperations context year semester
                  subject courseNumber classNumber metricName s ;;
                ret (r_courseId deletedRating))).
    intros s. frame.
  - intros context subject courseNumber.
    change (preserves openSessions (deleteRatings context subject courseNumber)).
    unfold deleteRatings. apply preserves_if; [frame|].
    apply preserves_bind; [frame|intros existingRatings].
    apply preserves_if; [frame|].
    apply (openSessions_session_then
             (fun s => forEach existingRatings (fun existingRating =>
                         deleteExisting existingRating s))
             (fun _ _ =>
                forEach
                  (Set_of (filter (fun c => truthy c = true)
                             (r_courseId <$> existingRatings)))
                  invalidateRatingsCaches ;;; ret true)).
    + intros s. frame.
    + intros s a. frame.
Qed.

(** ** Submitting and withdrawing *)

Lemma deleteRating_run context year semester subject courseNumber classNumber
    metricName w i r k m :
  truthy (user_id context) = true ->
  list_find (ratedIn (user_id context) subject courseNumber semester year
               classNumber metricName) (ratings (db w)) = Some (i, r) ->
  list_find (counterKey (r_classId r) metricName (r_value r))
    (aggregatedMetrics (db w)) = Some (k, m) ->
  faultIn w = None ->
  exists w',
    deleteRating context year semester subject courseNumber classNumber
      metricName None w = (Ok true, w')
    /\ db w'
       = set_aggregatedMetrics
           (<[k := withCount (am_categoryCount m + -1) m]> (aggregatedMetrics (db w)))
           (set_ratings (deleteById (r_id r) (ratings (db w))) (db w)).
Proof.
  intros Hauth Hfind Hrow Hf.
  set (n := S (sessionsStarted w)).
  set (w1 := set_txn (Some (db w)) (set_sessionsStarted n w)).
  assert (inTx (db w) (db w) n w1) as Hw1 by done.
  destruct (inTx_write (sessionsStarted w)
              (fun d => set_ratings (deleteById (r_id r) (ratings d)) d)
              _ _ n w1 Hw1) as (w2 & Hdel & Hw2).
  destruct (inTx_adjust_existing (r_classId r) (r_courseId r) year semester
              subject courseNumber classNumber metricName (r_value r) false
              (sessionsStarted w) _ _ n w2 k m Hw2 Hrow) as (w3 & Hdec & Hw3).
  destruct Hw3 as (Hdb3 & Htxn3 & Hf3 & Hn3).
  set (d := set_aggregatedMetrics
              (<[k := withCount (am_categoryCount m + -1) m]> (aggregatedMetrics (db w)))
              (set_ratings (deleteById (r_id r) (ratings (db w))) (db w))) in *.
  set (wB := set_sessionsEnded (S (sessionsEnded w3)) (set_txn None (set_db d w3))).
  exists ((if truthy (r_courseId r) then invalidateRatingsCaches (r_courseId r)
           else ret tt) wB).2.
  split; [|by destruct (truthy (r_courseId r))].
  unfold deleteRating. rewrite Hauth. simpl.
  rewrite (bind_Ok _ _ w (r_courseId r) wB).
  - by destruct (truthy (r_courseId r)).
  - rewrite (bind_Ok _ _ w (sessionsStarted w) (set_sessionsStarted n w));
      [|reflexivity].
    unfold tryFinally.
    rewrite (withTransaction_commit _ _ _ (r_courseId r) w3 d); [reflexivity| |exact Htxn3].
    unfold deleteRatingOperations, RatingModel_findOne.
    rewrite (bind_Ok _ _ _ r w3); [reflexivity|].
    rewrite (bind_Ok _ _ _ (Some r) w1).
    + unfold Promise_all2, RatingModel_deleteOne.
      rewrite (bind_Ok _ _ _ tt w3); [reflexivity|].
      rewrite (bind_Ok _ _ _ tt w2); [exact Hdec|exact Hdel].
    + erewrite inTx_read_committed; [|exact Hw1]. by rewrite Hfind.
Qed.

Lemma deleteById_app_fresh (id : ObjectId) (l : list RatingType) (x : RatingType) :
  Forall (fun r => r_id r <> id) l -> r_id x = id ->
  deleteById id (l ++ [x]) = l.
Proof.
  intros Hl Hx. unfold deleteById.
  rewrite list_find_app_r by (by apply list_find_None).
  simpl. rewrite decide_True by done. simpl.
  by rewrite (delete_middle l [] x), app_nil_r.
Qed.

Lemma withCount_same (m : AggregatedMetric) : withCount (am_categoryCount m) m = m.
Proof. by destruct m. Qed.

Lemma withCount_twice (c1 c2 : Z) (m : AggregatedMetric) :
  withCount c2 (withCount c1 m) = withCount c2 m.
Proof. reflexivity. Qed.

(** The row that a first increment seeds for the target value, and what is
    left of the seeded rows when its count goes back to 0. *)
Lemma seededRows_target (rd : RatingData) (domain : list Z) :
  NoDup domain -> rd_value rd ∈ domain ->
  exists i m,
    list_find (counterKey (rd_classId rd) (rd_metricName rd) (rd_value rd))
      (seededRows rd domain) = Some (i, m)
    /\ am_categoryCount m = 1
    /\ <[i := withCount 0 m]> (seededRows rd domain) = emptyRows rd domain.
Proof.
  induction domain as [|v domain IH]; [by intros _ ?%elem_of_nil|].
  rewrite NoDup_cons. intros [Hv Hnd] Hin.
  unfold seededRows, emptyRows in *. rewrite !fmap_cons. cbn [list_find].
  destruct (decide (v = rd_value rd)) as [->|Hne].
  - rewrite decide_True by done. eexists 0%nat, _. split; [reflexivity|].
    rewrite Z.eqb_refl. split; [done|]. simpl. f_equal.
    apply list_fmap_ext. intros j x Hx.
    destruct (Z.eqb_spec x (rd_value rd)) as [->|]; [|done].
    exfalso. apply Hv. by eapply list_elem_of_lookup_2.
  - rewrite decide_False by (intros (_ & _ & ?); done).
    apply elem_of_cons in Hin as [?|Hin]; [congruence|].
    destruct (IH Hnd Hin) as (i & m & Hfind & Hcount & Hrest).
    rewrite Hfind. exists (S i), m. split; [done|]. split; [done|].
    simpl. rewrite Hrest. f_equal.
    destruct (Z.eqb_spec v (rd_value rd)); [congruence|done].
Qed.

(** An increment for a key followed by a decrement for it. *)
Lemma incremented_then_decremented rd domain l :
  NoDup domain -> rd_value rd ∈ domain ->
  exists k m,
    list_find (counterKey (rd_classId rd) (rd_metricName rd) (rd_value rd))
      (incremented rd domain l) = Some (k, m)
    /\ <[k := withCount (am_categoryCount m + -1) m]> (incremented rd domain l)
       = match list_find (counterKey (rd_classId rd) (rd_metricName rd)
                            (rd_value rd)) l with
         | Some _ => l
         | None => (l ++ emptyRows rd domain)%list
         end.
Proof.
  intros Hnd Hin. unfold incremented.
  destruct (list_find _ l) as [[j m0]|] eqn:Hfind.
  - pose proof Hfind as (Hj & Hkey & _)%list_find_Some.
    exists j, (withCount (am_categoryCount m0 + 1) m0). split.
    + rewrite (list_find_insert_key _ l j m0); [|done|apply withCount_key].
      rewrite Hfind. simpl. by rewrite decide_True.
    + rewrite list_insert_insert_eq, withCount_twice. simpl.
      replace (am_categoryCount m0 + 1 + -1) with (am_categoryCount m0) by lia.
      rewrite withCount_same. by apply list_insert_id.
  - destruct (seededRows_target rd domain Hnd Hin) as (i & m & Hseed & Hcount & Hrest).
    exists (i + length l)%nat, m. split.
    + rewrite list_find_app_r by done. by rewrite Hseed.
    + rewrite Hcount. change (1 + -1) with 0.
      replace (i + length l)%nat with (length l + i)%nat by lia.
      by rewrite insert_app_r, Hrest.
Qed.

(** X21. Submitting a first rating and deleting it again is a round trip.
    Under the conditions of a first submission, when no [_id] in use has
    reached the counter of fresh ids, [createRating] followed by
    [deleteRating] for the same term and metric both return [true], and
    afterwards the rating collection is what it was, one [_id] is spent, and
    every key counts what it counted before: the counter rows are unchanged
    when the key had a row, and are followed by the metric's range at
    count 0 when it had none. *)
Theorem vote_then_unvote_restores (context : RequestContext) (year : Z)
    (semester : Semester) (subject courseNumber classNumber : string)
    (metricName : MetricName) (value : Z) (w : World) (j : nat)
    (classDoc : ClassDoc) (domain : list Z) :
  truthy (user_id context) = true ->
  checkValueConstraint metricName value = Ok tt ->
  list_find (classOf year semester subject courseNumber classNumber)
    (classes (db w)) = Some (j, classDoc) ->
  checkUserMaxRatingsConstraint (userRatingsOf context (db w)) year semester
    subject courseNumber = Ok tt ->
  list_find (ratedBy (user_id context) subject courseNumber metricName)
    (ratings (db w)) = None ->
  (metricName ∈ numberScaleMetrics /\ domain = [1; 2; 3; 4; 5])
  \/ (metricName ∈ booleanScaleMetrics /\ domain = [0; 1]) ->
  value ∈ domain ->
  faultIn w = None ->
  Forall (fun r => r_id r < nextId (db w)) (ratings (db w)) ->
  let rd := mkRatingData (cl_id classDoc) (cl_courseId classDoc) year semester
              subject courseNumber classNumber metricName value in
  exists w1 w2,
    createRating context year semester subject courseNumber classNumber
      metricName value w = (Ok true, w1)
    /\ deleteRating context year semester subject courseNumber classNumber
         metricName None w1 = (Ok true, w2)
    /\ ratings (db w2) = ratings (db w)
    /\ nextId (db w2) = nextId (db w) + 1
    /\ aggregatedMetrics (db w2)
       = match list_find (counterKey (cl_id classDoc) metricName value)
                 (aggregatedMetrics (db w)) with
         | Some _ => aggregatedMetrics (db w)
         | None => (aggregatedMetrics (db w) ++ emptyRows rd domain)%list
         end
    /\ (forall c n v,
          default 0 (countAt c n v (aggregatedMetrics (db w2)))
          = default 0 (countAt c n v (aggregatedMetrics (db w)))).
Proof.
  intros Hauth Hvalue Hclass Hmax Hnone Hscale Hin Hf Hids rd.
  set (fresh := newRating (nextId (db w)) (user_id context) rd).
  set (n := S (sessionsStarted w)).
  set (w0 := set_txn (Some (db w)) (set_sessionsStarted n w)).
  assert (inTx (db w) (db w) n w0) as Hw0 by done.
  destruct (createNewRating_run context rd (sessionsStarted w) _ _ n w0 domain
              Hw0 Hscale) as (w3 & Hnew & Hw3).
  assert (createRating_transaction context (cl_id classDoc) (cl_courseId classDoc)
            year semester subject courseNumber classNumber metricName value
            (sessionsStarted w) w0 = (Ok tt, w3)) as Hbody.
  { unfold createRating_transaction, checkRatingExists, RatingModel_findOne.
    erewrite bind_Ok; [|by eapply inTx_read_committed].
    rewrite Hnone. exact Hnew. }
  destruct Hw3 as (Hdb3 & Htxn3 & Hf3 & Hn3).
  destruct (createRating_commits _ _ _ _ _ _ _ _ _ _ _ _ _
              Hauth Hvalue Hclass Hmax Hbody Htxn3)
    as (w1 & Hrun1 & Hdb1 & _ & Hf1).
  assert (NoDup domain) as Hnd.
  { destruct Hscale as [[_ ->]|[_ ->]];
      refine (bool_decide_unpack _ _); vm_compute; exact I. }
  destruct (incremented_then_decremented rd domain (aggregatedMetrics (db w))
              Hnd Hin) as (k & m & Hrow & Hback).
  assert (list_find (ratedIn (user_id context) subject courseNumber semester year
                       classNumber metricName) (ratings (db w1))
          = Some ((0 + length (ratings (db w)))%nat, fresh)) as Hfind.
  { rewrite Hdb1. simpl. rewrite list_find_app_r.
    - simpl. rewrite decide_True; [done|]. by repeat split.
    - apply list_find_None. apply list_find_None in Hnone.
      eapply Forall_impl; [exact Hnone|]. intros x Hx (? & ? & ? & _ & _ & _ & ?).
      apply Hx. by repeat split. }
  destruct (deleteRating_run context year semester subject courseNumber classNumber
              metricName w1 _ fresh k m Hauth Hfind) as (w2 & Hrun2 & Hdb2).
  { rewrite Hdb1. exact Hrow. }
  { by rewrite Hf1, Hf3. }
  exists w1, w2. split; [exact Hrun1|]. split; [exact Hrun2|].
  rewrite Hdb2, Hdb1. simpl.
  split.
  { apply deleteById_app_fresh; [|done].
    eapply Forall_impl; [exact Hids|]. simpl. intros x Hx. lia. }
  split; [done|].
  split; [exact Hback|].
  intros c n' v. rewrite Hback. simpl.
  destruct (list_find (counterKey (cl_id classDoc) metricName value)
              (aggregatedMetrics (db w))) as [[j0 m0]|] eqn:Hkey; [done|].
  unfold countAt.
  destruct (list_find (counterKey c n' v) (aggregatedMetrics (db w)))
    as [[j1 m1]|] eqn:Hother.
  - erewrite list_find_app_l; [|exact Hother]. done.
  - rewrite list_find_app_r by done. simpl.
    destruct (list_find (counterKey c n' v) (emptyRows rd domain))
      as [[j2 m2]|] eqn:Hempty; [|done].
    apply list_find_Some in Hempty as (Hj2 & _). simpl.
    apply list_elem_of_lookup_2 in Hj2. unfold emptyRows in Hj2.
    by apply list_elem_of_fmap in Hj2 as (x & -> & _).
Qed.

(** ** Instructors and semesters *)

Context `{!InstructorSide}.

Lemma collectInstructors_visits (sections : list SectionDoc) :
  collectInstructors sections
  = foldl (fun instructorMap visit => visitInstructor visit.1 visit.2 instructorMap)
      [] (visits sections).
Proof.
  unfold collectInstructors, visits. generalize (@nil (string * InstructorData)).
  induction sections as [|section sections IH]; intros m0; [done|].
  rewrite bind_cons, foldl_app. simpl. rewrite IH. f_equal.
  generalize m0. clear.
  induction (default [] (se_meetings section)) as [|meeting meetings IH];
    intros m0; [done|].
  rewrite bind_cons, foldl_app. simpl. rewrite IH. f_equal.
  by rewrite foldl_fmap.
Qed.

Lemma sameClass_eq (classInfo c : ClassInfo) :
  sameClass classInfo c = true <-> c = classInfo.
Proof.
  destruct classInfo as [s1 y1 n1], c as [s2 y2 n2]. unfold sameClass. simpl.
  rewrite !andb_true_iff, !String.eqb_eq, Z.eqb_eq.
  split; [by intros [[-> ->] ->]|by intros [= -> -> ->]].
Qed.

Lemma existsb_sameClass (classInfo : ClassInfo) (l : list ClassInfo) :
  existsb (sameClass classInfo) l = true <-> classInfo ∈ l.
Proof.
  induction l as [|c l IH]; simpl; [by rewrite elem_of_nil|].
  rewrite orb_true_iff, IH, sameClass_eq, elem_of_cons. split; intros [?|?]; auto.
Qed.

Lemma recordClass_classes (classInfo : ClassInfo) (data : InstructorData) :
  NoDup (id_classes data) ->
  NoDup (id_classes (recordClass classInfo data))
  /\ (forall c, c ∈ id_classes (recordClass classInfo data)
                <-> c ∈ id_classes data \/ c = classInfo)
  /\ id_givenName (recordClass classInfo data) = id_givenName data
  /\ id_familyName (recordClass classInfo data) = id_familyName data.
Proof.
  intros Hnd. unfold recordClass.
  destruct (existsb (sameClass classInfo) (id_classes data)) eqn:Hex.
  - apply existsb_sameClass in Hex. split; [done|]. split; [|done].
    intros c. split; [by left|]. by intros [?| ->].
  - assert (classInfo ∉ id_classes data) as Hnot.
    { intros Hin%existsb_sameClass. congruence. }
    simpl. split; [|split; [|done]].
    + apply NoDup_app. split; [done|]. split; [|apply NoDup_singleton].
      intros c Hc ->%list_elem_of_singleton. done.
    + intros c. by rewrite elem_of_app, list_elem_of_singleton.
Qed.

Lemma isPrimary_names (instructor : InstructorDoc) :
  isPrimary instructor = true ->
  in_givenName instructor = Some (default "" (in_givenName instructor))
  /\ in_familyName instructor = Some (default "" (in_familyName instructor)).
Proof.
  unfold isPrimary, truthyOpt.
  destruct (in_givenName instructor), (in_familyName instructor); simpl; try done.
  by rewrite andb_false_r.
Qed.

Lemma collected_visit (seen : list (SectionDoc * InstructorDoc))
    (instructorMap : list (string * InstructorData)) (section : SectionDoc)
    (instructor : InstructorDoc) :
  collected seen instructorMap ->
  collected (seen ++ [(section, instructor)])
    (visitInstructor section instructor instructorMap).
Proof.
  intros (Hkeys & Hdata & Hall). unfold visitInstructor.
  destruct (isPrimary instructor) eqn:Hprimary.
  2:{ split; [done|]. split.
      - intros key data Hin. destruct (Hdata key data Hin) as (Hnd & Hname & Hcls).
        split; [done|]. split.
        + destruct Hname as (visit & Hv & Hrest). exists visit.
          split; [apply elem_of_app; by left|done].
        + intros c. rewrite Hcls. split.
          * intros (visit & Hv & Hrest). exists visit.
            split; [apply elem_of_app; by left|done].
          * intros (visit & Hv & [Hp Hk] & Hc).
            apply elem_of_app in Hv as [Hv| ->%list_elem_of_singleton];
              [by exists visit|]. simpl in Hp. congruence.
      - intros visit Hv Hp.
        apply elem_of_app in Hv as [Hv| ->%list_elem_of_singleton];
          [by apply Hall|]. simpl in Hp. congruence. }
  set (key := instructorKey instructor).
  set (fresh := mkInstructorData (default "" (in_givenName instructor))
                  (default "" (in_familyName instructor)) []).
  set (m1 := if bool_decide (key ∈ instructorMap.*1) then instructorMap
             else (instructorMap ++ [(key, fresh)])%list).
  set (step := fun entry : string * InstructorData =>
                 if decide (entry.1 = key)
                 then (entry.1, recordClass (classInfoOf section) entry.2)
                 else entry).
  assert ((step <$> m1).*1 = m1.*1) as Hsame.
  { rewrite <- list_fmap_compose. apply list_fmap_ext. intros i entry _.
    unfold step. simpl. by destruct (decide (entry.1 = key)). }
  assert (key ∈ m1.*1) as Hkey.
  { unfold m1. case_bool_decide as Hin; [done|].
    rewrite fmap_app. apply elem_of_app. right. by left. }
  assert (NoDup m1.*1) as Hnd1.
  { unfold m1. case_bool_decide as Hin; [done|].
    rewrite fmap_app. apply NoDup_app. split; [done|].
    split; [|apply NoDup_singleton].
    intros k Hk ->%list_elem_of_singleton. done. }
  assert (forall k data, (k, data) ∈ m1 ->
            (k, data) ∈ instructorMap
            \/ ((key ∉ instructorMap.*1) /\ k = key /\ data = fresh)) as Hm1.
  { intros k data. unfold m1. case_bool_decide as Hin; [by left|].
    intros [?|[= -> ->]%list_elem_of_singleton]%elem_of_app; [by left|by right]. }
  split; [by rewrite Hsame|]. split.
  - intros k data' (entry & Heq & Hentry)%list_elem_of_fmap.
    destruct entry as [k0 data]. unfold step in Heq. simpl in Heq.
    destruct (decide (k0 = key)) as [->|Hne].
    + injection Heq as -> ->.
      destruct (recordClass_classes (classInfoOf section) data)
        as (Hnd' & Hcls' & Hgn & Hfn).
      { destruct (Hm1 _ _ Hentry) as [Hold|(_ & _ & ->)]; [|apply NoDup_nil_2].
        by destruct (Hdata _ _ Hold). }
      split; [exact Hnd'|]. rewrite Hgn, Hfn.
      destruct (Hm1 _ _ Hentry) as [Hold|(Hnew & _ & ->)].
      * destruct (Hdata _ _ Hold) as (_ & Hname & Hcls). split.
        { destruct Hname as (visit & Hv & Hrest). exists visit.
          split; [apply elem_of_app; by left|done]. }
        intros c. rewrite Hcls', Hcls. split.
        { intros [(visit & Hv & Hrest)| ->].
          - exists visit. split; [apply elem_of_app; by left|done].
          - exists (section, instructor).
            split; [apply elem_of_app; right; by left|]. by repeat split. }
        intros (visit & Hv & Hof & Hc).
        apply elem_of_app in Hv as [Hv| ->%list_elem_of_singleton];
          [left; by exists visit|by right].
      * destruct (isPrimary_names instructor Hprimary) as [Hg Hf]. split.
        { exists (section, instructor).
          split; [apply elem_of_app; right; by left|]. by repeat split. }
        intros c. rewrite Hcls'. simpl. split.
        { intros [[]%elem_of_nil| ->]. exists (section, instructor).
          split; [apply elem_of_app; right; by left|]. by repeat split. }
        intros (visit & Hv & [Hp Hk] & Hc).
        apply elem_of_app in Hv as [Hv| ->%list_elem_of_singleton]; [|by right].
        exfalso. apply Hnew. rewrite <- Hk. by apply Hall.
    + injection Heq as -> ->.
      destruct (Hm1 _ _ Hentry) as [Hold|(_ & ? & _)]; [|done].
      destruct (Hdata _ _ Hold) as (Hnd & Hname & Hcls).
      split; [done|]. split.
      * destruct Hname as (visit & Hv & Hrest). exists visit.
        split; [apply elem_of_app; by left|done].
      * intros c. rewrite Hcls. split.
        { intros (visit & Hv & Hrest). exists visit.
          split; [apply elem_of_app; by left|done]. }
        intros (visit & Hv & [Hp Hk] & Hc).
        apply elem_of_app in Hv as [Hv| ->%list_elem_of_singleton];
          [by exists visit|]. simpl in Hk. done.
  - intros visit Hv Hp. rewrite Hsame.
    apply elem_of_app in Hv as [Hv| ->%list_elem_of_singleton]; [|done].
    specialize (Hall visit Hv Hp). unfold m1. case_bool_decide; [done|].
    rewrite fmap_app. apply elem_of_app. by left.
Qed.

Lemma collected_all (seen : list (SectionDoc * InstructorDoc)) :
  collected seen
    (foldl (fun instructorMap visit => visitInstructor visit.1 visit.2 instructorMap)
       [] seen).
Proof.
  induction seen as [|[section instructor] seen IH] using rev_ind.
  - split; [apply NoDup_nil_2|]. split.
    + by intros key data ?%elem_of_nil.
    + by intros visit ?%elem_of_nil.
  - rewrite foldl_snoc. by apply collected_visit.
Qed.

Lemma instructors_collected (sections : list SectionDoc) :
  collected (visits sections) (collectInstructors sections).
Proof. rewrite collectInstructors_visits. apply collected_all. Qed.

(** X22. The instructor map lists each primary instructor once with the
    classes taught, each once.  Whatever the sections, the keys of the map
    that the three loops build are distinct; every entry carries the names of
    a visited instructor who is primary (both names there, role PI) and has
    the entry's key; its classes are without repetition and are exactly
    the classes of the sections in which a primary instructor with that key
    was visited; and every primary instructor visited has an entry. *)
Theorem instructors_are_collected_once (sections : list SectionDoc) :
  let instructorMap := collectInstructors sections in
  NoDup instructorMap.*1
  /\ (forall key data,
        (key, data) ∈ instructorMap ->
        NoDup (id_classes data)
        /\ (exists visit,
              visit ∈ visits sections /\ visitOf key visit
              /\ in_givenName visit.2 = Some (id_givenName data)
              /\ in_familyName visit.2 = Some (id_familyName data))
        /\ (forall c,
              c ∈ id_classes data
              <-> exists visit,
                    visit ∈ visits sections /\ visitOf key visit
                    /\ classInfoOf visit.1 = c))
  /\ (forall visit,
        visit ∈ visits sections -> isPrimary visit.2 = true ->
        instructorKey visit.2 ∈ instructorMap.*1).
Proof.
  intros instructorMap. subst instructorMap.
  rewrite collectInstructors_visits. apply collected_all.
Qed.

Lemma existsb_elem {A} (f : A -> bool) (l : list A) :
  existsb f l = true <-> exists x, x ∈ l /\ f x = true.
Proof.
  induction l as [|y l IH]; simpl.
  - split; [done|]. by intros (x & ?%elem_of_nil & _).
  - rewrite orb_true_iff, IH. split.
    + intros [Hy|(x & Hx & Hf)]; [exists y; split; [by left|done]|].
      exists x. split; [by right|done].
    + intros (x & [->|Hx]%elem_of_cons & Hf); [by left|right; by exists x].
Qed.

Lemma collectInstructors_key (sections : list SectionDoc) (key : string)
    (data : InstructorData) :
  (key, data) ∈ collectInstructors sections ->
  key = id_givenName data +:+ "_" +:+ id_familyName data.
Proof.
  rewrite collectInstructors_visits. intros Hin.
  destruct (collected_all (visits sections)) as (_ & Hdata & _).
  destruct (Hdata key data Hin) as (_ & (visit & _ & [_ <-] & Hg & Hf) & _).
  unfold instructorKey. by rewrite Hg, Hf.
Qed.

(** X23. What the instructor read computes on a miss.  For a course of the
    catalogue whose entry is not in the cache, [getInstructorAggregatedRatings]
    returns the instructors with ratings that it computes from the committed
    database and stores them for five minutes.  In that list no instructor
    occurs twice; each has a metric with a positive count, was given the
    aggregate of the classes listed, and teaches a class at least, none
    listed twice. *)
Theorem instructor_ratings_on_a_miss (subject courseNumber : string) (w : World)
    (j : nat) (course : CourseDoc) :
  list_find (courseOf subject courseNumber) (courses (db w)) = Some (j, course) ->
  truthy (co_courseId course) = true ->
  instructorAggregatedRatingsCache w !! co_courseId course = None ->
  let listed := instructorsWithRatings (db w) (co_courseId course) in
  getInstructorAggregatedRatings subject courseNumber w
  = (Ok (instructorArray listed),
     set_instructorCache
       (<[co_courseId course
          := mkCacheEntry (instructorArray listed)
               (clock w + INSTRUCTOR_RATINGS_TTL_MS)]>
          (instructorAggregatedRatingsCache w)) w)
  /\ NoDup (ir_instructor <$> listed)
  /\ Forall (fun rating =>
               (exists metric,
                   metric ∈ f_metrics (ir_aggregatedRatings rating)
                   /\ 0 < fm_count metric)
               /\ ir_aggregatedRatings rating
                  = formatAggregatedRatings
                      (instructorRatingsAggregator (db w) (co_courseId course)
                         (ir_classesTaught rating))
               /\ NoDup (ir_classesTaught rating)
               /\ ir_classesTaught rating <> []) listed.
Proof.
  intros Hfind Htruthy Hmiss listed. split; [|split].
  - unfold getInstructorAggregatedRatings.
    erewrite bind_Ok; [|by eapply getCourseId_found]. cbv beta iota.
    rewrite Htruthy. simpl.
    erewrite bind_Ok;
      [|by apply (getCachedValue_absent instructorAggregatedRatingsCacheRef)].
    reflexivity.
  - subst listed. unfold instructorsWithRatings.
    set (instructorMap := collectInstructors (SectionModel_find (db w) (co_courseId course))).
    eapply sublist_NoDup; [|apply fmap_sublist, sublist_filter].
    assert (NoDup ((fun entry : string * InstructorData =>
                      mkInstructorName (id_givenName entry.2) (id_familyName entry.2))
                     <$> instructorMap)) as Hnames.
    { apply (NoDup_fmap_1 (fun name => givenName name +:+ "_" +:+ familyName name)).
      rewrite <- list_fmap_compose.
      destruct (instructors_collected (SectionModel_find (db w) (co_courseId course)))
        as [Hkeys _].
      erewrite list_fmap_ext; [exact Hkeys|].
      intros i [key data] Hi. simpl. symmetry.
      apply (collectInstructors_key (SectionModel_find (db w) (co_courseId course))).
      by eapply list_elem_of_lookup_2. }
    by rewrite <- !list_fmap_compose.
  - subst listed. unfold instructorsWithRatings.
    apply Forall_forall. intros rating [Hhas Hin]%list_elem_of_filter.
    apply list_elem_of_fmap in Hin as (data & -> & Hin).
    apply list_elem_of_fmap in Hin as ([key data'] & -> & Hin). simpl in *.
    destruct (instructors_collected (SectionModel_find (db w) (co_courseId course)))
      as (_ & Hdata & _).
    destruct (Hdata key data' Hin) as (Hnd & (visit & Hv & Hof & _) & Hcls).
    split; [|split; [done|split; [done|]]].
    + unfold hasRatings in Hhas. simpl in Hhas.
      apply existsb_elem in Hhas as (metric & Hm & Hpos).
      exists metric. split; [done|lia].
    + intros Hnil. assert (classInfoOf visit.1 ∈ id_classes data') as Hc
        by (apply Hcls; by exists visit).
      rewrite Hnil in Hc. by apply elem_of_nil in Hc.
Qed.

(** X24. The semesters of a course are read through their cache, as the
    instructors are.  For a course that the catalogue does not know, or knows
    without an identifier, both reads return the empty array and touch
    nothing.  For a course of the catalogue, an entry that has not expired
    answers the read, which changes nothing; when there is no entry,
    [getSemestersWithRatings] formats what the aggregation finds in the
    committed database, stores it for five minutes and returns it. *)
Theorem semesters_are_read_through (subject courseNumber : string) (w : World) :
  (list_find (courseOf subject courseNumber) (courses (db w)) = None
   \/ (exists j course,
         list_find (courseOf subject courseNumber) (courses (db w))
         = Some (j, course)
         /\ co_courseId course = "") ->
   getSemestersWithRatings subject courseNumber w = (Ok semesterArray_empty, w)
   /\ getInstructorAggregatedRatings subject courseNumber w
      = (Ok (instructorArray []), w))
  /\ (forall j course,
        list_find (courseOf subject courseNumber) (courses (db w))
        = Some (j, course) ->
        truthy (co_courseId course) = true ->
        (forall entry,
            semestersWithRatingsCache w !! co_courseId course = Some entry ->
            clock w <= expiresAt entry ->
            getSemestersWithRatings subject courseNumber w = (Ok (value entry), w))
        /\ (forall entry,
              instructorAggregatedRatingsCache w !! co_courseId course = Some entry ->
              clock w <= expiresAt entry ->
              getInstructorAggregatedRatings subject courseNumber w
              = (Ok (value entry), w))
        /\ (semestersWithRatingsCache w !! co_courseId course = None ->
            let fresh :=
              formatSemesterRatings
                (semestersWithRatingsAggregator (db w) (co_courseId course)) in
            getSemestersWithRatings subject courseNumber w
            = (Ok fresh,
               set_semestersCache
                 (<[co_courseId course
                    := mkCacheEntry fresh (clock w + SEMESTER_RATINGS_TTL_MS)]>
                    (semestersWithRatingsCache w)) w))).
Proof.
  split.
  - intros Hcourse.
    unfold getSemestersWithRatings, getInstructorAggregatedRatings.
    destruct Hcourse as [Hnone|(j & course & Hfind & Hid)].
    + erewrite !bind_Ok; [|by apply getCourseId_missing..]. done.
    + erewrite !bind_Ok; [|by eapply getCourseId_found..]. cbv beta iota.
      by rewrite Hid.
  - intros j course Hfind Htruthy. split; [|split].
    + intros entry Hentry Hlive. unfold getSemestersWithRatings.
      erewrite bind_Ok; [|by eapply getCourseId_found]. cbv beta iota.
      rewrite Htruthy. simpl.
      rewrite (bind_Ok _ _ w (Some (value entry)) w); [done|].
      by apply (getCachedValue_hit semestersWithRatingsCacheRef).
    + intros entry Hentry Hlive. unfold getInstructorAggregatedRatings.
      erewrite bind_Ok; [|by eapply getCourseId_found]. cbv beta iota.
      rewrite Htruthy. simpl.
      rewrite (bind_Ok _ _ w (Some (value entry)) w); [done|].
      by apply (getCachedValue_hit instructorAggregatedRatingsCacheRef).
    + intros Hmiss fresh. unfold getSemestersWithRatings.
      erewrite bind_Ok; [|by eapply getCourseId_found]. cbv beta iota.
      rewrite Htruthy. simpl.
      erewrite bind_Ok;
        [|by apply (getCachedValue_absent semestersWithRatingsCacheRef)].
      reflexivity.
Qed.

(** ** One vote per user, course and metric *)

Lemma createNewRating_Ok_inv context rd (s : ClientSession) w w' d :
  txn w = Some d ->
  createNewRating context rd s w = (Ok tt, w') ->
  db w' = db w
  /\ exists l',
      txn w'
      = Some (set_aggregatedMetrics l'
                (set_nextId (nextId d + 1)
                   (set_ratings
                      (ratings d ++ [newRating (nextId d) (user_id context) rd]) d))).
Proof.
  intros Ht Hrun. unfold createNewRating, Promise_all2 in Hrun.
  apply bind_inv_Ok in Hrun as ([] & w1 & Hcreate & Hcount).
  apply (storageWrite_Ok_inv _ _ _ _ d Ht) in Hcreate as [Ht1 Hdb1].
  apply (handleCategoryCountChange_Ok_inv _ _ _ _ _ _ _ _ _ _ _ _ _ _ Ht1)
    in Hcount as (Hdb' & l' & Ht' & _).
  split; [congruence|]. by exists l'.
Qed.

Lemma deleteRating_nested_Ok_inv context year semester subject courseNumber
    classNumber metricName (s : ClientSession) w w' d b :
  txn w = Some d ->
  deleteRating context year semester subject courseNumber classNumber metricName
    (Some s) w = (Ok b, w') ->
  db w' = db w
  /\ exists i r l',
      list_find (ratedIn (user_id context) subject courseNumber semester year
                   classNumber metricName) (ratings (db w)) = Some (i, r)
      /\ txn w'
         = Some (set_aggregatedMetrics l'
                   (set_ratings (deleteById (r_id r) (ratings d)) d)).
Proof.
  intros Ht Hrun. unfold deleteRating in Hrun.
  destruct (truthy (user_id context)); simpl in Hrun; [|discriminate].
  apply bind_inv_Ok in Hrun as (c & w1 & Hops & Hrun).
  apply bind_inv_Ok in Hops as (r & w2 & Hops & Hret). injection Hret as <- <-.
  apply bind_inv_Ok in Hrun as ([] & w3 & Hinv & Hret). injection Hret as _ <-.
  assert (db w3 = db w2 /\ txn w3 = txn w2) as [Hdb3 Ht3].
  { destruct (truthy (r_courseId r)); [|by injection Hinv as <-].
    destruct (invalidation_frame (r_courseId r) w2) as (w4 & Hrun4 & Hdb4 & Ht4).
    rewrite Hrun4 in Hinv. by injection Hinv as <-. }
  unfold deleteRatingOperations in Hops.
  apply bind_inv_Ok in Hops as (found & w4 & Hfind & Hops).
  unfold RatingModel_findOne, storageRead in Hfind. simpl in Hfind.
  injection Hfind as <- <-.
  destruct (list_find _ (ratings (db w))) as [[i r0]|] eqn:Hfound;
    simpl in Hops; [|discriminate].
  apply bind_inv_Ok in Hops as ([] & w5 & Hpair & Hret). injection Hret as <- <-.
  unfold Promise_all2 in Hpair.
  apply bind_inv_Ok in Hpair as ([] & w6 & Hdel & Hcount).
  apply (storageWrite_Ok_inv _ _ _ _ d Ht) in Hdel as [Ht6 Hdb6].
  apply (handleCategoryCountChange_Ok_inv _ _ _ _ _ _ _ _ _ _ _ _ _ _ Ht6)
    in Hcount as (Hdb5 & l' & Ht5 & _).
  split; [congruence|]. exists i, r0, l'. split; [done|]. congruence.
Qed.

Lemma set_ratings_same d : set_ratings (ratings d) d = d.
Proof. by destruct d. Qed.

Lemma handleExistingRating_Ok_inv (r : RatingType) (newValue : Z)
    (s : ClientSession) w w' d :
  txn w = Some d ->
  handleExistingRating r newValue s w = (Ok tt, w') ->
  db w' = db w
  /\ exists l',
      txn w'
      = Some (set_aggregatedMetrics l'
                (set_ratings
                   (if r_value r =? newValue then ratings d
                    else updateById (r_id r) newValue (ratings d)) d)).
Proof.
  intros Ht Hrun. unfold handleExistingRating in Hrun.
  destruct (r_value r =? newValue).
  - injection Hrun as <-. split; [done|]. exists (aggregatedMetrics d).
    by rewrite set_ratings_same, set_aggregatedMetrics_same.
  - unfold Promise_all2 in Hrun.
    apply bind_inv_Ok in Hrun as ([] & w1 & Hupd & Hrun).
    apply (storageWrite_Ok_inv _ _ _ _ d Ht) in Hupd as [Ht1 Hdb1].
    apply bind_inv_Ok in Hrun as ([] & w2 & Hdec & Hinc).
    apply (handleCategoryCountChange_Ok_inv _ _ _ _ _ _ _ _ _ _ _ _ _ _ Ht1)
      in Hdec as (Hdb2 & l2 & Ht2 & _).
    apply (handleCategoryCountChange_Ok_inv _ _ _ _ _ _ _ _ _ _ _ _ _ _ Ht2)
      in Hinc as (Hdb3 & l3 & Ht3 & _).
    split; [congruence|]. by exists l3.
Qed.

Lemma withValue_same (r : RatingType) : withValue (r_value r) r = r.
Proof. by destruct r. Qed.

Lemma createRating_transaction_Ok_inv context classId courseId year semester
    subject courseNumber classNumber metricName value (s : ClientSession) w w' :
  txn w = Some (db w) -> NoDup (r_id <$> ratings (db w)) ->
  createRating_transaction context classId courseId year semester subject
    courseNumber classNumber metricName value s w = (Ok tt, w') ->
  let fresh :=
    newRating (nextId (db w)) (user_id context)
      (mkRatingData classId courseId year semester subject courseNumber
         classNumber metricName value) in
  exists d',
    txn w' = Some d' /\ classes d' = classes (db w)
    /\ ((list_find (ratedBy (user_id context) subject courseNumber metricName)
           (ratings (db w)) = None
         /\ ratings d' = (ratings (db w) ++ [fresh])%list
         /\ nextId d' = nextId (db w) + 1)
        \/ (exists i r,
              list_find (ratedBy (user_id context) subject courseNumber metricName)
                (ratings (db w)) = Some (i, r)
              /\ (r_semester r <> semester \/ r_year r <> year
                  \/ r_classNumber r <> classNumber)
              /\ ratings d' = (delete i (ratings (db w)) ++ [fresh])%list
              /\ nextId d' = nextId (db w) + 1)
        \/ (exists i r,
              list_find (ratedBy (user_id context) subject courseNumber metricName)
                (ratings (db w)) = Some (i, r)
              /\ r_semester r = semester /\ r_year r = year
              /\ r_classNumber r = classNumber
              /\ ratings d' = <[i := withValue value r]> (ratings (db w))
              /\ nextId d' = nextId (db w))).
Proof.
  intros Ht Hnd Hrun fresh. unfold createRating_transaction in Hrun.
  apply bind_inv_Ok in Hrun as (existing & w1 & Hfind & Hrun).
  unfold checkRatingExists, RatingModel_findOne, storageRead in Hfind.
  simpl in Hfind. injection Hfind as <- <-.
  destruct (list_find _ (ratings (db w))) as [[i r]|] eqn:Hfound; simpl in Hrun.
  - pose proof Hfound as (Hi & Hby & _)%list_find_Some.
    destruct Hby as (Hu & Hsub & Hcn & Hmet).
    destruct (String.eqb_spec (r_semester r) semester) as [Hsem|Hsem];
      [destruct (Z.eqb_spec (r_year r) year) as [Hyear|Hyear];
       [destruct (String.eqb_spec (r_classNumber r) classNumber) as [Hnum|Hnum]|]|];
      simpl in Hrun.
    + apply (handleExistingRating_Ok_inv _ _ _ _ _ _ Ht) in Hrun
        as (_ & l' & Ht').
      eexists. split; [exact Ht'|]. split; [done|]. right. right.
      exists i, r. split; [done|]. do 3 (split; [done|]). simpl. split; [|done].
      destruct (Z.eqb_spec (r_value r) value) as [<-|_].
      * by rewrite withValue_same, list_insert_id.
      * by apply updateById_unique.
    + apply bind_inv_Ok in Hrun as (b & w2 & Hdel & Hnew).
      apply (deleteRating_nested_Ok_inv _ _ _ _ _ _ _ _ _ _ _ _ Ht) in Hdel
        as (Hdb2 & i' & r' & l2 & Hfound' & Ht2).
      rewrite (list_find_stronger _ _ _ i r Hfound) in Hfound'.
      * injection Hfound' as <- <-.
        apply (createNewRating_Ok_inv _ _ _ _ _ _ Ht2) in Hnew as (_ & l3 & Ht3).
        eexists. split; [exact Ht3|]. split; [done|]. right. left.
        exists i, r. split; [done|]. split; [by right; right|]. simpl.
        by rewrite (deleteById_unique _ i r Hnd Hi).
      * by repeat split.
      * intros y (? & ? & ? & _ & _ & _ & ?). repeat split; congruence.
    + apply bind_inv_Ok in Hrun as (b & w2 & Hdel & Hnew).
      apply (deleteRating_nested_Ok_inv _ _ _ _ _ _ _ _ _ _ _ _ Ht) in Hdel
        as (Hdb2 & i' & r' & l2 & Hfound' & Ht2).
      rewrite (list_find_stronger _ _ _ i r Hfound) in Hfound'.
      * injection Hfound' as <- <-.
        apply (createNewRating_Ok_inv _ _ _ _ _ _ Ht2) in Hnew as (_ & l3 & Ht3).
        eexists. split; [exact Ht3|]. split; [done|]. right. left.
        exists i, r. split; [done|]. split; [by right; left|]. simpl.
        by rewrite (deleteById_unique _ i r Hnd Hi).
      * by repeat split.
      * intros y (? & ? & ? & _ & _ & _ & ?). repeat split; congruence.
    + apply bind_inv_Ok in Hrun as (b & w2 & Hdel & Hnew).
      apply (deleteRating_nested_Ok_inv _ _ _ _ _ _ _ _ _ _ _ _ Ht) in Hdel
        as (Hdb2 & i' & r' & l2 & Hfound' & Ht2).
      rewrite (list_find_stronger _ _ _ i r Hfound) in Hfound'.
      * injection Hfound' as <- <-.
        apply (createNewRating_Ok_inv _ _ _ _ _ _ Ht2) in Hnew as (_ & l3 & Ht3).
        eexists. split; [exact Ht3|]. split; [done|]. right. left.
        exists i, r. split; [done|]. split; [by left|]. simpl.
        by rewrite (deleteById_unique _ i r Hnd Hi).
      * by repeat split.
      * intros y (? & ? & ? & _ & _ & _ & ?). repeat split; congruence.
  - apply (createNewRating_Ok_inv _ _ _ _ _ _ Ht) in Hrun as (_ & l' & Ht').
    eexists. split; [exact Ht'|]. split; [done|]. by left.
Qed.

Lemma createRating_Ok_inv context year semester subject courseNumber classNumber
    metricName value w b w' :
  NoDup (r_id <$> ratings (db w)) ->
  createRating context year semester subject courseNumber classNumber metricName
    value w = (Ok b, w') ->
  exists j classDoc,
    list_find (classOf year semester subject courseNumber classNumber)
      (classes (db w)) = Some (j, classDoc)
    /\ classes (db w') = classes (db w)
    /\ let fresh :=
         newRating (nextId (db w)) (user_id context)
           (mkRatingData (cl_id classDoc) (cl_courseId classDoc) year semester
              subject courseNumber classNumber metricName value) in
       (list_find (ratedBy (user_id context) subject courseNumber metricName)
          (ratings (db w)) = None
        /\ ratings (db w') = (ratings (db w) ++ [fresh])%list
        /\ nextId (db w') = nextId (db w) + 1)
       \/ (exists i r,
             list_find (ratedBy (user_id context) subject courseNumber metricName)
               (ratings (db w)) = Some (i, r)
             /\ (r_semester r <> semester \/ r_year r <> year
                 \/ r_classNumber r <> classNumber)
             /\ ratings (db w') = (delete i (ratings (db w)) ++ [fresh])%list
             /\ nextId (db w') = nextId (db w) + 1)
       \/ (exists i r,
             list_find (ratedBy (user_id context) subject courseNumber metricName)
               (ratings (db w)) = Some (i, r)
             /\ r_semester r = semester /\ r_year r = year
             /\ r_classNumber r = classNumber
             /\ ratings (db w') = <[i := withValue value r]> (ratings (db w))
             /\ nextId (db w') = nextId (db w)).
Proof.
  intros Hnd Hrun. unfold createRating in Hrun.
  destruct (truthy (user_id context)); simpl in Hrun; [|discriminate].
  apply bind_inv_Ok in Hrun as (u1 & w1 & Hstep & Hrun).
  apply preserves_Ok in Hstep; [|auto with frame].
  apply bind_inv_Ok in Hrun as (classDoc & w2 & Hclass & Hrun).
  pose proof Hclass as [j Hj]%getClassDocument_Ok_inv. rewrite Hstep in Hj.
  apply preserves_Ok in Hclass; [|auto with frame].
  apply bind_inv_Ok in Hrun as (ur & w3 & Hur & Hrun).
  apply preserves_Ok in Hur; [|auto with frame].
  apply bind_inv_Ok in Hrun as (u4 & w4 & Hmax & Hrun).
  apply preserves_Ok in Hmax; [|auto with frame].
  apply bind_inv_Ok in Hrun as (s & w5 & Hs & Hrun).
  apply preserves_Ok in Hs; [|auto with frame].
  apply bind_inv_Ok in Hrun as ([] & w6 & Htx & Hrun).
  apply invalidate_then_true_Ok_inv in Hrun as ->.
  assert (db w5 = db w) as Hdb5 by congruence.
  apply transaction_Ok_inv in Htx as (wb & Hbody & Hdb6).
  apply createRating_transaction_Ok_inv in Hbody
    as (d' & Ht' & Hcls & Hshape); [|done|simpl; by rewrite Hdb5].
  simpl in Hcls, Hshape. rewrite Hdb5 in Hcls, Hshape.
  assert (db (invalidateRatingsCaches (cl_courseId classDoc) w6).2 = d') as ->.
  { simpl. rewrite Hdb6. unfold sessionView. by rewrite Ht'. }
  by exists j, classDoc.
Qed.

(** X25. What a submission that returns has done to the rating collection
    is decided by the first rating that the user holds for the course and
    metric.  When there is none, a rating is appended under the next [_id].
    When it is of another term (semester, year or class number differs), it
    is removed and a rating is appended under the next [_id].  When it is of
    the same term, it takes the submitted value where it stands and no
    [_id] is consumed.  Ids are taken to be unique. *)
Theorem submission_does_one_of_three_things (context : RequestContext)
    (year : Z) (semester : Semester) (subject courseNumber classNumber : string)
    (metricName : MetricName) (value : Z) (w : World) (b : bool) (w' : World) :
  NoDup (r_id <$> ratings (db w)) ->
  createRating context year semester subject courseNumber classNumber metricName
    value w = (Ok b, w') ->
  exists j classDoc,
    list_find (classOf year semester subject courseNumber classNumber)
      (classes (db w)) = Some (j, classDoc)
    /\ let fresh :=
         newRating (nextId (db w)) (user_id context)
           (mkRatingData (cl_id classDoc) (cl_courseId classDoc) year semester
              subject courseNumber classNumber metricName value) in
       (ratings (db w'), nextId (db w'))
       = match list_find (ratedBy (user_id context) subject courseNumber metricName)
                 (ratings (db w)) with
         | None => ((ratings (db w) ++ [fresh])%list, nextId (db w) + 1)
         | Some (i, r) =>
             if negb (String.eqb (r_semester r) semester)
                || negb (r_year r =? year)
                || negb (String.eqb (r_classNumber r) classNumber)
             then ((delete i (ratings (db w)) ++ [fresh])%list, nextId (db w) + 1)
             else (<[i := withValue value r]> (ratings (db w)), nextId (db w))
         end.
Proof.
  intros Hnd Hrun.
  destruct (createRating_Ok_inv _ _ _ _ _ _ _ _ _ _ _ Hnd Hrun)
    as (j & classDoc & Hj & _ & Hshape).
  exists j, classDoc. split; [exact Hj|]. simpl in *.
  destruct Hshape as [(-> & -> & ->)
                     |[(i & r & -> & Hdiff & -> & ->)
                      |(i & r & -> & Hsem & Hyear & Hnum & -> & ->)]].
  - done.
  - by rewrite term_differs.
  - rewrite Hsem, Hyear, Hnum.
    by rewrite String.eqb_refl, Z.eqb_refl, String.eqb_refl.
Qed.

Lemma NoDup_fmap_delete_lookup {A B} (f : A -> B) (l : list A) (i : nat) (x : A) :
  NoDup (f <$> l) -> l !! i = Some x -> f x ∉ f <$> delete i l.
Proof.
  intros Hnd Hi. rewrite <- (take_drop_middle l i x Hi) in Hnd.
  rewrite fmap_app, fmap_cons in Hnd.
  apply NoDup_app in Hnd as (_ & Hleft & Hright%NoDup_cons).
  rewrite delete_take_drop, fmap_app. intros [Hin|Hin]%elem_of_app.
  - apply (Hleft _ Hin). by left.
  - by destruct Hright.
Qed.

Lemma orderlyRatings_sublist classes next (l l' : list RatingType) :
  orderlyRatings classes next l -> l' `sublist_of` l ->
  orderlyRatings classes next l'.
Proof.
  intros (Hids & Hlt & Hkeys & Hoff) Hsub. split; [|split; [|split]].
  - eapply sublist_NoDup; [exact Hids|by apply fmap_sublist].
  - apply Forall_forall. intros x Hx. rewrite Forall_forall in Hlt.
    apply Hlt. by eapply elem_of_sublist.
  - eapply sublist_NoDup; [exact Hkeys|by apply fmap_sublist].
  - apply Forall_forall. intros x Hx. rewrite Forall_forall in Hoff.
    apply Hoff. by eapply elem_of_sublist.
Qed.

Lemma orderlyRatings_snoc classes next (l : list RatingType) (x : RatingType) :
  orderlyRatings classes next l -> r_id x = next ->
  voteKey x ∉ voteKey <$> l -> offered classes x ->
  orderlyRatings classes (next + 1) (l ++ [x]).
Proof.
  intros (Hids & Hlt & Hkeys & Hoff) Hid Hkey Hx. split; [|split; [|split]].
  - rewrite fmap_app. apply NoDup_app. split; [done|].
    split; [|apply NoDup_singleton].
    intros id (r & -> & Hr)%list_elem_of_fmap Heq%list_elem_of_singleton.
    rewrite Forall_forall in Hlt. specialize (Hlt r Hr). simpl in Hlt. lia.
  - apply Forall_app. split.
    + eapply Forall_impl; [exact Hlt|]. simpl. lia.
    + apply Forall_singleton. lia.
  - rewrite fmap_app. apply NoDup_app. split; [done|].
    split; [|apply NoDup_singleton].
    by intros k Hk ->%list_elem_of_singleton.
  - apply Forall_app. split; [done|]. by apply Forall_singleton.
Qed.

Lemma orderlyRatings_revalue classes next (l : list RatingType) (i : nat)
    (r : RatingType) (v : Z) :
  orderlyRatings classes next l -> l !! i = Some r ->
  orderlyRatings classes next (<[i := withValue v r]> l).
Proof.
  intros (Hids & Hlt & Hkeys & Hoff) Hi.
  assert (r ∈ l) as Hr by by eapply list_elem_of_lookup_2.
  split; [|split; [|split]].
  - rewrite list_fmap_insert. simpl.
    rewrite list_insert_id; [done|]. by rewrite list_lookup_fmap, Hi.
  - apply Forall_insert; [done|]. rewrite Forall_forall in Hlt. exact (Hlt r Hr).
  - rewrite list_fmap_insert.
    rewrite list_insert_id; [done|]. by rewrite list_lookup_fmap, Hi.
  - apply Forall_insert; [done|]. rewrite Forall_forall in Hoff.
    destruct (Hoff r Hr) as (c & ? & ? & ? & ?). by exists c.
Qed.

Lemma orderlyRatings_batch classes (user : string) (classId : ObjectId)
    (courseId : string) (year : Z) (semester : Semester)
    (subject courseNumber classNumber : string) (metrics : list MetricInput)
    (next : ObjectId) (l : list RatingType) :
  orderlyRatings classes next l ->
  NoDup (mi_metricName <$> metrics) ->
  (forall metric, metric ∈ metrics ->
     (user, subject, courseNumber, mi_metricName metric) ∉ voteKey <$> l) ->
  (exists c, c ∈ classes /\ cl_subject c = subject
             /\ cl_courseNumber c = courseNumber /\ cl_courseId c = courseId) ->
  orderlyRatings classes (next + Z.of_nat (length metrics))
    (l ++ imap (fun k metric =>
                  newRating (next + Z.of_nat k) user
                    (mkRatingData classId courseId year semester subject
                       courseNumber classNumber (mi_metricName metric)
                       (mi_value metric))) metrics).
Proof.
  intros Hl Hnames Hkeys Hclass. revert next l Hl Hkeys.
  induction metrics as [|metric metrics IH]; intros next l Hl Hkeys.
  - simpl. by rewrite app_nil_r, Z.add_0_r.
  - rewrite fmap_cons in Hnames. apply NoDup_cons in Hnames as [Hname Hnames].
    rewrite imap_cons, (cons_middle _ l), app_assoc.
    replace (next + Z.of_nat (length (metric :: metrics)))
      with (next + 1 + Z.of_nat (length metrics)) by (simpl length; lia).
    assert (forall g : nat -> MetricInput -> RatingType,
               (forall k x, g k x
                            = newRating (next + 1 + Z.of_nat k) user
                                (mkRatingData classId courseId year semester subject
                                   courseNumber classNumber (mi_metricName x)
                                   (mi_value x))) ->
               orderlyRatings classes (next + 1 + Z.of_nat (length metrics))
                 ((l ++ [newRating (next + Z.of_nat 0) user
                           (mkRatingData classId courseId year semester subject
                              courseNumber classNumber (mi_metricName metric)
                              (mi_value metric))])
                    ++ imap g metrics)) as Hgoal.
    { intros g Hg. erewrite (imap_ext g); [|intros k x _; apply Hg].
      apply (IH Hnames (next + 1)).
      - apply orderlyRatings_snoc; [done|simpl; lia| |].
        + apply Hkeys. by left.
        + destruct Hclass as (c & ? & ? & ? & ?). by exists c.
      - intros metric' Hin. rewrite fmap_app. intros [Hold|Hnew]%elem_of_app.
        + revert Hold. apply Hkeys. by right.
        + apply list_elem_of_singleton in Hnew. injection Hnew as Heq.
          apply Hname. rewrite <- Heq. apply list_elem_of_fmap. by exists metric'. }
    apply Hgoal. intros k x. simpl. f_equal. lia.
Qed.

(** X26. One vote per user, course and metric.  Call a database orderly
    when its [_id]s are unique and below the next one, no two ratings share
    user, subject, course number and metric, every rating is for a course of
    one of the classes, and the classes of one subject and course number
    belong to one course.  Each of the four mutating operations takes an
    orderly database to an orderly one, whether it returns or throws and
    whatever the storage does; for the batch submission this needs the
    metrics of the batch to be distinct. *)
Theorem one_vote_per_user_course_and_metric :
  (forall context year semester subject courseNumber classNumber metricName
          value w,
      orderly (db w) ->
      orderly (db (createRating context year semester subject courseNumber
                     classNumber metricName value w).2))
  /\ (forall context year semester subject courseNumber classNumber metrics w,
        orderly (db w) ->
        NoDup (mi_metricName <$> metrics) ->
        orderly (db (createRatings context year semester subject courseNumber
                       classNumber metrics w).2))
  /\ (forall context year semester subject courseNumber classNumber metricName w,
        orderly (db w) ->
        orderly (db (deleteRating context year semester subject courseNumber
                       classNumber metricName None w).2))
  /\ (forall context subject courseNumber w,
        orderly (db w) ->
        orderly (db (deleteRatings context subject courseNumber w).2)).
Proof.
  split; [|split; [|split]].
  - intros context year semester subject courseNumber classNumber metricName
      value w [Hl Hagree].
    destruct (createRating context year semester subject courseNumber classNumber
                metricName value w) as [[b|e] w'] eqn:Hrun; simpl;
      [|by rewrite (createRating_failSafe _ _ _ _ _ _ _ _ _ _ _ Hrun)].
    pose proof Hl as (Hnd & _ & Hkeys & _).
    destruct (createRating_Ok_inv _ _ _ _ _ _ _ _ _ _ _ Hnd Hrun)
      as (j & classDoc & Hj & Hcls & Hshape).
    apply list_find_Some in Hj as (Hj & (_ & _ & Hsub & Hnum & _) & _).
    apply list_elem_of_lookup_2 in Hj.
    assert (offered (classes (db w))
              (newRating (nextId (db w)) (user_id context)
                 (mkRatingData (cl_id classDoc) (cl_courseId classDoc) year
                    semester subject courseNumber classNumber metricName value)))
      as Hfresh by by exists classDoc.
    unfold orderly. rewrite Hcls. split; [|done]. simpl in Hshape.
    destruct Hshape as [(Hnone & -> & ->)
                       |[(i & r & Hfind & _ & -> & ->)
                        |(i & r & Hfind & _ & _ & _ & -> & ->)]].
    + apply orderlyRatings_snoc; [done|done| |done].
      intros (r & Hkey & Hr)%list_elem_of_fmap.
      apply list_find_None in Hnone. rewrite Forall_forall in Hnone.
      apply (Hnone r Hr). injection Hkey as ? ? ? ?. by repeat split.
    + apply list_find_Some in Hfind as (Hi & (Hu & Hs & Hc & Hm) & _).
      apply orderlyRatings_snoc; [|done| |done].
      * eapply orderlyRatings_sublist; [exact Hl|apply sublist_delete].
      * replace (voteKey (newRating _ _ _)) with (voteKey r)
          by (unfold voteKey; simpl; congruence).
        by apply NoDup_fmap_delete_lookup.
    + apply list_find_Some in Hfind as (Hi & _).
      by apply orderlyRatings_revalue.
  - intros context year semester subject courseNumber classNumber metrics w
      [Hl Hagree] Hnames.
    destruct (createRatings context year semester subject courseNumber classNumber
                metrics w) as [[b|e] w'] eqn:Hrun; simpl;
      [|by rewrite (createRatings_failSafe _ _ _ _ _ _ _ _ _ _ Hrun)].
    pose proof Hl as (Hnd & _ & _ & Hoff).
    destruct (createRatings_Ok_inv _ _ _ _ _ _ _ _ _ _ Hnd Hrun)
      as (j & classDoc & Hj & Hr & Hn & Hcls).
    apply list_find_Some in Hj as (Hj & (_ & _ & Hsub & Hnum & _) & _).
    apply list_elem_of_lookup_2 in Hj.
    unfold orderly. rewrite Hcls, Hr, Hn. split; [|done].
    apply orderlyRatings_batch; [|done| |by exists classDoc].
    + eapply orderlyRatings_sublist; [exact Hl|apply sublist_filter].
    + intros metric _ (r & Hkey & Hin)%list_elem_of_fmap.
      apply list_elem_of_filter in Hin as [Hnot Hin]. apply Hnot.
      injection Hkey as Hu Hs Hc _. split; [done|].
      rewrite Forall_forall in Hoff.
      destruct (Hoff r Hin) as (c & Hc1 & Hc2 & Hc3 & <-).
      apply Hagree; [done|done|congruence|congruence].
  - intros context year semester subject courseNumber classNumber metricName w
      [Hl Hagree].
    destruct (deleteRating context year semester subject courseNumber classNumber
                metricName None w) as [[b|e] w'] eqn:Hrun; simpl;
      [|by rewrite (deleteRating_failSafe _ _ _ _ _ _ _ _ _ _ Hrun)].
    pose proof Hl as (Hnd & _).
    destruct (deleteRating_Ok_inv _ _ _ _ _ _ _ _ _ _ Hnd Hrun)
      as (i & r & k & m & _ & _ & ->).
    split; [|done]. simpl.
    eapply orderlyRatings_sublist; [exact Hl|apply sublist_delete].
  - intros context subject courseNumber w [Hl Hagree].
    destruct (deleteRatings context subject courseNumber w) as [[b|e] w'] eqn:Hrun;
      simpl; [|by rewrite (deleteRatings_failSafe _ _ _ _ _ _ Hrun)].
    pose proof Hl as (Hnd & _).
    destruct (deleteRatings_Ok_inv _ _ _ _ _ _ Hnd Hrun) as (Hr & Hn & Hcls).
    unfold orderly. rewrite Hcls, Hr, Hn. split; [|done].
    eapply orderlyRatings_sublist; [exact Hl|apply sublist_filter].
Qed.

Lemma fresh_ids_batch (user : string) (rdOf : MetricInput -> RatingData)
    (metrics : list MetricInput) (next : ObjectId) (l : list RatingType) :
  NoDup (r_id <$> l) -> Forall (fun r => r_id r < next) l ->
  NoDup (r_id <$> (l ++ imap (fun k metric =>
                                newRating (next + Z.of_nat k) user (rdOf metric))
                          metrics)%list)
  /\ Forall (fun r => r_id r < next + Z.of_nat (length metrics))
       (l ++ imap (fun k metric => newRating (next + Z.of_nat k) user (rdOf metric))
               metrics).
Proof.
  intros Hnd Hlt. split.
  - rewrite fmap_app. apply NoDup_app. split; [done|]. split.
    + intros id (r & -> & Hr)%list_elem_of_fmap (x & Hid & Hx)%list_elem_of_fmap.
      apply elem_of_lookup_imap in Hx as (k & metric & -> & _).
      rewrite Forall_forall in Hlt. specialize (Hlt r Hr). simpl in *. lia.
    + apply NoDup_alt. intros i j id Hi Hj.
      rewrite list_lookup_fmap, list_lookup_imap in Hi, Hj.
      destruct (metrics !! i) as [mi|]; [|done].
      destruct (metrics !! j) as [mj|]; [|done].
      simpl in *. injection Hi as <-. injection Hj as Hj. lia.
  - apply Forall_app. split.
    + eapply Forall_impl; [exact Hlt|]. simpl. lia.
    + apply Forall_forall. intros x Hx.
      apply elem_of_lookup_imap in Hx as (k & metric & -> & Hk).
      apply lookup_lt_Some in Hk. simpl. lia.
Qed.

(** X27. A batch that is submitted again replaces the first one: when two
    batch submissions of a user for a class return one after the other, no
    rating of the first batch is left.  With ids unique and below the next
    one at the start, the collection then is the original one without the
    user's ratings for the course, followed by the ratings of the second
    batch alone, under the ids that follow those of the first. *)
Theorem resubmitted_batch_does_not_accumulate (context : RequestContext)
    (year : Z) (semester : Semester) (subject courseNumber classNumber : string)
    (first second : list MetricInput) (w : World) (b1 b2 : bool) (w1 w2 : World) :
  NoDup (r_id <$> ratings (db w)) ->
  Forall (fun r => r_id r < nextId (db w)) (ratings (db w)) ->
  createRatings context year semester subject courseNumber classNumber first w
  = (Ok b1, w1) ->
  createRatings context year semester subject courseNumber classNumber second w1
  = (Ok b2, w2) ->
  exists j classDoc,
    list_find (classOf year semester subject courseNumber classNumber)
      (classes (db w)) = Some (j, classDoc)
    /\ ratings (db w2)
       = (filter (fun r => ~ ratedCourse (user_id context) (cl_courseId classDoc) r)
            (ratings (db w))
          ++ imap (fun k metric =>
                     newRating (nextId (db w) + Z.of_nat (length first) + Z.of_nat k)
                       (user_id context)
                       (mkRatingData (cl_id classDoc) (cl_courseId classDoc) year
                          semester subject courseNumber classNumber
                          (mi_metricName metric) (mi_value metric))) second)%list.
Proof.
  intros Hnd Hlt Hrun1 Hrun2.
  destruct (createRatings_Ok_inv _ _ _ _ _ _ _ _ _ _ Hnd Hrun1)
    as (j & classDoc & Hj & Hr1 & Hn1 & Hcls1).
  assert (NoDup (r_id <$> ratings (db w1))) as Hnd1.
  { rewrite Hr1. apply fresh_ids_batch.
    - by apply NoDup_fmap_filter.
    - apply Forall_forall. intros x [_ Hx]%list_elem_of_filter.
      rewrite Forall_forall in Hlt. by apply Hlt. }
  destruct (createRatings_Ok_inv _ _ _ _ _ _ _ _ _ _ Hnd1 Hrun2)
    as (j' & classDoc' & Hj' & Hr2 & _ & _).
  rewrite Hcls1, Hj in Hj'. injection Hj' as <- <-.
  exists j, classDoc. split; [exact Hj|].
  rewrite Hr2, Hn1, Hr1, filter_app, list_filter_filter.
  f_equal.
  rewrite (filter_ext_in _ (fun r => ~ ratedCourse (user_id context)
                                        (cl_courseId classDoc) r))
    by (intros x _; tauto).
  rewrite (filter_none (fun r => ~ ratedCourse _ _ r) (imap _ first));
    [by rewrite app_nil_r|].
  apply list_find_None, Forall_forall. intros x Hx Hnot.
  apply elem_of_lookup_imap in Hx as (k & metric & -> & _). by apply Hnot.
Qed.

End Properties.

(** * Runs of the concrete deployment *)

#[local] Existing Instance demoShapes.
#[local] Existing Instance demoCollaborators.

(** The fixture [ratedDB] is what Alice's first submission commits. *)
Lemma ratedDB_reached :
  let out := createRating alice 2024 "Fall" "COMPSCI" "61A" "001" "Usefulness" 3
               (demoWorldOf demoDB) in
  out.1 = Ok true /\ db out.2 = ratedDB.
Proof. vm_compute. by split. Qed.

(** C1, run: Alice moves her vote from Fall (value 3) to Spring (value 5). *)
Lemma replacing_across_terms_witness :
  exists w',
    createRating alice 2025 "Spring" "COMPSCI" "61A" "001" "Usefulness" 5
      (demoWorldOf ratedDB) = (Ok true, w')
    /\ sessionsStarted w' = 1%nat
    /\ countAt 1 "Usefulness" 3 (aggregatedMetrics (db w')) = Some 0
    /\ countAt 2 "Usefulness" 5 (aggregatedMetrics (db w')) = Some 1
    /\ filter (ratedBy "alice" "COMPSCI" "61A" "Usefulness") (ratings (db w'))
       = [mkRating 101 "alice" 2 "c61a" 2025 "Spring" "COMPSCI" "61A" "001"
            "Usefulness" 5].
Proof.
  destruct (replacing_across_terms_moves_the_vote alice 2025 "Spring" "COMPSCI"
              "61A" "001" "Usefulness" 5 (demoWorldOf ratedDB)
              1%nat 0%nat 2%nat classSpring ratingFall (rowFall 3 1)
              [1; 2; 3; 4; 5])
    as [(w' & Hrun & Hs & _ & Hold & Hnew & Honly) _].
  - reflexivity.
  - reflexivity.
  - reflexivity.
  - reflexivity.
  - reflexivity.
  - left. vm_compute. congruence.
  - apply NoDup_singleton.
  - reflexivity.
  - vm_compute. congruence.
  - left. split; [|reflexivity]. refine (bool_decide_unpack _ _). vm_compute. exact I.
  - refine (bool_decide_unpack _ _). vm_compute. exact I.
  - reflexivity.
  - exists w'. split; [exact Hrun|]. split; [exact Hs|]. split; [exact Hold|].
    split; [exact Hnew|]. apply Honly. reflexivity.
Defined.

(** C2, run: the first increment for (Fall, Usefulness, 3) on an empty
    collection. *)
Lemma increment_materializes_witness :
  handleCategoryCountChange 1 "c61a" 2024 "Fall" "COMPSCI" "61A" "001"
    "Usefulness" 3 true None (demoWorldOf demoDB)
  = (Ok tt, demoWorldOf (set_aggregatedMetrics
                           [rowFall 1 0; rowFall 2 0; rowFall 3 1; rowFall 4 0;
                            rowFall 5 0] demoDB)).
Proof.
  apply (increment_materializes_domain 1 "c61a" 2024 "Fall" "COMPSCI" "61A" "001"
           "Usefulness" 3 None (demoWorldOf demoDB) [1; 2; 3; 4; 5]).
  - apply Forall_nil_2.
  - reflexivity.
  - left. split; [|reflexivity]. refine (bool_decide_unpack _ _). vm_compute. exact I.
Defined.



(** C4, run: a decrement on the empty collection. *)
Lemma decrement_without_row_witness :
  exists e,
    handleCategoryCountChange 1 "c61a" 2024 "Fall" "COMPSCI" "61A" "001"
      "Usefulness" 3 false None (demoWorldOf demoDB)
    = (Err e, demoWorldOf demoDB)
    /\ errorCode e = Some "NOT_FOUND"
    /\ errorKind e = Some NotFound.
Proof.
  apply (decrement_without_row 1 "c61a" 2024 "Fall" "COMPSCI" "61A" "001"
           "Usefulness" 3 None (demoWorldOf demoDB)).
  apply Forall_nil_2.
Defined.

(** C4, refuted as stated: the error of a decrement without a row is not
    of the InvariantViolation kind; its code is that of NotFound. *)
Lemma decrement_without_row_is_not_found :
  ~ exists e,
      (handleCategoryCountChange 1 "c61a" 2024 "Fall" "COMPSCI" "61A" "001"
         "Usefulness" 3 false None (demoWorldOf demoDB)).1 = Err e
      /\ errorKind e = Some InvariantViolation.
Proof. intros (e & Hrun & Hkind). vm_compute in Hrun. by injection Hrun as <-. Qed.

(** C5, run: Alice submits value 3 for the Fall offering again. *)
Lemma resubmitting_same_value_witness :
  let out := createRating alice 2024 "Fall" "COMPSCI" "61A" "001" "Usefulness" 3
               (demoWorldOf ratedDB) in
  db out.2 = ratedDB /\ out.1 = Ok true.
Proof.
  destruct (resubmitting_same_value_is_noop alice 2024 "Fall" "COMPSCI" "61A"
              "001" "Usefulness" 3 (demoWorldOf ratedDB) 0%nat ratingFall)
    as [Hdb Hok]; try reflexivity.
  split; [exact Hdb|]. apply Hok; try reflexivity.
  by exists 0%nat, classFall.
Defined.

(** C6, run: at time 50 the entry that expires at 100 answers the read. *)
Lemma cached_value_witness :
  getCourseAggregatedRatings "COMPSCI" "61A" None (cachedWorld demoDB 50 None)
  = (Ok demoAggregate, cachedWorld demoDB 50 None).
Proof.
  apply (proj2 cached_value_until_expiry "COMPSCI" "61A" None
           (cachedWorld demoDB 50 None) 0%nat (mkCourseDoc "COMPSCI" "61A" "c61a")
           (mkCacheEntry demoAggregate 100)); try reflexivity.
  vm_compute. congruence.
Defined.

(** C6, refuted as stated: at the instant of expiry, [now = expiresAt = 100],
    [now < expiresAt] is false and yet the read returns the cached value. *)
Lemma cached_value_at_expiry :
  let w := cachedWorld demoDB 100 None in
  courseAggregatedRatingsCache w !! "c61a:all" = Some (mkCacheEntry demoAggregate 100)
  /\ ~ (clock w < 100)
  /\ getCachedValue courseAggregatedRatingsCacheRef "c61a:all" w
     = (Ok (Some demoAggregate), w).
Proof. split; [reflexivity|]. split; [vm_compute; congruence|reflexivity]. Qed.



(** C8, at the failing input. Alice holds her Fall rating, the caches hold
    the course, and the storage rejects the third write of the transaction,
    the creation of the Spring rating.  [createRating] throws and the
    database is rolled back, but the nested [deleteRating] has already
    invalidated the course: the three cache entries are gone. *)
Lemma replacement_invalidates_before_commit :
  let w := cachedWorld ratedDB 0 (Some 2%nat) in
  let out := createRating alice 2025 "Spring" "COMPSCI" "61A" "001" "Usefulness" 5 w in
  out.1 = Err StorageError
  /\ db out.2 = db w
  /\ is_Some (courseAggregatedRatingsCache w !! "c61a:all")
  /\ courseAggregatedRatingsCache out.2 !! "c61a:all" = None
  /\ semestersWithRatingsCache out.2 !! "c61a" = None
  /\ instructorAggregatedRatingsCache out.2 !! "c61a" = None.
Proof.
  split; [reflexivity|]. split; [reflexivity|]. split; [by eexists|].
  by repeat split.
Qed.

(** C9, run: an anonymous caller. *)
Lemma mutations_require_identity_witness :
  createRating anonymous 2024 "Fall" "COMPSCI" "61A" "001" "Usefulness" 3
    (demoWorldOf ratedDB) = (Err unauthorized, demoWorldOf ratedDB)
  /\ deleteRatings anonymous "COMPSCI" "61A" (demoWorldOf ratedDB)
     = (Err unauthorized, demoWorldOf ratedDB).
Proof.
  destruct (mutations_require_identity anonymous (demoWorldOf ratedDB) eq_refl)
    as (_ & Hcreate & _ & _ & Hdelete).
  split; [apply Hcreate|apply Hdelete].
Defined.

(** C10, run: Alice has rated nothing yet. *)
Lemma deleteRatings_nothing_witness :
  deleteRatings alice "COMPSCI" "61A" (cachedWorld demoDB 0 None)
  = (Ok true, cachedWorld demoDB 0 None).
Proof.
  apply (deleteRatings_nothing_to_delete alice "COMPSCI" "61A"
           (cachedWorld demoDB 0 None)); reflexivity.
Defined.

(** X1, run: Alice's first submission for the Fall offering. *)
Lemma first_vote_witness :
  exists w',
    createRating alice 2024 "Fall" "COMPSCI" "61A" "001" "Usefulness" 3
      (demoWorldOf demoDB) = (Ok true, w')
    /\ ratings (db w') = [ratingFall]
    /\ countAt 1 "Usefulness" 3 (aggregatedMetrics (db w')) = Some 1.
Proof.
  destruct (first_vote_is_recorded alice 2024 "Fall" "COMPSCI" "61A" "001"
              "Usefulness" 3 (demoWorldOf demoDB) 0%nat classFall [1; 2; 3; 4; 5])
    as (w' & Hrun & Hr & _ & Hcount & _).
  - reflexivity.
  - reflexivity.
  - reflexivity.
  - reflexivity.
  - reflexivity.
  - left. split; [|reflexivity]. refine (bool_decide_unpack _ _). vm_compute. exact I.
  - refine (bool_decide_unpack _ _). vm_compute. exact I.
  - reflexivity.
  - exists w'. split; [exact Hrun|]. split; [exact Hr|exact Hcount].
Defined.

(** X2, run: Alice changes her Fall rating from 3 to 4. *)
Lemma revote_in_term_witness :
  exists w',
    createRating alice 2024 "Fall" "COMPSCI" "61A" "001" "Usefulness" 4
      (demoWorldOf ratedDB) = (Ok true, w')
    /\ ratings (db w') = [withValue 4 ratingFall]
    /\ countAt 1 "Usefulness" 3 (aggregatedMetrics (db w')) = Some 0
    /\ countAt 1 "Usefulness" 4 (aggregatedMetrics (db w')) = Some 1.
Proof.
  destruct (revote_in_term_updates_in_place alice 2024 "Fall" "COMPSCI" "61A"
              "001" "Usefulness" 4 (demoWorldOf ratedDB) 0%nat 0%nat 2%nat
              classFall ratingFall (rowFall 3 1) [1; 2; 3; 4; 5])
    as (w' & Hrun & Hr & _ & Hold & Hnew).
  - reflexivity.
  - reflexivity.
  - reflexivity.
  - reflexivity.
  - reflexivity.
  - reflexivity.
  - reflexivity.
  - reflexivity.
  - vm_compute. congruence.
  - apply NoDup_singleton.
  - reflexivity.
  - left. split; [|reflexivity]. refine (bool_decide_unpack _ _). vm_compute. exact I.
  - refine (bool_decide_unpack _ _). vm_compute. exact I.
  - reflexivity.
  - exists w'. split; [exact Hrun|]. split; [exact Hr|]. split; [exact Hold|exact Hnew].
Defined.

(** X3, run: the storage rejects the fourth write of Alice's batch, after
    the old rating is gone and the first new one is in. *)
Lemma failed_batch_commits_nothing :
  let w := demoWorldOf ratedDB in
  let out :=
    createRatings alice 2025 "Spring" "COMPSCI" "61A" "001"
      springBatch (set_faultIn (Some 3%nat) w) in
  out.1 = Err StorageError /\ db out.2 = ratedDB.
Proof.
  intros w out. split; [vm_compute; reflexivity|].
  apply (proj1 (proj2 failed_mutation_commits_nothing) alice 2025 "Spring"
           "COMPSCI" "61A" "001" springBatch (set_faultIn (Some 3%nat) w)
           StorageError out.2).
  vm_compute. reflexivity.
Defined.

(** X4, run: the same failing batch on a world whose caches hold the
    course. *)
Lemma failed_batch_keeps_caches :
  let w := cachedWorld ratedDB 0 (Some 3%nat) in
  let out :=
    createRatings alice 2025 "Spring" "COMPSCI" "61A" "001"
      springBatch w in
  out.1 = Err StorageError /\ caches out.2 = caches w.
Proof.
  intros w out. split; [vm_compute; reflexivity|].
  apply (proj1 failed_mutation_keeps_caches alice 2025 "Spring"
           "COMPSCI" "61A" "001" springBatch w StorageError out.2).
  vm_compute. reflexivity.
Defined.

(** X5, run: Alice rates a term in which the course is not offered. *)
Lemma rejected_submission_witness :
  createRating alice 2030 "Fall" "COMPSCI" "61A" "001" "Usefulness" 3
    (demoWorldOf ratedDB)
  = (Err (classNotFound 2030 "Fall" "COMPSCI" "61A" "001"), demoWorldOf ratedDB).
Proof.
  apply (rejected_submission_touches_nothing alice 2030 "Fall" "COMPSCI" "61A"
           "001" "Usefulness" 3 (demoWorldOf ratedDB) eq_refl); reflexivity.
Defined.

(** X6, run: Alice's batch lacks two of the three required metrics. *)
Lemma rejected_batch_witness :
  exists e,
    createRatings alice 2025 "Spring" "COMPSCI" "61A" "001"
      [mkMetricInput "Usefulness" 5] (demoWorldOf ratedDB)
    = (Err e, demoWorldOf ratedDB)
    /\ errorCode e = Some "BAD_USER_INPUT"
    /\ errorKind e = Some BadInput.
Proof.
  apply (proj1 (rejected_batch_touches_nothing alice 2025 "Spring" "COMPSCI" "61A"
                  "001" [mkMetricInput "Usefulness" 5] (demoWorldOf ratedDB)
                  eq_refl) "Difficulty").
  - refine (bool_decide_unpack _ _). vm_compute. exact I.
  - refine (bool_decide_unpack _ _). vm_compute. exact I.
Defined.

(** X7, run: Alice, who holds a Fall rating, submits a batch for Spring. *)
Lemma committed_batch_witness :
  let out :=
    createRatings alice 2025 "Spring" "COMPSCI" "61A" "001"
      springBatch (demoWorldOf ratedDB) in
  ratings (db out.2)
  = [mkRating 101 "alice" 2 "c61a" 2025 "Spring" "COMPSCI" "61A" "001" "Usefulness" 5;
     mkRating 102 "alice" 2 "c61a" 2025 "Spring" "COMPSCI" "61A" "001" "Difficulty" 2;
     mkRating 103 "alice" 2 "c61a" 2025 "Spring" "COMPSCI" "61A" "001" "Workload" 3].
Proof.
  intros out.
  destruct (committed_batch_replaces_the_ratings alice 2025 "Spring" "COMPSCI"
              "61A" "001"
              springBatch (demoWorldOf ratedDB) true out.2)
    as (j & classDoc & Hclass & Hr & _).
  - apply NoDup_singleton.
  - vm_compute. reflexivity.
  - vm_compute in Hclass. injection Hclass as <- <-. exact Hr.
Defined.

(** X8, run: Alice holds no Difficulty rating. *)
Lemma deleting_a_missing_rating_witness :
  exists w',
    deleteRating alice 2024 "Fall" "COMPSCI" "61A" "001" "Difficulty" None
      (cachedWorld ratedDB 0 None) = (Err ratingNotFound, w')
    /\ db w' = ratedDB
    /\ caches w' = caches (cachedWorld ratedDB 0 None).
Proof.
  destruct (deleting_a_missing_rating_fails alice 2024 "Fall" "COMPSCI" "61A"
              "001" "Difficulty" (cachedWorld ratedDB 0 None) eq_refl eq_refl)
    as (_ & (w' & Hrun & Hdb & Hcaches & _) & _).
  exists w'. split; [exact Hrun|]. split; [exact Hdb|exact Hcaches].
Defined.

(** X9, run: Alice deletes her Fall rating. *)
Lemma committed_deletion_witness :
  let out := deleteRating alice 2024 "Fall" "COMPSCI" "61A" "001" "Usefulness"
               None (demoWorldOf ratedDB) in
  ratings (db out.2) = []
  /\ aggregatedMetrics (db out.2)
     = [rowFall 1 0; rowFall 2 0; rowFall 3 0; rowFall 4 0; rowFall 5 0].
Proof.
  intros out.
  destruct (committed_deletion_removes_one_rating alice 2024 "Fall" "COMPSCI"
              "61A" "001" "Usefulness" (demoWorldOf ratedDB) true out.2)
    as (i & r & k & m & Hfind & Hrow & Hr & Hm & _).
  - apply NoDup_singleton.
  - vm_compute. reflexivity.
  - vm_compute in Hfind. injection Hfind as <- <-.
    vm_compute in Hrow. injection Hrow as <- <-.
    split; [exact Hr|exact Hm].
Defined.

(** X10, run: Alice deletes her ratings of the course. *)
Lemma committed_deletion_of_all_witness :
  let out := deleteRatings alice "COMPSCI" "61A" (demoWorldOf ratedDB) in
  ratings (db out.2) = [] /\ nextId (db out.2) = 101.
Proof.
  intros out.
  destruct (committed_deletion_removes_the_users_ratings alice "COMPSCI" "61A"
              (demoWorldOf ratedDB) true out.2) as (Hr & _ & Hn).
  - apply NoDup_singleton.
  - vm_compute. reflexivity.
  - split; [exact Hr|exact Hn].
Defined.

(** X11, run: at time 150 the sweep drops the entry that expired at 100. *)
Lemma sweep_witness :
  exists w',
    sweepExpiredEntries courseAggregatedRatingsCacheRef (cachedWorld demoDB 150 None)
    = (Ok tt, w')
    /\ courseAggregatedRatingsCache w' !! "c61a:all" = None.
Proof.
  destruct (sweep_drops_exactly_the_expired courseAggregatedRatingsCacheRef
              (cachedWorld demoDB 150 None)) as (w' & Hrun & Hlookup & _).
  - split; reflexivity.
  - exists w'. split; [exact Hrun|]. exact (Hlookup "c61a:all").
Defined.

(** X12, run: an aggregate stored for a second is read back at once. *)
Lemma cached_value_round_trip_witness :
  exists w1,
    setCachedValue courseAggregatedRatingsCacheRef "c61a:all" demoAggregate 1000
      (demoWorldOf demoDB) = (Ok tt, w1)
    /\ getCachedValue courseAggregatedRatingsCacheRef "c61a:all" w1
       = (Ok (Some demoAggregate), w1).
Proof.
  destruct (cached_value_round_trip courseAggregatedRatingsCacheRef "c61a:all"
              demoAggregate 1000 (demoWorldOf demoDB)) as (w1 & Hset & Hget & _).
  - split; reflexivity.
  - exists w1. split; [exact Hset|]. apply Hget. lia.
Defined.

(** X13, run: two metrics, asked for in either order. *)
Lemma metric_names_key_witness :
  getMetricNamesKey (Some ["Workload"; "Difficulty"])
  = getMetricNamesKey (Some ["Difficulty"; "Workload"]).
Proof.
  apply (metric_names_key_ignores_order ["Workload"; "Difficulty"]
           ["Difficulty"; "Workload"]).
  - split; [|split].
    + intros a b [->|[->|[]%elem_of_nil]%elem_of_cons]%elem_of_cons
                 [->|[->|[]%elem_of_nil]%elem_of_cons]%elem_of_cons;
        first [left; vm_compute; congruence|right; vm_compute; congruence].
    + intros a b [->|[->|[]%elem_of_nil]%elem_of_cons]%elem_of_cons
                 [->|[->|[]%elem_of_nil]%elem_of_cons]%elem_of_cons Hab Hba;
        first [reflexivity|exfalso; apply Hab; reflexivity
              |exfalso; apply Hba; reflexivity].
    + intros a b c [->|[->|[]%elem_of_nil]%elem_of_cons]%elem_of_cons
                   [->|[->|[]%elem_of_nil]%elem_of_cons]%elem_of_cons
                   [->|[->|[]%elem_of_nil]%elem_of_cons]%elem_of_cons Hab Hbc;
        first [vm_compute; congruence|exfalso; apply Hab; reflexivity
              |exfalso; apply Hbc; reflexivity].
  - apply perm_swap.
Defined.

(** X15, run: a course that is not in the catalogue. *)
Lemma unknown_course_witness :
  getCourseAggregatedRatings "MATH" "1A" None (cachedWorld ratedDB 0 None)
  = (Ok (noRatings "MATH" "1A"), cachedWorld ratedDB 0 None)
  /\ getCourseRatingsCount "MATH" "1A" (cachedWorld ratedDB 0 None)
     = (Ok 0, cachedWorld ratedDB 0 None).
Proof.
  apply (unknown_course_has_no_ratings "MATH" "1A" None (cachedWorld ratedDB 0 None)).
  left. reflexivity.
Defined.

(** X16, run: the aggregate computed before Alice's rating is committed is
    still what a read returns afterwards, as long as the cache holds it. *)
Lemma aggregate_is_served_witness :
  exists fresh w1,
    getCourseAggregatedRatings "COMPSCI" "61A" None (demoWorldOf demoDB)
    = (Ok fresh, w1)
    /\ getCourseAggregatedRatings "COMPSCI" "61A" None (set_db ratedDB w1)
       = (Ok fresh, set_db ratedDB w1).
Proof.
  destruct (aggregate_is_served_from_the_cache "COMPSCI" "61A" None
              (demoWorldOf demoDB) 0%nat (mkCourseDoc "COMPSCI" "61A" "c61a"))
    as (fresh & w1 & _ & Hread & Hlater); try reflexivity.
  exists fresh, w1. split; [exact Hread|].
  apply Hlater; [reflexivity|reflexivity|].
  injection Hread as _ <-. vm_compute. congruence.
Defined.

(** X17, run: after Alice's submission the cached aggregate of the course is
    gone and the read computes it anew. *)
Lemma read_after_submission_witness :
  let w' := (createRating alice 2024 "Fall" "COMPSCI" "61A" "001" "Usefulness" 3
               (cachedWorld demoDB 0 None)).2 in
  exists fresh,
    getCourseAggregatedRatings "COMPSCI" "61A" None w'
    = (Ok fresh,
       set_courseCache
         (<["c61a:all" := mkCacheEntry fresh 120000]>
            (courseAggregatedRatingsCache w')) w').
Proof.
  intros w'.
  destruct (read_after_submission_recomputes alice 2024 "Fall" "COMPSCI" "61A"
              "001" "Usefulness" 3 (cachedWorld demoDB 0 None) true w'
              0%nat 0%nat classFall (mkCourseDoc "COMPSCI" "61A" "c61a") None)
    as (fresh & _ & Hread).
  - vm_compute. reflexivity.
  - reflexivity.
  - vm_compute. reflexivity.
  - reflexivity.
  - reflexivity.
  - exists fresh. exact Hread.
Defined.

(** X19, run: an increment for a metric that the mappings do not know. *)
Lemma unmapped_metric_witness :
  exists e,
    handleCategoryCountChange 1 "c61a" 2024 "Fall" "COMPSCI" "61A" "001"
      "Mood" 3 true None (demoWorldOf ratedDB) = (Err e, demoWorldOf ratedDB)
    /\ errorCode e = Some "INVALID_ARGUMENT"
    /\ errorKind e = Some InvalidArgument.
Proof.
  apply (proj2 unmapped_metric_is_rejected 1 "c61a" 2024 "Fall" "COMPSCI" "61A"
           "001" "Mood" 3 None (demoWorldOf ratedDB)).
  - reflexivity.
  - refine (bool_decide_unpack _ _). vm_compute. exact I.
Defined.

(** X21, run: Alice rates the Fall offering and withdraws the rating. *)
Lemma vote_then_unvote_witness :
  exists w1 w2,
    createRating alice 2024 "Fall" "COMPSCI" "61A" "001" "Usefulness" 3
      (demoWorldOf demoDB) = (Ok true, w1)
    /\ deleteRating alice 2024 "Fall" "COMPSCI" "61A" "001" "Usefulness" None w1
       = (Ok true, w2)
    /\ ratings (db w2) = []
    /\ aggregatedMetrics (db w2)
       = [rowFall 1 0; rowFall 2 0; rowFall 3 0; rowFall 4 0; rowFall 5 0].
Proof.
  destruct (vote_then_unvote_restores alice 2024 "Fall" "COMPSCI" "61A" "001"
              "Usefulness" 3 (demoWorldOf demoDB) 0%nat classFall [1; 2; 3; 4; 5])
    as (w1 & w2 & Hrun1 & Hrun2 & Hr & _ & Hm & _).
  - reflexivity.
  - reflexivity.
  - reflexivity.
  - reflexivity.
  - reflexivity.
  - left. split; [|reflexivity]. refine (bool_decide_unpack _ _). vm_compute. exact I.
  - refine (bool_decide_unpack _ _). vm_compute. exact I.
  - reflexivity.
  - apply Forall_nil_2.
  - exists w1, w2. split; [exact Hrun1|]. split; [exact Hrun2|].
    split; [exact Hr|exact Hm].
Defined.

(** X22, run: Ada is visited twice in the Fall section and listed once,
    with the class once; the assistant is not listed. *)
Lemma instructors_collected_witness :
  collectInstructors demoSections
  = [("Ada_Lovelace", mkInstructorData "Ada" "Lovelace" [mkClassInfo "Fall" 2024 "001"]);
     ("Grace_Hopper", mkInstructorData "Grace" "Hopper" [mkClassInfo "Spring" 2025 "001"])]
  /\ NoDup (collectInstructors demoSections).*1.
Proof.
  split; [vm_compute; reflexivity|].
  apply (instructors_are_collected_once demoSections).
Defined.

(** X23, run: with Alice's Fall rating in the database, Ada has ratings and
    Grace, who teaches the Spring offering, has none. *)
Lemma instructor_ratings_witness :
  (@getInstructorAggregatedRatings countShapes countCollaborators
     countInstructorSide "COMPSCI" "61A" (countWorldOf ratedDB)).1
  = Ok ([("Ada", "Lovelace", [mkClassInfo "Fall" 2024 "001"])]
        : @InstructorAggregatedRatingsResult countShapes).
Proof.
  rewrite (proj1 (@instructor_ratings_on_a_miss countShapes countCollaborators
                    countInstructorSide "COMPSCI" "61A" (countWorldOf ratedDB)
                    0%nat (mkCourseDoc "COMPSCI" "61A" "c61a")
                    eq_refl eq_refl eq_refl)).
  vm_compute. reflexivity.
Defined.

(** X24, run: the semesters of the course, read with an empty cache. *)
Lemma semesters_read_witness :
  @getSemestersWithRatings countShapes countInstructorSide
    "COMPSCI" "61A" (countWorldOf ratedDB)
  = (Ok ([("Fall", 2024)] : @FormattedSemesterRatings countShapes),
     @set_semestersCache countShapes
       {[ "c61a" := mkCacheEntry ([("Fall", 2024)]
                                   : @FormattedSemesterRatings countShapes) 300000 ]}
       (countWorldOf ratedDB)).
Proof.
  rewrite (proj2 (proj2 (proj2 (@semesters_are_read_through countShapes
                                  countCollaborators countInstructorSide
                                  "COMPSCI" "61A" (countWorldOf ratedDB))
                           0%nat (mkCourseDoc "COMPSCI" "61A" "c61a")
                           eq_refl eq_refl)) eq_refl).
  reflexivity.
Defined.

(** X25, run: Alice, who holds a Fall rating, rates the Spring offering. *)
Lemma submission_does_one_of_three_things_witness :
  let out := createRating alice 2025 "Spring" "COMPSCI" "61A" "001" "Usefulness" 5
               (demoWorldOf ratedDB) in
  (ratings (db out.2), nextId (db out.2))
  = ([mkRating 101 "alice" 2 "c61a" 2025 "Spring" "COMPSCI" "61A" "001"
        "Usefulness" 5], 102).
Proof.
  intros out.
  destruct (submission_does_one_of_three_things alice 2025 "Spring" "COMPSCI"
              "61A" "001" "Usefulness" 5 (demoWorldOf ratedDB) true out.2)
    as (j & classDoc & Hclass & Heq).
  - apply NoDup_singleton.
  - vm_compute. reflexivity.
  - vm_compute in Hclass. injection Hclass as <- <-. exact Heq.
Defined.

Lemma ratedDB_orderly : orderly ratedDB.
Proof.
  split; [split; [|split; [|split]]|].
  - apply NoDup_singleton.
  - apply Forall_singleton. reflexivity.
  - apply NoDup_singleton.
  - apply Forall_singleton. exists classFall. split; [by left|done].
  - intros c1 c2 [->|[->|[]%elem_of_nil]%elem_of_cons]%elem_of_cons
                 [->|[->|[]%elem_of_nil]%elem_of_cons]%elem_of_cons; reflexivity.
Qed.

(** X26, run: after Alice's batch for the Spring offering no two ratings
    share user, course and metric. *)
Lemma one_vote_witness :
  NoDup (voteKey
           <$> ratings (db (createRatings alice 2025 "Spring" "COMPSCI" "61A" "001"
                              springBatch (demoWorldOf ratedDB)).2)).
Proof.
  destruct (proj1 (proj2 one_vote_per_user_course_and_metric) alice 2025 "Spring"
              "COMPSCI" "61A" "001" springBatch (demoWorldOf ratedDB))
    as [(_ & _ & Hkeys & _) _].
  - exact ratedDB_orderly.
  - refine (bool_decide_unpack _ _). vm_compute. exact I.
  - exact Hkeys.
Defined.

(** X27, run: Alice submits the batch for the Spring offering twice. *)
Lemma resubmitted_batch_witness :
  let w1 := (createRatings alice 2025 "Spring" "COMPSCI" "61A" "001" springBatch
               (demoWorldOf ratedDB)).2 in
  let w2 := (createRatings alice 2025 "Spring" "COMPSCI" "61A" "001" springBatch
               w1).2 in
  ratings (db w2)
  = [mkRating 104 "alice" 2 "c61a" 2025 "Spring" "COMPSCI" "61A" "001" "Usefulness" 5;
     mkRating 105 "alice" 2 "c61a" 2025 "Spring" "COMPSCI" "61A" "001" "Difficulty" 2;
     mkRating 106 "alice" 2 "c61a" 2025 "Spring" "COMPSCI" "61A" "001" "Workload" 3].
Proof.
  intros w1 w2.
  destruct (resubmitted_batch_does_not_accumulate alice 2025 "Spring" "COMPSCI"
              "61A" "001" springBatch springBatch (demoWorldOf ratedDB) true true
              w1 w2) as (j & classDoc & Hclass & Hr).
  - apply NoDup_singleton.
  - apply Forall_singleton. reflexivity.
  - vm_compute. reflexivity.
  - vm_compute. reflexivity.
  - vm_compute in Hclass. injection Hclass as <- <-. exact Hr.
Defined.
